(** * pydatajson: indicators and federation, a shallow embedding

    The Python sources embedded here are [pydatajson/indicators.py] and
    [pydatajson/federation.py].  Parsed catalogs are JSON values; Python
    exceptions are results of the [result] monad; Python floats are
    idealised as exact rationals. *)

From Stdlib Require Import ZArith QArith Qround String Ascii List Bool Lia.
From stdpp Require Import base option list strings gmap.

Set Warnings "-register-all".
Local Open Scope string_scope.
Local Open Scope Z_scope.

(** ** Python values *)

(** What [json.load] produces: [None], booleans, integers, floats, strings,
    lists and dicts.  A dict is an association list in insertion order; the
    first binding of a key is the one Python sees. *)
Inductive json : Type :=
  | JNull
  | JBool (b : bool)
  | JInt (n : Z)
  | JFloat (q : Q)
  | JStr (s : string)
  | JList (l : list json)
  | JDict (d : list (string * json)).

(** The exceptions of the embedded code; [ExternalError] is a failure of a
    collaborator that is not among the sources. *)
Inductive exn : Type :=
  | KeyError | TypeError | AttributeError | ZeroDivisionError | IndexError
  | ExternalError.

Inductive result (A : Type) : Type :=
  | Ok (a : A)
  | Raise (e : exn).
Arguments Ok {A} a.
Arguments Raise {A} e.

#[global] Instance result_ret : MRet result := fun _ a => Ok a.
#[global] Instance result_bind : MBind result := fun _ _ f m =>
  match m with Ok a => f a | Raise e => Raise e end.
#[global] Instance result_fmap : FMap result := fun _ _ f m =>
  match m with Ok a => Ok (f a) | Raise e => Raise e end.

(** A [for] loop with an accumulator whose body may raise. *)
Definition foldM {A B : Type} (f : B -> A -> result B) : list A -> B -> result B :=
  fix go (l : list A) (acc : B) : result B :=
    match l with
    | [] => Ok acc
    | x :: r => match f acc x with Ok acc' => go r acc' | Raise e => Raise e end
    end.

(** A list comprehension whose body may raise. *)
Definition mapM {A B : Type} (f : A -> result B) : list A -> result (list B) :=
  fix go (l : list A) : result (list B) :=
    match l with
    | [] => Ok []
    | x :: r =>
        match f x with
        | Ok y => match go r with Ok ys => Ok (y :: ys) | Raise e => Raise e end
        | Raise e => Raise e
        end
    end.

Fixpoint dict_lookup (k : string) (d : list (string * json)) : option json :=
  match d with
  | [] => None
  | (k', v) :: r => if String.eqb k k' then Some v else dict_lookup k r
  end.

Definition dict_has (k : string) (d : list (string * json)) : bool :=
  match dict_lookup k d with Some _ => true | None => false end.

(** Python's number tower: [True == 1 == 1.0]. *)
Definition num_of (x : json) : option Q :=
  match x with
  | JBool b => Some (if b then 1%Q else 0%Q)
  | JInt n => Some (inject_Z n)
  | JFloat q => Some q
  | _ => None
  end.

(** Lists are equal when they have the same length and equal elements. *)
Definition list_eq (eq : json -> json -> bool) : list json -> list json -> bool :=
  fix go (l l' : list json) : bool :=
    match l, l' with
    | [], [] => true
    | x :: xs, y :: ys => eq x y && go xs ys
    | _, _ => false
    end.

(** Every key of [d] not yet [seen] is bound in [d'] to an equal value. *)
Definition dict_sub (eq : json -> json -> bool) (d' : list (string * json))
    : list (string * json) -> list string -> bool :=
  fix sub (d : list (string * json)) (seen : list string) : bool :=
    match d with
    | [] => true
    | kv :: r =>
        (if existsb (String.eqb (fst kv)) seen then true
         else match dict_lookup (fst kv) d' with
              | Some v' => eq (snd kv) v'
              | None => false
              end)
        && sub r (fst kv :: seen)
    end.

(** [a == b] on parsed JSON. Dicts compare by key set and value, whatever
    the insertion order. *)
Fixpoint py_eq (a b : json) {struct a} : bool :=
  match a with
  | JNull => match b with JNull => true | _ => false end
  | JBool _ | JInt _ | JFloat _ =>
      match num_of a, num_of b with
      | Some x, Some y => Qeq_bool x y
      | _, _ => false
      end
  | JStr s => match b with JStr t => String.eqb s t | _ => false end
  | JList l => match b with JList l' => list_eq py_eq l l' | _ => false end
  | JDict d =>
      match b with
      | JDict d' => dict_sub py_eq d' d [] && forallb (fun kv => dict_has (fst kv) d) d'
      | _ => false
      end
  end.

(** [bool(x)] *)
Definition py_truthy (x : json) : bool :=
  match x with
  | JNull => false
  | JBool b => b
  | JInt n => negb (n =? 0)
  | JFloat q => negb (Qeq_bool q 0)
  | JStr s => negb (String.eqb s "")
  | JList l => match l with [] => false | _ => true end
  | JDict d => match d with [] => false | _ => true end
  end.

Definition dict_get (k : string) (d : list (string * json)) (default : json) : json :=
  match dict_lookup k d with Some v => v | None => default end.

(** [x.get(k, default)]: only dicts have the method. *)
Definition py_get_default (x : json) (k : string) (default : json) : result json :=
  match x with
  | JDict d => Ok (dict_get k d default)
  | _ => Raise AttributeError
  end.

(** [x.get(k)] *)
Definition py_get (x : json) (k : string) : result json :=
  py_get_default x k JNull.

(** [x[k]] for a string [k]. *)
Definition py_getitem (x : json) (k : string) : result json :=
  match x with
  | JDict d => match dict_lookup k d with Some v => Ok v | None => Raise KeyError end
  | _ => Raise TypeError
  end.

Definition is_substring (k s : string) : bool :=
  match String.index 0 k s with Some _ => true | None => false end.

(** [k in x] for a string [k]: key of a dict, substring of a string,
    element of a list. *)
Definition py_contains (k : string) (x : json) : result bool :=
  match x with
  | JDict d => Ok (dict_has k d)
  | JStr s => Ok (is_substring k s)
  | JList l => Ok (existsb (py_eq (JStr k)) l)
  | _ => Raise TypeError
  end.

Fixpoint string_chars (s : string) : list json :=
  match s with
  | EmptyString => []
  | String c r => JStr (String c EmptyString) :: string_chars r
  end.

(** [for e in x] *)
Definition py_iter (x : json) : result (list json) :=
  match x with
  | JList l => Ok l
  | JDict d => Ok (JStr <$> remove_dups (fst <$> d))
  | JStr s => Ok (string_chars s)
  | _ => Raise TypeError
  end.

(** [len(x)] *)
Definition py_len (x : json) : result nat :=
  match x with
  | JList l => Ok (length l)
  | JDict d => Ok (length (remove_dups (fst <$> d)))
  | JStr s => Ok (String.length s)
  | _ => Raise TypeError
  end.

(** [hash(x)] succeeds: lists and dicts cannot be dict keys. *)
Definition py_hashable (x : json) : bool :=
  match x with JList _ | JDict _ => false | _ => true end.

(** ** Field usage counter *)

Inductive requirement : Type := requerido | recomendado | optativo.

(** The schema of [fields.json]: a leaf is one of the three labels, anything
    else is a nested schema. *)
Inductive field_spec : Type :=
  | Leaf (v : requirement)
  | Nested (fields : list (string * field_spec)).

Record key_count : Type := KeyCount {
  kc_recomendado : nat;
  kc_optativo : nat;
  kc_requerido : nat;
  kc_total_optativo : nat;
  kc_total_recomendado : nat;
  kc_total_requerido : nat
}.

Definition key_count_zero : key_count := KeyCount 0 0 0 0 0 0.

(** [for key in result: key_count[key] += result[key]] *)
Definition key_count_add (a b : key_count) : key_count :=
  KeyCount (kc_recomendado a + kc_recomendado b)
           (kc_optativo a + kc_optativo b)
           (kc_requerido a + kc_requerido b)
           (kc_total_optativo a + kc_total_optativo b)
           (kc_total_recomendado a + kc_total_recomendado b)
           (kc_total_requerido a + kc_total_requerido b).

(** [key_count['total_' + v] += 1] *)
Definition incr_total (v : requirement) (c : key_count) : key_count :=
  match v with
  | requerido => KeyCount (kc_recomendado c) (kc_optativo c) (kc_requerido c)
      (kc_total_optativo c) (kc_total_recomendado c) (S (kc_total_requerido c))
  | recomendado => KeyCount (kc_recomendado c) (kc_optativo c) (kc_requerido c)
      (kc_total_optativo c) (S (kc_total_recomendado c)) (kc_total_requerido c)
  | optativo => KeyCount (kc_recomendado c) (kc_optativo c) (kc_requerido c)
      (S (kc_total_optativo c)) (kc_total_recomendado c) (kc_total_requerido c)
  end.

(** [key_count[v] += 1] *)
Definition incr_used (v : requirement) (c : key_count) : key_count :=
  match v with
  | requerido => KeyCount (kc_recomendado c) (kc_optativo c) (S (kc_requerido c))
      (kc_total_optativo c) (kc_total_recomendado c) (kc_total_requerido c)
  | recomendado => KeyCount (S (kc_recomendado c)) (kc_optativo c) (kc_requerido c)
      (kc_total_optativo c) (kc_total_recomendado c) (kc_total_requerido c)
  | optativo => KeyCount (kc_recomendado c) (S (kc_optativo c)) (kc_requerido c)
      (kc_total_optativo c) (kc_total_recomendado c) (kc_total_requerido c)
  end.

(** The elements the nested schema of key [k] is counted on: the list at
    [dataset[k]], a dict wrapped in a list, or [[{}]] for anything else. *)
Definition nested_elements (dataset : json) (k : string) : result (list json) :=
  elements ← py_get dataset k;
  match elements with
  | JList l => Ok l
  | JDict _ => x ← py_getitem dataset k; Ok [x]
  | _ => Ok [JDict []]
  end.

(** One turn of the loop [for k, v in fields.items()] of
    [_count_fields_recursive]. *)
Fixpoint count_field (v : field_spec) (k : string) (dataset : json)
    (kc : key_count) {struct v} : result key_count :=
  match v with
  | Nested fields =>
      elements ← nested_elements dataset k;
      foldM (fun kc element =>
               result ← foldM (fun kc' kv => count_field (snd kv) (fst kv) element kc')
                              fields key_count_zero;
               Ok (key_count_add kc result))
            elements kc
  | Leaf v =>
      let kc := incr_total v kc in
      present ← py_contains k dataset;
      Ok (if present : bool then incr_used v kc else kc)
  end.

Definition count_fields_recursive (dataset : json)
    (fields : list (string * field_spec)) : result key_count :=
  foldM (fun kc kv => count_field (snd kv) (fst kv) dataset kc) fields key_count_zero.

(** ** Numbers *)

(** Nearest integer, ties to the even one. *)
Definition round_half_even (x : Q) : Z :=
  let f := Qfloor x in
  match Qcompare (x - inject_Z f) (1 # 2) with
  | Lt => f
  | Gt => f + 1
  | Eq => if Z.even f then f else f + 1
  end.

(** [round(x, ndigits)] on an exact rational, ties to even as in Python 3;
    the result is in lowest terms. *)
Definition py_round (x : Q) (ndigits : nat) : Q :=
  let scale := Pos.pow 10 (Pos.of_nat ndigits) in
  match ndigits with
  | O => inject_Z (round_half_even x)
  | S _ => Qred (Qmake (round_half_even (x * inject_Z (Zpos scale))) scale)
  end.

(** [x / y] *)
Definition py_div (x y : Q) : result Q :=
  if Qeq_bool y 0 then Raise ZeroDivisionError else Ok (Qred (x / y)).

Definition float (n : nat) : Q := inject_Z (Z.of_nat n).

(** ** Dataset matcher *)

Inductive path_key : Type :=
  | PKey (s : string)
  | PIndex (i : nat).

(** Modelled from the spec: [helpers.traverse_dict], which is not among the
    sources.  Nested-path lookup that returns the default when a segment is
    missing, when a list index is out of range, or when the segment does not
    fit the value it is applied to. *)
Fixpoint traverse_dict (dicc : json) (keys : list path_key) (default_value : json) : json :=
  match keys with
  | [] => dicc
  | key :: keys' =>
      match dicc, key with
      | JDict d, PKey s =>
          match dict_lookup s d with
          | Some v => traverse_dict v keys' default_value
          | None => default_value
          end
      | JList l, PIndex i =>
          match nth_error l i with
          | Some v => traverse_dict v keys' default_value
          | None => default_value
          end
      | _, _ => default_value
      end
  end.

(** A field to compare: a key, or a nested field written as a list. *)
Inductive field : Type :=
  | FieldName (s : string)
  | FieldPath (p : list path_key).

Inductive diff_location : Type :=
  | AtDataset (f : field)
  | AtDistribution (f : field) (title : json).

Record diff_entry : Type := DiffEntry {
  error_location : diff_location;
  dataset_value : json;
  other_value : json
}.

(** [datasets_equal] returns a bool or, with [return_diff], the diff list. *)
Inductive equal_result : Type :=
  | IsEqual (b : bool)
  | Diff (l : list diff_entry).

Definition equal_result_truthy (r : equal_result) : bool :=
  match r with
  | IsEqual b => b
  | Diff l => match l with [] => false | _ => true end
  end.

Definition default_fields_dataset : list field :=
  [FieldName "title"; FieldPath [PKey "publisher"; PKey "name"]].

Definition field_value (x : json) (f : field) : result json :=
  match f with
  | FieldPath p => Ok (traverse_dict x p JNull)
  | FieldName s => py_get x s
  end.

(** The loop over [fields_dataset]; the state is
    [(dataset_is_equal, dataset_diff)]. *)
Definition compare_dataset_fields (dataset other : json) (fields_dataset : list field)
    : result (bool * list diff_entry) :=
  foldM (fun st field_dataset =>
           value ← field_value dataset field_dataset;
           other_value ← field_value other field_dataset;
           if negb (py_eq value other_value)
           then Ok (false, (snd st ++ [DiffEntry (AtDataset field_dataset) value other_value])%list)
           else Ok st)
        fields_dataset (true, []).

(** The loop over [zip(dataset_distributions, other_distributions)]; the
    state is [(distributions_equal, dataset_diff)]. *)
Definition compare_distributions (pairs : list (json * json))
    (fields_distribution : list field) (dataset_diff : list diff_entry)
    : result (bool * list diff_entry) :=
  foldM (fun st pair =>
           foldM (fun st field_distribution =>
                    value ← field_value (fst pair) field_distribution;
                    other_value ← field_value (snd pair) field_distribution;
                    if negb (py_eq value other_value)
                    then title ← py_get (fst pair) "title";
                         Ok (false, (snd st ++
                               [DiffEntry (AtDistribution field_distribution title)
                                          value other_value])%list)
                    else Ok st)
                 fields_distribution st)
        pairs (true, dataset_diff).

Definition datasets_equal (dataset other : json)
    (fields_dataset fields_distribution : option (list field))
    (return_diff : bool) : result equal_result :=
  let fields_dataset :=
    match fields_dataset with
    | None | Some [] => default_fields_dataset
    | Some l => l
    end in
  st ← compare_dataset_fields dataset other fields_dataset;
  st ← match fields_distribution with
       | None | Some [] => Ok st
       | Some fields_distribution =>
           dataset_distributions ← py_get dataset "distribution";
           other_distributions ← py_get other "distribution";
           n ← py_len dataset_distributions;
           m ← py_len other_distributions;
           let dataset_is_equal := if Nat.eqb n m then fst st else false in
           l ← py_iter dataset_distributions;
           l' ← py_iter other_distributions;
           ds ← compare_distributions (zip l l') fields_distribution (snd st);
           Ok (if fst ds : bool then dataset_is_equal else false, snd ds)
       end;
  Ok (if return_diff then Diff (snd st) else IsEqual (fst st)).

(** ** Histograms *)

(** A dict from hashable values to counts, in insertion order. *)
Definition histogram : Type := list (json * nat).

Fixpoint hist_get (k : json) (h : histogram) : nat :=
  match h with
  | [] => O
  | (k', n) :: r => if py_eq k k' then n else hist_get k r
  end.

Fixpoint hist_set (k : json) (n : nat) (h : histogram) : histogram :=
  match h with
  | [] => [(k, n)]
  | (k', n') :: r => if py_eq k k' then (k', n) :: r else (k', n') :: hist_set k n r
  end.

(** [h[k] = h.get(k, 0) + n]; an unhashable key is a [TypeError]. *)
Definition hist_add (k : json) (n : nat) (h : histogram) : result histogram :=
  if py_hashable k then Ok (hist_set k (hist_get k h + n) h) else Raise TypeError.

(** ** The collaborators that are not among the sources *)

Record dataset_summary : Type := DatasetSummary {
  cant_distribuciones : nat;
  estado_metadatos : string
}.

(** A catalog as callers give it: already parsed, or a path or URL. *)
Inductive source : Type :=
  | Parsed (catalog : json)
  | Location (path : string).

Definition source_truthy (s : source) : bool :=
  match s with
  | Parsed c => py_truthy c
  | Location p => negb (String.eqb p "")
  end.

(** [helpers], [readers], [reporting], [fields.json] and the clock.  Dates
    are day numbers: only the date part is kept and
    [(datetime.now() - date).days] is [today - date].  An unparseable date is
    [None]; an interval that cannot be parsed is [None] and raises.  That
    [helpers.parse_date_string] itself raises [ValueError] on a malformed
    date string is not modelled: [None] is what it returns, as for the
    empty string. *)
Class Collaborators : Type := {
  validator : Type;
  today : Z;
  parse_date_string : json -> option Z;
  parse_repeating_time_interval : json -> option Q;
  generate_datasets_summary : json -> option validator -> list dataset_summary;
  read_location : string -> json;
  catalog_fields : list (string * field_spec)
}.

Definition CENTRAL_CATALOG : source := Location "http://datos.gob.ar/data.json".

Section Indicators.
Context `{Collaborators}.

(** [readers.read_catalog]: a parsed catalog is returned as it is. *)
Definition read_catalog (s : source) : json :=
  match s with
  | Parsed c => c
  | Location p => read_location p
  end.

(** ** Federation reconciler *)

(** [x in names] for a list [names]. *)
Definition list_contains (x : json) (names : list json) : bool :=
  existsb (py_eq x) names.

Definition filter_by_likely_publisher (central_datasets catalog_datasets : json)
    : result (list json) :=
  catalog_list ← py_iter catalog_datasets;
  publisher_names ←
    foldM (fun names catalog_dataset =>
             publisher ← py_getitem catalog_dataset "publisher";
             has_name ← py_contains "name" publisher;
             if has_name : bool
             then publisher ← py_getitem catalog_dataset "publisher";
                  name ← py_getitem publisher "name";
                  Ok (names ++ [name])%list
             else Ok names)
          catalog_list [];
  central_list ← py_iter central_datasets;
  foldM (fun filtered_central_datasets central_dataset =>
           publisher ← py_getitem central_dataset "publisher";
           has_name ← py_contains "name" publisher;
           if has_name : bool
           then publisher ← py_getitem central_dataset "publisher";
                name ← py_getitem publisher "name";
                Ok (if list_contains name publisher_names
                    then (filtered_central_datasets ++ [central_dataset])%list
                    else filtered_central_datasets)
           else Ok filtered_central_datasets)
        central_list [].

Record federation_result : Type := FederationResult {
  datasets_federados_cant : nat;
  datasets_no_federados_cant : nat;
  datasets_federados_eliminados_cant : nat;
  datasets_federados_eliminados : list (json * json);
  datasets_no_federados : list (json * json);
  datasets_federados : list (json * json);
  datasets_federados_pct : Q
}.

(** An inner loop with [break]: is [dataset] equal to one of [others]?
    [swap] says that [dataset] is the central one (second pass). *)
Fixpoint found_in (swap : bool) (dataset : json) (others : list json) : result bool :=
  match others with
  | [] => Ok false
  | other :: rest =>
      r ← (if swap then datasets_equal other dataset None None false
           else datasets_equal dataset other None None false);
      if equal_result_truthy r then Ok true else found_in swap dataset rest
  end.

Definition title_and_landing (dataset : json) : result (json * json) :=
  title ← py_get dataset "title";
  landing ← py_get dataset "landingPage";
  Ok (title, landing).

(** [federados_pct], before rounding. *)
Definition federados_pct_of (federados no_federados : nat) : result Q :=
  if (negb (Nat.eqb federados 0) || negb (Nat.eqb no_federados 0))%bool
  then py_div (100 * float federados) (float (federados + no_federados))
  else Ok 0%Q.

Definition federation_indicators (catalog : json) (central_catalog : source)
    : result federation_result :=
  let central_catalog := read_catalog central_catalog in
  local ← py_get_default catalog "dataset" (JList []);
  local_list ← py_iter local;
  pass1 ←
    foldM (fun st dataset =>
             let '(federados, no_federados, datasets_federados, datasets_no_federados) := st in
             central ← py_get_default central_catalog "dataset" (JList []);
             central_list ← py_iter central;
             found ← found_in false dataset central_list;
             t ← title_and_landing dataset;
             if found : bool
             then Ok (S federados, no_federados, (datasets_federados ++ [t])%list,
                      datasets_no_federados)
             else Ok (federados, S no_federados, datasets_federados,
                      (datasets_no_federados ++ [t])%list))
          local_list (O, O, [], []);
  let '(federados, no_federados, datasets_federados, datasets_no_federados) := pass1 in
  central ← py_get_default central_catalog "dataset" (JList []);
  local ← py_get_default catalog "dataset" (JList []);
  filtered_central ← filter_by_likely_publisher central local;
  pass2 ←
    foldM (fun st central_dataset =>
             local ← py_get_default catalog "dataset" (JList []);
             local_list ← py_iter local;
             found ← found_in true central_dataset local_list;
             if found : bool then Ok st
             else t ← title_and_landing central_dataset;
                  Ok (S (fst st), (snd st ++ [t])%list))
          filtered_central (O, []);
  federados_pct ← federados_pct_of federados no_federados;
  Ok (FederationResult federados no_federados (fst pass2) (snd pass2)
        datasets_no_federados datasets_federados (py_round federados_pct 2)).

(** ** Status indicators *)

Record status_indicators : Type := StatusIndicators {
  datasets_cant : nat;
  distribuciones_cant : nat;
  datasets_meta_ok_cant : nat;
  datasets_meta_error_cant : nat;
  datasets_meta_ok_pct : Q
}.

Definition generate_status_indicators (catalog : json) (v : option validator)
    : result status_indicators :=
  let summary := generate_datasets_summary catalog v in
  let '(cant_ok, cant_error, cant_distribuciones') :=
    fold_left (fun st dataset =>
                 let '(cant_ok, cant_error, cant_dist) := st in
                 let cant_dist := (cant_dist + cant_distribuciones dataset)%nat in
                 if String.eqb (estado_metadatos dataset) "OK"
                 then (S cant_ok, cant_error, cant_dist)
                 else (cant_ok, S cant_error, cant_dist))
              summary (O, O, O) in
  let datasets_total := length summary in
  datasets_ok_pct ←
    (if negb (Nat.eqb datasets_total 0)
     then q ← py_div (100 * float cant_ok) (float datasets_total); Ok (py_round q 2)
     else Ok 0%Q);
  Ok (StatusIndicators datasets_total cant_distribuciones' cant_ok cant_error
        datasets_ok_pct).

(** ** Freshness evaluator *)

Definition is_string (x : json) : bool :=
  match x with JStr _ => true | _ => false end.

(** Truth value of an optional number: [None] and [0] are false. *)
Definition days_truthy (d : option Z) : bool :=
  match d with
  | Some n => negb (n =? 0)
  | None => false
  end.

(** [(datetime.now() - date).days]; subtracting [None] is a [TypeError]. *)
Definition days_since (date : option Z) : result Z :=
  match date with
  | Some d => Ok (today - d)
  | None => Raise TypeError
  end.

Definition days_from_last_update (catalog : json) (date_field : string)
    : result (option Z) :=
  date_modified ← py_get_default catalog date_field JNull;
  dias_ultima_actualizacion ←
    (if is_string date_modified
     then d ← days_since (parse_date_string date_modified); Ok (Some d)
     else Ok None);
  datasets ← py_get_default catalog "dataset" (JList []);
  datasets ← py_iter datasets;
  dias_ultima_actualizacion ←
    foldM (fun dias_ultima_actualizacion dataset =>
             s ← py_get_default dataset date_field (JStr "");
             let date := parse_date_string s in
             let days_diff := match date with Some d => Some (today - d) | None => None end in
             if (negb (days_truthy dias_ultima_actualizacion)
                 || (days_truthy days_diff
                     && match days_diff, dias_ultima_actualizacion with
                        | Some x, Some y => x <? y
                        | _, _ => false
                        end))%bool
             then Ok days_diff
             else Ok dias_ultima_actualizacion)
          datasets dias_ultima_actualizacion;
  Ok (if days_truthy dias_ultima_actualizacion then dias_ultima_actualizacion else None).

Record date_indicators : Type := DateIndicators {
  catalogo_ultima_actualizacion_dias : option Z;
  datasets_desactualizados_cant : nat;
  datasets_actualizados_cant : nat;
  datasets_actualizados_pct : Q;
  datasets_frecuencia_cant : histogram
}.

(** The body of the loop over the datasets of [_generate_date_indicators];
    the state is [(actualizados, desactualizados, periodicity_amount)]. *)
Definition classify_dataset (tolerance : Q) (st : nat * nat * histogram) (dataset : json)
    : result (nat * nat * histogram) :=
  let '(actualizados, desactualizados, periodicity_amount) := st in
  periodicity ← py_get dataset "accrualPeriodicity";
  if negb (py_truthy periodicity) then Ok st
  else if py_eq periodicity (JStr "eventual") then
    periodicity_amount ← hist_add periodicity 1 periodicity_amount;
    Ok (S actualizados, desactualizados, periodicity_amount)
  else
    has_modified ← py_contains "modified" dataset;
    counts ←
      (if negb has_modified then Ok (actualizados, S desactualizados)
       else
         modified ← py_getitem dataset "modified";
         days_diff ← days_since (parse_date_string modified);
         interval ← match parse_repeating_time_interval periodicity with
                    | Some days => Ok days
                    | None => Raise ExternalError
                    end;
         let interval := (interval * (1 + tolerance))%Q in
         if Qlt_le_dec (inject_Z days_diff) interval
         then Ok (S actualizados, desactualizados)
         else Ok (actualizados, S desactualizados));
    periodicity_amount ← hist_add periodicity 1 periodicity_amount;
    Ok (fst counts, snd counts, periodicity_amount).

Definition generate_date_indicators (catalog : json) (tolerance : Q)
    : result date_indicators :=
  dias_ultima_actualizacion ← days_from_last_update catalog "modified";
  dias_ultima_actualizacion ←
    (if negb (days_truthy dias_ultima_actualizacion)
     then days_from_last_update catalog "issued"
     else Ok dias_ultima_actualizacion);
  datasets ← py_get_default catalog "dataset" (JList []);
  datasets ← py_iter datasets;
  st ← foldM (classify_dataset tolerance) datasets (O, O, []);
  let '(actualizados, desactualizados, periodicity_amount) := st in
  datasets ← py_get_default catalog "dataset" (JList []);
  datasets_total ← py_len datasets;
  actualizados_pct ←
    (if negb (Nat.eqb datasets_total 0)
     then py_div (float actualizados) (float datasets_total)
     else Ok 0%Q);
  Ok (DateIndicators dias_ultima_actualizacion desactualizados actualizados
        (Qred (100 * py_round actualizados_pct 2)) periodicity_amount).

Definition default_tolerance : Q := 1 # 5.

(** ** Distribution formats *)

Definition count_distribution_formats_dataset (dataset : json) : result histogram :=
  distributions ← py_getitem dataset "distribution";
  distributions ← py_iter distributions;
  foldM (fun formats distribution =>
           distribution_format ← py_get_default distribution "format" JNull;
           if py_truthy distribution_format
           then hist_add distribution_format 1 formats
           else Ok formats)
        distributions [].

Definition count_distribution_formats (catalog : json) : result histogram :=
  datasets ← py_get_default catalog "dataset" (JList []);
  datasets ← py_iter datasets;
  foldM (fun catalog_formats dataset =>
           dataset_formats ← count_distribution_formats_dataset dataset;
           foldM (fun catalog_formats distribution_format =>
                    hist_add distribution_format
                      (hist_get distribution_format dataset_formats) catalog_formats)
                 (fst <$> dataset_formats) catalog_formats)
        datasets [].

(** ** Indicators of one catalog *)

Definition count_required_and_optional_fields (catalog : json) : result key_count :=
  count_fields_recursive catalog catalog_fields.

(** The indicator dict of a catalog, its keys grouped by the function that
    sets them; the federation keys are there once [_federation_indicators]
    has been merged in. *)
Record indicators : Type := Indicators {
  ind_status : status_indicators;
  ind_dates : date_indicators;
  distribuciones_formatos_cant : histogram;
  campos_recomendados_pct : Q;
  campos_optativos_pct : Q;
  ind_federation : option federation_result
}.

Definition generate_indicators (catalog : json) (v : option validator)
    : result (key_count * indicators) :=
  status ← generate_status_indicators catalog v;
  dates ← generate_date_indicators catalog default_tolerance;
  count ← count_distribution_formats catalog;
  fields_count ← count_required_and_optional_fields catalog;
  recomendados_pct ← py_div (100 * float (kc_recomendado fields_count))
                            (float (kc_total_recomendado fields_count));
  optativos_pct ← py_div (100 * float (kc_optativo fields_count))
                         (float (kc_total_optativo fields_count));
  Ok (fields_count,
      Indicators status dates count (py_round recomendados_pct 2)
        (py_round optativos_pct 2) None).

End Indicators.

(** ** The network of catalogs *)

(** Modelled from the spec: [helpers.add_dicts], which is not among the
    sources.  The sum of two dicts key by key, a missing key (and [None])
    counting as 0; a dict-valued entry is summed recursively and list-valued
    entries are concatenated. *)
Class AddDicts (A : Type) : Type := add_dicts : A -> A -> A.

#[global] Instance add_nat : AddDicts nat := Nat.add.
#[global] Instance add_Q : AddDicts Q := fun a b => Qred (a + b).
#[global] Instance add_list {A : Type} : AddDicts (list A) := fun a b => (a ++ b)%list.
#[global] Instance add_days : AddDicts (option Z) := fun a b =>
  Some (default 0 a + default 0 b).
#[global] Instance add_histogram : AddDicts histogram := fun a b =>
  fold_left (fun h kn => hist_set (fst kn) (hist_get (fst kn) h + snd kn) h) a b.
#[global] Instance add_option {A : Type} `{AddDicts A} : AddDicts (option A) := fun a b =>
  match a, b with
  | Some x, Some y => Some (add_dicts x y)
  | Some x, None => Some x
  | None, _ => b
  end.
#[global] Instance add_key_count : AddDicts key_count := key_count_add.
#[global] Instance add_status : AddDicts status_indicators := fun a b =>
  StatusIndicators
    (add_dicts (datasets_cant a) (datasets_cant b))
    (add_dicts (distribuciones_cant a) (distribuciones_cant b))
    (add_dicts (datasets_meta_ok_cant a) (datasets_meta_ok_cant b))
    (add_dicts (datasets_meta_error_cant a) (datasets_meta_error_cant b))
    (add_dicts (datasets_meta_ok_pct a) (datasets_meta_ok_pct b)).
#[global] Instance add_dates : AddDicts date_indicators := fun a b =>
  DateIndicators
    (add_dicts (catalogo_ultima_actualizacion_dias a) (catalogo_ultima_actualizacion_dias b))
    (add_dicts (datasets_desactualizados_cant a) (datasets_desactualizados_cant b))
    (add_dicts (datasets_actualizados_cant a) (datasets_actualizados_cant b))
    (add_dicts (datasets_actualizados_pct a) (datasets_actualizados_pct b))
    (add_dicts (datasets_frecuencia_cant a) (datasets_frecuencia_cant b)).
#[global] Instance add_federation : AddDicts federation_result := fun a b =>
  FederationResult
    (add_dicts (datasets_federados_cant a) (datasets_federados_cant b))
    (add_dicts (datasets_no_federados_cant a) (datasets_no_federados_cant b))
    (add_dicts (datasets_federados_eliminados_cant a) (datasets_federados_eliminados_cant b))
    (add_dicts (datasets_federados_eliminados a) (datasets_federados_eliminados b))
    (add_dicts (datasets_no_federados a) (datasets_no_federados b))
    (add_dicts (datasets_federados a) (datasets_federados b))
    (add_dicts (datasets_federados_pct a) (datasets_federados_pct b)).
#[global] Instance add_indicators : AddDicts indicators := fun a b =>
  Indicators
    (add_dicts (ind_status a) (ind_status b))
    (add_dicts (ind_dates a) (ind_dates b))
    (add_dicts (distribuciones_formatos_cant a) (distribuciones_formatos_cant b))
    (add_dicts (campos_recomendados_pct a) (campos_recomendados_pct b))
    (add_dicts (campos_optativos_pct a) (campos_optativos_pct b))
    (add_dicts (ind_federation a) (ind_federation b)).

(** The network dict: ['catalogos_cant'] and the summed indicators. *)
Record network : Type := Network {
  catalogos_cant : nat;
  network_totals : indicators
}.

Definition nonzero (n : nat) : bool := negb (Nat.eqb n 0).

(** [fields] is [None] for the empty dict. *)
Definition network_indicator_percentages (fields : option key_count)
    (network_indicators : network) : result network :=
  let totals := network_totals network_indicators in
  let status := ind_status totals in
  let dates := ind_dates totals in
  let meta_ok := datasets_meta_ok_cant status in
  let meta_error := datasets_meta_error_cant status in
  total_pct ←
    (if (nonzero meta_ok || nonzero meta_error)%bool
     then py_div (100 * float meta_ok) (float (meta_error + meta_ok))
     else Ok 0%Q);
  let status := StatusIndicators (datasets_cant status) (distribuciones_cant status)
                  meta_ok meta_error (py_round total_pct 2) in
  campos ←
    match fields with
    | Some fields =>
        rec_pct ← py_div (100 * float (kc_recomendado fields))
                         (float (kc_total_recomendado fields));
        opt_pct ← py_div (100 * float (kc_optativo fields))
                         (float (kc_total_optativo fields));
        Ok (py_round rec_pct 2, py_round opt_pct 2)
    | None => Ok (campos_recomendados_pct totals, campos_optativos_pct totals)
    end;
  let act := datasets_actualizados_cant dates in
  let desact := datasets_desactualizados_cant dates in
  updated_pct ←
    (if (nonzero act || nonzero desact)%bool
     then py_div (100 * float act) (float (act + desact))
     else Ok 0%Q);
  let dates := DateIndicators (catalogo_ultima_actualizacion_dias dates) desact act
                 (py_round updated_pct 2) (datasets_frecuencia_cant dates) in
  federation ←
    match ind_federation totals with
    | Some fed =>
        let federados := datasets_federados_cant fed in
        let no_federados := datasets_no_federados_cant fed in
        if (nonzero federados || nonzero no_federados)%bool
        then federados_pct ← py_div (100 * float federados)
                                    (float (federados + no_federados));
             Ok (Some (FederationResult federados no_federados
                         (datasets_federados_eliminados_cant fed)
                         (datasets_federados_eliminados fed)
                         (datasets_no_federados fed) (datasets_federados fed)
                         (py_round federados_pct 2)))
        else Ok (Some fed)
    | None => Ok None
    end;
  Ok (Network (catalogos_cant network_indicators)
        (Indicators status dates (distribuciones_formatos_cant totals)
           (fst campos) (snd campos) federation)).

(** The first argument of [generate_catalogs_indicators]: one catalog or a
    list of them. *)
Inductive catalogs_arg : Type :=
  | OneCatalog (c : source)
  | ManyCatalogs (l : list source).

Section Network.
Context `{Collaborators}.

(** [result.update(_federation_indicators(...))] *)
Definition update_federation (result : indicators) (fed : federation_result) : indicators :=
  Indicators (ind_status result) (ind_dates result) (distribuciones_formatos_cant result)
    (campos_recomendados_pct result) (campos_optativos_pct result) (Some fed).

(** The loop over the catalogs; the state is [(indicators_list, fields)]. *)
Definition catalog_step (central_catalog : source) (v : option validator)
    (st : list indicators * option key_count) (catalog : json)
    : result (list indicators * option key_count) :=
  let catalog := read_catalog (Parsed catalog) in
  r ← generate_indicators catalog v;
  result ← (if source_truthy central_catalog
            then fed ← federation_indicators catalog central_catalog;
                 Ok (update_federation (snd r) fed)
            else Ok (snd r));
  Ok ((fst st ++ [result])%list, add_dicts (Some (fst r)) (snd st)).

Definition generate_catalogs_indicators (catalogs : catalogs_arg)
    (central_catalog : option source) (v : option validator)
    : result (list indicators * network) :=
  let central_catalog :=
    match central_catalog with
    | Some c => if source_truthy c then c else CENTRAL_CATALOG
    | None => CENTRAL_CATALOG
    end in
  let catalogs := match catalogs with OneCatalog c => [c] | ManyCatalogs l => l end in
  let catalogs := read_catalog <$> catalogs in
  st ← foldM (catalog_step central_catalog v) catalogs ([], None);
  let '(indicators_list, fields) := st in
  match indicators_list with
  | [] => Raise IndexError
  | first :: rest =>
      let indicators_total := fold_left add_dicts rest first in
      network_indicators ← network_indicator_percentages fields
                             (Network (length catalogs) indicators_total);
      Ok (indicators_list, network_indicators)
  end.

End Network.

(** ** Bulk removal ([federation.py]) *)

(** The answer of the registry to ['package_search']. *)
Record search_result : Type := SearchResult {
  count : Z;
  results : list string
}.

(** A call of [ckan_portal.call_action]. *)
Inductive call : Type :=
  | PackageSearch (q : string) (rows start : Z)
  | DatasetPurge (id : string).

(** The remote registry, a state machine, and the search by filters of
    [search.get_datasets] (with [meta_field='identifier']). *)
Class Registry : Type := {
  portal : Type;
  package_search : portal -> string -> Z -> Z -> search_result * portal;
  dataset_purge : portal -> string -> portal;
  get_datasets : string -> option json -> option json -> bool -> list string
}.

Definition option_truthy (x : option json) : bool :=
  match x with Some j => py_truthy j | None => false end.

Definition double_quote : string := String (ascii_of_nat 34) EmptyString.

(** [identifiers] is a list, or a set once the two sources are intersected. *)
Inductive identifiers : Type :=
  | IdList (l : list string)
  | IdSet (s : gset string).

(** [for identifier in identifiers]; a set is walked in some order without
    repetition. *)
Definition identifiers_iter (ids : identifiers) : list string :=
  match ids with
  | IdList l => l
  | IdSet s => elements s
  end.

Section Removal.
Context `{Registry}.

(** The state of a run: the registry and the calls made so far. *)
Definition run_state : Type := portal * list call.

Definition call_package_search (st : run_state) (q : string) (rows start : Z)
    : search_result * run_state :=
  let '(r, p) := package_search (fst st) q rows start in
  (r, (p, (snd st ++ [PackageSearch q rows start])%list)).

Definition call_dataset_purge (st : run_state) (id : string) : run_state :=
  (dataset_purge (fst st) id, (snd st ++ [DatasetPurge id])%list).

(** [while search_result['count'] > start]; [None] when the fuel runs out. *)
Fixpoint search_pages (fuel : nat) (st : run_state) (query : string)
    (search_result : search_result) (org_identifiers : list string) (start : Z)
    : option (list string * run_state) :=
  if count search_result >? start then
    match fuel with
    | O => None
    | S fuel =>
        let '(search_result, st) := call_package_search st query 500 start in
        search_pages fuel st query search_result
          (org_identifiers ++ results search_result)%list (start + 500)
    end
  else Some (org_identifiers, st).

Definition remove_datasets_from_ckan (fuel : nat) (ckan_portal : portal)
    (portal_url : string) (filter_in filter_out : option json)
    (only_time_series : bool) (organization : option string)
    : option run_state :=
  let st : run_state := (ckan_portal, []) in
  let identifiers : list string := [] in
  let datajson_filters :=
    (option_truthy filter_in || option_truthy filter_out || only_time_series)%bool in
  let identifiers :=
    if datajson_filters
    then (identifiers ++ get_datasets (portal_url ++ "/data.json")
                           filter_in filter_out only_time_series)%list
    else identifiers in
  r ← match organization with
      | Some organization =>
          if negb (String.eqb organization "") then
            let query := "organization:" ++ double_quote ++ organization ++ double_quote in
            let '(search_result, st) := call_package_search st query 500 0 in
            let org_identifiers := results search_result in
            r ← search_pages fuel st query search_result org_identifiers 500;
            let '(org_identifiers, st) := r in
            Some (if datajson_filters
                  then IdSet (list_to_set identifiers ∩ list_to_set org_identifiers)
                  else IdList org_identifiers, st)
          else Some (IdList identifiers, st)
      | None => Some (IdList identifiers, st)
      end;
  let '(identifiers, st) := r in
  Some (fold_left call_dataset_purge (identifiers_iter identifiers) st).

End Removal.

(** The identifiers given to ['dataset_purge'], in call order. *)
Definition purged (log : list call) : list string :=
  omap (fun c => match c with DatasetPurge id => Some id | _ => None end) log.

(** ** Pushing a dataset ([federation.py]) *)

(** How a statement of [push_dataset_to_ckan] fails: with the [NotFound] of
    [ckanapi], or with another exception. *)
Inductive failure : Type :=
  | NotFound
  | Error (e : exn).

Inductive outcome (A : Type) : Type :=
  | Returned (a : A)
  | Failed (f : failure).
Arguments Returned {A} a.
Arguments Failed {A} f.

(** The actions [push_dataset_to_ckan] asks of the registry. *)
Inductive action : Type :=
  | LicenseList
  | PackageUpdate (data_dict : json)
  | PackageCreate (data_dict : json).

(** What happens to the session: a call of [call_action] with its answer,
    or [close]. *)
Inductive event : Type :=
  | Called (a : action) (answer : outcome json)
  | Closed.

(** The registry behind [RemoteCKAN], a state machine. *)
Class Ckan : Type := {
  remote : Type;
  serve : remote -> action -> outcome json * remote
}.

(** The collaborators that are not among the sources: [catalog.get_dataset]
    and [ckan_utils.map_dataset_to_package]. *)
Class DataJson : Type := {
  get_dataset : json -> string -> outcome json;
  map_dataset_to_package :
    json -> json -> string -> option string -> bool -> bool -> outcome json
}.

(** A computation in a session: it threads the registry and the events so
    far, and fails or returns. *)
Definition session (R A : Type) : Type :=
  R * list event -> outcome A * (R * list event).

#[global] Instance session_ret {R : Type} : MRet (session R) :=
  fun _ a st => (Returned a, st).
#[global] Instance session_bind {R : Type} : MBind (session R) := fun _ _ f m st =>
  match m st with
  | (Returned a, st') => f a st'
  | (Failed e, st') => (Failed e, st')
  end.

Definition of_result {A : Type} (r : result A) : outcome A :=
  match r with Ok a => Returned a | Raise e => Failed (Error e) end.

(** A statement that does not touch the session. *)
Definition lift {R A : Type} (r : result A) : session R A :=
  fun st => (of_result r, st).

Definition external {R A : Type} (o : outcome A) : session R A :=
  fun st => (o, st).

(** [try: body except NotFound: handler] *)
Definition except_NotFound {R A : Type} (body handler : session R A) : session R A :=
  fun st =>
    match body st with
    | (Failed NotFound, st') => handler st'
    | r => r
    end.

(** [d[k] = v]: a key that is bound keeps its place. *)
Fixpoint dict_set (k : string) (v : json) (d : list (string * json))
    : list (string * json) :=
  match d with
  | [] => [(k, v)]
  | (k', v') :: r => if String.eqb k k' then (k', v) :: r else (k', v') :: dict_set k v r
  end.

(** [x[k] = v] for a string [k]. *)
Definition py_setitem (x : json) (k : string) (v : json) : result json :=
  match x with
  | JDict d => Ok (JDict (dict_set k v d))
  | _ => Raise TypeError
  end.

(** [next(license_item for license_item in license_list if
    license_item['title'] == dataset['license'] or
    license_item['url'] == dataset['license'])]; [None] is [StopIteration]. *)
Definition next_license (dataset : json) : list json -> result (option json) :=
  fix go (license_list : list json) : result (option json) :=
    match license_list with
    | [] => Ok None
    | license_item :: rest =>
        title ← py_getitem license_item "title";
        license ← py_getitem dataset "license";
        if py_eq title license then Ok (Some license_item)
        else
          url ← py_getitem license_item "url";
          license ← py_getitem dataset "license";
          if py_eq url license then Ok (Some license_item) else go rest
    end.

Section Push.
Context `{Ckan} `{DataJson}.

(** [ckan_portal.call_action(...)] *)
Definition call_action (a : action) : session remote json :=
  fun st =>
    let '(answer, r) := serve (fst st) a in
    (answer, (r, (snd st ++ [Called a answer])%list)).

(** [ckan_portal.close()] *)
Definition close : session remote unit :=
  fun st => (Returned tt, (fst st, (snd st ++ [Closed])%list)).

Definition push_dataset_to_ckan (catalog : json)
    (owner_org dataset_origin_identifier : string) (catalog_id : option string)
    (demote_superThemes demote_themes : bool) : session remote json :=
  dataset ← external (get_dataset catalog dataset_origin_identifier);
  package ← external (map_dataset_to_package catalog dataset owner_org catalog_id
                        demote_superThemes demote_themes);
  license ← lift (py_get dataset "license");
  package ←
    (if py_truthy license then
       license_list ← call_action LicenseList;
       license_list ← lift (py_iter license_list);
       ckan_license ← lift (next_license dataset license_list);
       match ckan_license with
       | Some ckan_license =>
           license_id ← lift (py_getitem ckan_license "id");
           lift (py_setitem package "license_id" license_id)
       | None => lift (py_setitem package "license_id" (JStr "notspecified"))
       end
     else lift (py_setitem package "license_id" (JStr "notspecified")));
  pushed_package ← except_NotFound (call_action (PackageUpdate package))
                                   (call_action (PackageCreate package));
  _ ← close;
  lift (py_getitem pushed_package "id").

Definition restore_dataset_to_ckan (catalog : json)
    (owner_org dataset_origin_identifier : string) : session remote json :=
  push_dataset_to_ckan catalog owner_org dataset_origin_identifier None false false.

Definition harvest_dataset_to_ckan (catalog : json)
    (owner_org dataset_origin_identifier : string) (catalog_id : option string)
    : session remote json :=
  push_dataset_to_ckan catalog owner_org dataset_origin_identifier catalog_id true true.

End Push.

(** ** Percentages and sums, for the statements *)

(** [num / den x 100], rounded to 2 decimals; 0 when [den] is 0. *)
Definition percentage (num den : nat) : Q :=
  py_round (if Nat.eqb den 0 then 0%Q else Qred (100 * float num / float den)) 2.

(** The sum of a count over a list of records. *)
Definition total {A : Type} (f : A -> nat) (l : list A) : nat :=
  fold_right (fun x n => (f x + n)%nat) O l.

(** The computation does not end in a [ZeroDivisionError]. *)
Definition safe {A : Type} (m : result A) : Prop := m <> Raise ZeroDivisionError.

(** The totals of recommended and optional fields do not decrease. *)
Definition grows (a c : key_count) : Prop :=
  (kc_total_recomendado a <= kc_total_recomendado c)%nat /\
  (kc_total_optativo a <= kc_total_optativo c)%nat.

(** ** Statements about the field usage counter *)

(** The three [total_*] counters. *)
Definition totals (c : key_count) : nat * nat * nat :=
  (kc_total_requerido c, kc_total_recomendado c, kc_total_optativo c).

(** The sum of two triples of totals. *)
Definition totals_plus (a b : nat * nat * nat) : nat * nat * nat :=
  (a.1.1 + b.1.1, a.1.2 + b.1.2, a.2 + b.2)%nat.

(** The number of leaves of the schema per label, each leaf counted once:
    a function of the schema alone. *)
Fixpoint field_totals (v : field_spec) : key_count :=
  match v with
  | Leaf r => incr_total r key_count_zero
  | Nested fields =>
      fold_right (fun kv c => key_count_add (field_totals (snd kv)) c)
                 key_count_zero fields
  end.

Definition schema_totals (fields : list (string * field_spec)) : key_count :=
  field_totals (Nested fields).

(** No key with a nested schema resolves to a sequence, in the record or in
    the mappings nested in it. *)
Fixpoint no_sequence_at (v : field_spec) (k : string) (d : list (string * json)) : bool :=
  match v with
  | Leaf _ => true
  | Nested fields =>
      match dict_lookup k d with
      | Some (JList _) => false
      | Some (JDict d') => forallb (fun kv => no_sequence_at (snd kv) (fst kv) d') fields
      | _ => true
      end
  end.

Definition no_sequences (d : list (string * json)) (fields : list (string * field_spec)) : bool :=
  forallb (fun kv => no_sequence_at (snd kv) (fst kv) d) fields.

(** The elements on which the nested schema of key [k] is counted: the
    elements of a sequence, a mapping itself, and an empty mapping for a
    missing key or a value of another type. *)
Definition elements_of (k : string) (record : json) : list json :=
  match record with
  | JDict d =>
      match dict_lookup k d with
      | Some (JList l) => l
      | Some (JDict e) => [JDict e]
      | _ => [JDict []]
      end
  | _ => []
  end.

(** The totals of a schema entry on a record: 1 under its label for a leaf;
    for a nested schema, its totals once per element of [elements_of], so
    once per element of a sequence and not at all for an empty one. *)
Fixpoint totals_at (v : field_spec) (k : string) (record : json) {struct v}
    : nat * nat * nat :=
  match v with
  | Leaf r => totals (incr_total r key_count_zero)
  | Nested fields =>
      fold_right
        (fun element t =>
           totals_plus
             (fold_right (fun kv t' => totals_plus (totals_at (snd kv) (fst kv) element) t')
                         (totals key_count_zero) fields)
             t)
        (totals key_count_zero) (elements_of k record)
  end.

Definition record_totals (fields : list (string * field_spec)) (record : json)
    : nat * nat * nat :=
  fold_right (fun kv t => totals_plus (totals_at (snd kv) (fst kv) record) t)
             (totals key_count_zero) fields.

(** Under every key with a nested schema the two records have as many
    elements to count, and so have these elements, pair by pair. *)
Fixpoint same_lengths_at (v : field_spec) (k : string) (r1 r2 : json) {struct v} : bool :=
  match v with
  | Leaf _ => true
  | Nested fields =>
      (fix pairwise (l1 l2 : list json) : bool :=
         match l1, l2 with
         | [], [] => true
         | e1 :: l1, e2 :: l2 =>
             forallb (fun kv => same_lengths_at (snd kv) (fst kv) e1 e2) fields
             && pairwise l1 l2
         | _, _ => false
         end) (elements_of k r1) (elements_of k r2)
  end.

Definition same_lengths (fields : list (string * field_spec)) (r1 r2 : json) : bool :=
  forallb (fun kv => same_lengths_at (snd kv) (fst kv) r1 r2) fields.

(** The record fits the schema: under a key with a nested schema there is a
    mapping that fits, a list of mappings that fit, or anything that is
    neither a list nor a mapping. *)
Fixpoint fits_at (v : field_spec) (k : string) (d : list (string * json)) : bool :=
  match v with
  | Leaf _ => true
  | Nested fields =>
      match dict_lookup k d with
      | Some (JList l) =>
          forallb (fun e => match e with
                            | JDict d' =>
                                forallb (fun kv => fits_at (snd kv) (fst kv) d') fields
                            | _ => false
                            end) l
      | Some (JDict d') => forallb (fun kv => fits_at (snd kv) (fst kv) d') fields
      | _ => true
      end
  end.

Definition fits (d : list (string * json)) (fields : list (string * field_spec)) : bool :=
  forallb (fun kv => fits_at (snd kv) (fst kv) d) fields.

Definition sample_schema : list (string * field_spec) :=
  [("title", Leaf requerido); ("dataset", Nested [("title", Leaf requerido)])].
Definition sample_no_datasets : json := JDict [("dataset", JList [])].
Definition sample_two_datasets : json :=
  JDict [("dataset", JList [JDict []; JDict [("title", JStr "t")]])].
Definition sample_titled_catalog : list (string * json) :=
  [("title", JStr "c"); ("dataset", JList [JDict []; JDict [("title", JStr "t")]])].
Definition sample_untitled_catalog : list (string * json) :=
  [("dataset", JList [JDict [("title", JStr "a")];
                      JDict [("title", JStr "b"); ("issued", JInt 1)]]);
   ("publisher", JInt 3)].

(** The statement "the totals are the same on every record". *)
Definition totals_independent_of_record : Prop :=
  forall (fields : list (string * field_spec)) (r1 r2 : json) (c1 c2 : key_count),
    count_fields_recursive r1 fields = Ok c1 ->
    count_fields_recursive r2 fields = Ok c2 ->
    totals c1 = totals c2.


(** ** Statements about the dataset matcher *)

Definition sample_csv : json := JDict [("format", JStr "CSV")].
Definition sample_xlsx : json := JDict [("format", JStr "XLSX")].

Definition sample_short_dataset : list (string * json) :=
  [("title", JStr "Padron");
   ("publisher", JDict [("name", JStr "Ministerio")]);
   ("distribution", JList [sample_csv])].

Definition sample_long_dataset : list (string * json) :=
  [("title", JStr "Padron");
   ("publisher", JDict [("name", JStr "Ministerio")]);
   ("distribution", JList [sample_csv; sample_xlsx])].

Definition sample_fields_distribution : list field := [FieldName "format"].

(** ** Statements about the federation reconciler *)

(** A dataset of the documented data model: a mapping whose [publisher], when
    there is one, is a mapping. *)
Definition is_dataset (x : json) : bool :=
  match x with
  | JDict d =>
      match dict_lookup "publisher" d with
      | Some (JDict _) | None => true
      | Some _ => false
      end
  | _ => false
  end.

(** The dataset has no ['publisher'] key at all. *)
Definition lacks_publisher (x : json) : bool :=
  match x with
  | JDict d => negb (dict_has "publisher" d)
  | _ => false
  end.

(** A dataset that has a [publisher] mapping. *)
Definition has_publisher (x : json) : bool :=
  is_dataset x && negb (lacks_publisher x).

(** [datasets_equal(a, b)] with the default arguments, as a truth value. *)
Definition dataset_matches (a b : json) : bool :=
  match datasets_equal a b None None false with
  | Ok r => equal_result_truthy r
  | Raise _ => false
  end.

(** The percentage in the result, from the two counts. *)
Definition federados_pct_expected (federados no_federados : nat) : Q :=
  percentage federados (federados + no_federados).

Definition sample_dataset (title publisher : string) : json :=
  JDict [("title", JStr title); ("publisher", JDict [("name", JStr publisher)]);
         ("distribution", JList [sample_csv])].

Definition sample_orphan_dataset : json :=
  JDict [("title", JStr "Sin publisher"); ("distribution", JList [])].

Definition sample_local_catalog : json :=
  JDict [("title", JStr "Catalogo local");
         ("dataset", JList [sample_dataset "Padron" "Ministerio";
                            sample_dataset "Presupuesto" "Ministerio"])].

Definition sample_central_catalog : json :=
  JDict [("title", JStr "Catalogo central");
         ("dataset", JList [sample_dataset "Censo" "Instituto";
                            sample_dataset "Presupuesto" "Ministerio";
                            sample_dataset "Padron" "Ministerio"])].

Definition sample_orphan_catalog : json :=
  JDict [("dataset", JList [sample_dataset "Padron" "Ministerio"; sample_orphan_dataset])].

Definition sample_empty_catalog : json := JDict [("title", JStr "Sin datasets")].

(** One summary entry per dataset: its distributions, and "OK" when it has a
    title. *)
Definition sample_summary (catalog : json) : list dataset_summary :=
  match catalog with
  | JDict d =>
      match dict_get "dataset" d (JList []) with
      | JList l =>
          map (fun x =>
                 DatasetSummary
                   (match x with
                    | JDict dd => match dict_get "distribution" dd JNull with
                                  | JList ds => length ds
                                  | _ => O
                                  end
                    | _ => O
                    end)
                   (match x with
                    | JDict dd => if dict_has "title" dd then "OK" else "ERROR"
                    | _ => "ERROR"
                    end)) l
      | _ => []
      end
  | _ => []
  end.

(** Dates of the samples, as day numbers; day 20000 is today. *)
Definition sample_dates : list (string * Z) :=
  [("2026-11-04", 20000); ("2026-10-30", 19995); ("2026-09-25", 19960);
   ("2026-11-05", 20001)].

Definition sample_parse_date (x : json) : option Z :=
  match x with
  | JStr s => snd <$> find (fun p => String.eqb s (fst p)) sample_dates
  | _ => None
  end.

Definition sample_parse_interval (x : json) : option Q :=
  match x with
  | JStr s => if String.eqb s "R/P1M" then Some 30%Q
              else if String.eqb s "R/P1W" then Some 7%Q
              else if String.eqb s "R/P1Y" then Some 365%Q
              else None
  | _ => None
  end.

Definition sample_catalog_fields : list (string * field_spec) :=
  [("title", Leaf requerido);
   ("homepage", Leaf recomendado);
   ("rights", Leaf optativo);
   ("dataset", Nested [("title", Leaf requerido);
                       ("publisher", Nested [("name", Leaf requerido);
                                             ("mbox", Leaf optativo)]);
                       ("landingPage", Leaf recomendado)])].

Definition sample_collaborators : Collaborators :=
  {| validator := unit;
     today := 20000;
     parse_date_string := sample_parse_date;
     parse_repeating_time_interval := sample_parse_interval;
     generate_datasets_summary := fun catalog _ => sample_summary catalog;
     read_location := fun _ => sample_central_catalog;
     catalog_fields := sample_catalog_fields |}.

Definition is_dict (x : json) : bool :=
  match x with JDict _ => true | _ => false end.

(** The dataset list of a parsed catalog: [catalog.get('dataset', [])] when
    the catalog is a mapping and that value is a list. *)
Definition catalog_datasets (catalog : json) : option (list json) :=
  match catalog with
  | JDict d => match dict_get "dataset" d (JList []) with
               | JList l => Some l
               | _ => None
               end
  | _ => None
  end.

(** The pair recorded for a dataset: [(title, landingPage)]. *)
Definition display_pair (dataset : json) : json * json :=
  match dataset with
  | JDict d => (dict_get "title" d JNull, dict_get "landingPage" d JNull)
  | _ => (JNull, JNull)
  end.

(** The forward pass as a plain fold: a local dataset is federated when some
    central dataset matches it. *)
Definition classify_local (central_list : list json)
    (st : nat * nat * list (json * json) * list (json * json)) (dataset : json)
    : nat * nat * list (json * json) * list (json * json) :=
  let '(federados, no_federados, datasets_federados, datasets_no_federados) := st in
  if existsb (dataset_matches dataset) central_list
  then (S federados, no_federados, (datasets_federados ++ [display_pair dataset])%list,
        datasets_no_federados)
  else (federados, S no_federados, datasets_federados,
        (datasets_no_federados ++ [display_pair dataset])%list).

(** The statement "a local catalog all of whose datasets match a central
    dataset has no unfederated dataset and 100 per cent federated". *)
Definition fully_contained_gives_100 : Prop :=
  forall (C : Collaborators) (catalog : json) (central : source)
         (ds cs : list json) (r : federation_result),
    catalog_datasets catalog = Some ds ->
    catalog_datasets (read_catalog central) = Some cs ->
    forallb (fun d => existsb (dataset_matches d) cs) ds = true ->
    federation_indicators catalog central = Ok r ->
    datasets_no_federados_cant r = O /\ datasets_federados_pct r = 100%Q.

(** ** Statements about the freshness evaluator *)

(** The percentage of updated datasets as the network fold computes it:
    over the datasets that have a periodicity, times 100, rounded to 2
    decimals, 0 without such datasets. *)
Definition actualizados_pct_expected (actualizados with_periodicity : nat) : Q :=
  percentage actualizados with_periodicity.

(** A catalog updated today, without datasets. *)
Definition sample_catalog_updated_today : json :=
  JDict [("title", JStr "Hoy"); ("modified", JStr "2026-11-04"); ("dataset", JList [])].

(** A catalog updated today whose only dataset was updated five days ago. *)
Definition sample_catalog_today_and_before : json :=
  JDict [("modified", JStr "2026-11-04");
         ("dataset", JList [JDict [("title", JStr "Padron");
                                   ("modified", JStr "2026-10-30")]])].

(** Three datasets, of which one has a periodicity (and is up to date). *)
Definition sample_catalog_one_periodic : json :=
  JDict [("dataset",
          JList [JDict [("title", JStr "a"); ("accrualPeriodicity", JStr "eventual")];
                 JDict [("title", JStr "b")];
                 JDict [("title", JStr "c")]])].

(** Three datasets with a periodicity, of which one is up to date. *)
Definition sample_catalog_one_of_three : json :=
  JDict [("dataset",
          JList [JDict [("title", JStr "a"); ("accrualPeriodicity", JStr "eventual")];
                 JDict [("title", JStr "b"); ("accrualPeriodicity", JStr "R/P1M")];
                 JDict [("title", JStr "c"); ("accrualPeriodicity", JStr "R/P1M");
                        ("modified", JStr "2026-09-25")]])].




(** The catalog date, when it is a string, can be parsed. *)
Definition catalog_date_parses `{Collaborators} (date_field : string)
    (cd : list (string * json)) : bool :=
  if is_string (dict_get date_field cd JNull)
  then match parse_date_string (dict_get date_field cd JNull) with
       | Some _ => true
       | None => false
       end
  else true.


(** ** Statements about the bulk removal *)

(** A catalog-content filter is given. *)
Definition filters_active (filter_in filter_out : option json) (only_time_series : bool) : bool :=
  (option_truthy filter_in || option_truthy filter_out || only_time_series)%bool.

(** The organization, when one is given. *)
Definition active_organization (organization : option string) : option string :=
  match organization with
  | Some o => if String.eqb o "" then None else Some o
  | None => None
  end.

Definition organization_query (organization : string) : string :=
  "organization:" ++ double_quote ++ organization ++ double_quote.

(** The identifiers of the organization source: the results of all the pages
    the registry gives for the organization. *)
Definition organization_source `{Registry} (fuel : nat) (ckan_portal : portal)
    (organization : string) : option (list string) :=
  let query := organization_query organization in
  let '(search_result, st) := call_package_search (ckan_portal, []) query 500 0 in
  fst <$> search_pages fuel st query search_result (results search_result) 500.

(** A registry that holds a list of identifiers, all of the organization
    asked for, and a search by filters that finds ["a"] and ["b"]. *)
Definition sample_registry : Registry :=
  {| portal := list string;
     package_search := fun p _ rows start =>
       (SearchResult (Z.of_nat (length p))
          (take (Z.to_nat rows) (drop (Z.to_nat start) p)), p);
     dataset_purge := fun p id => List.filter (fun x => negb (String.eqb x id)) p;
     get_datasets := fun _ _ _ _ => ["a"; "b"] |}.

Definition sample_filter : json := JDict [("dataset", JDict [("title", JStr "Padron")])].

(** ** Statements about the indicators of a network *)

Definition requirement_eqb (a b : requirement) : bool :=
  match a, b with
  | requerido, requerido | recomendado, recomendado | optativo, optativo => true
  | _, _ => false
  end.

(** The schema has a leaf with this label at its top level. *)
Definition has_leaf (r : requirement) (fields : list (string * field_spec)) : bool :=
  existsb (fun kv => match snd kv with
                     | Leaf r' => requirement_eqb r r'
                     | Nested _ => false
                     end) fields.

(** The catalogs that [generate_catalogs_indicators] goes through. *)
Definition catalogs_list `{Collaborators} (catalogs : catalogs_arg) : list json :=
  read_catalog <$> match catalogs with OneCatalog c => [c] | ManyCatalogs l => l end.

Definition meta_ok_of (i : indicators) : nat := datasets_meta_ok_cant (ind_status i).
Definition meta_error_of (i : indicators) : nat := datasets_meta_error_cant (ind_status i).
Definition actualizados_of (i : indicators) : nat := datasets_actualizados_cant (ind_dates i).
Definition desactualizados_of (i : indicators) : nat :=
  datasets_desactualizados_cant (ind_dates i).
Definition federados_of (i : indicators) : nat :=
  from_option datasets_federados_cant O (ind_federation i).
Definition no_federados_of (i : indicators) : nat :=
  from_option datasets_no_federados_cant O (ind_federation i).
Definition federados_pct_of_record (i : indicators) : Q :=
  from_option datasets_federados_pct 0%Q (ind_federation i).

(** A percentage behind a guard is 0 when its denominator is 0. *)
Definition zero_guarded (i : indicators) : Prop :=
  ((meta_ok_of i + meta_error_of i = 0)%nat -> datasets_meta_ok_pct (ind_status i) = 0%Q) /\
  ((actualizados_of i + desactualizados_of i = 0)%nat ->
   datasets_actualizados_pct (ind_dates i) = 0%Q) /\
  ((federados_of i + no_federados_of i = 0)%nat -> federados_pct_of_record i = 0%Q).

(** The statement "no percentage computation reaches a division by zero,
    whatever the catalogs and the schema". *)
Definition every_percentage_is_guarded : Prop :=
  forall (C : Collaborators) (catalogs : catalogs_arg) (central : option source)
         (v : option validator),
    generate_catalogs_indicators catalogs central v <> Raise ZeroDivisionError.

(** The collaborators of the samples, with an empty schema. *)
Definition empty_schema_collaborators : Collaborators :=
  {| validator := unit;
     today := 20000;
     parse_date_string := sample_parse_date;
     parse_repeating_time_interval := sample_parse_interval;
     generate_datasets_summary := fun catalog _ => sample_summary catalog;
     read_location := fun _ => sample_central_catalog;
     catalog_fields := [] |}.

(** A dataset without title: its metadata is in error. *)
Definition sample_untitled_dataset (publisher : string) : json :=
  JDict [("publisher", JDict [("name", JStr publisher)]);
         ("distribution", JList [sample_csv])].

(** One dataset, valid. *)
Definition sample_small_catalog : json :=
  JDict [("title", JStr "Chico"); ("homepage", JStr "http://chico");
         ("dataset", JList [sample_dataset "Padron" "Ministerio"])].

(** Three datasets, none valid. *)
Definition sample_large_catalog : json :=
  JDict [("title", JStr "Grande");
         ("dataset", JList [sample_untitled_dataset "Instituto";
                            sample_untitled_dataset "Instituto";
                            sample_untitled_dataset "Instituto"])].

(** A record of the indicator list: its federation keys are there and its
    percentages come from its own counts. *)
Definition consistent_record (i : indicators) : Prop :=
  (exists f, ind_federation i = Some f /\
     datasets_federados_pct f =
       percentage (datasets_federados_cant f)
                  (datasets_federados_cant f + datasets_no_federados_cant f)) /\
  (meta_ok_of i = O -> datasets_meta_ok_pct (ind_status i) = 0%Q) /\
  (actualizados_of i = O -> datasets_actualizados_pct (ind_dates i) = 0%Q).

(** The running sum of the field counts: [fields = add_dicts(fields_count,
    fields)]. *)
Definition add_fields (fields : option key_count) (fields_count : key_count)
    : option key_count :=
  add_dicts (Some fields_count) fields.

(** ** Statements about the code around the claims *)

(** The used counts do not exceed the totals. *)
Definition within_totals (c : key_count) : Prop :=
  (kc_recomendado c <= kc_total_recomendado c)%nat /\
  (kc_optativo c <= kc_total_optativo c)%nat /\
  (kc_requerido c <= kc_total_requerido c)%nat.

(** [None], a boolean or a number. *)
Definition is_scalar (x : json) : bool :=
  match x with
  | JNull | JBool _ | JInt _ | JFloat _ => true
  | _ => false
  end.

Definition is_ok (d : dataset_summary) : bool := String.eqb (estado_metadatos d) "OK".

Definition sample_catalog_for_schema : list (string * json) :=
  [("title", JStr "Catalogo");
   ("dataset", JList [JDict [("title", JStr "a");
                             ("publisher", JDict [("name", JStr "p")])];
                      JDict [("landingPage", JStr "http://b")]])].

(** The sum of the counts of a histogram. *)
Definition hist_total (h : histogram) : nat := total snd h.

(** The dataset is a mapping whose periodicity is ['eventual']. *)
Definition is_eventual (x : json) : bool :=
  match x with
  | JDict d => py_eq (dict_get "accrualPeriodicity" d JNull) (JStr "eventual")
  | _ => false
  end.

(** The dates of the dataset, ['modified'] and ['issued'], are absent or
    dates that [parse_date_string] reads. *)
Definition dataset_dates_parse `{Collaborators} (x : json) : bool :=
  match x with
  | JDict d =>
      forallb (fun date_field =>
                 match dict_lookup date_field d with
                 | Some v => match parse_date_string v with Some _ => true | None => false end
                 | None => true
                 end) ["modified"; "issued"]
  | _ => false
  end.


Definition sample_catalog_all_eventual : json :=
  JDict [("dataset",
          JList [JDict [("title", JStr "a"); ("accrualPeriodicity", JStr "eventual")];
                 JDict [("title", JStr "b"); ("accrualPeriodicity", JStr "eventual");
                        ("modified", JStr "2026-09-25")]])].


Definition sample_catalog_bad_date : list (string * json) :=
  [("title", JStr "Fecha rota"); ("modified", JStr ""); ("dataset", JList [])].



(** ** Distribution formats *)

(** The distributions the format counter visits in a dataset. *)
Definition iterated_distributions (dataset : json) : list json :=
  match py_getitem dataset "distribution" ≫= py_iter with
  | Ok l => l
  | Raise _ => []
  end.

(** The distribution has a format that counts. *)
Definition has_format (distribution : json) : bool :=
  match py_get_default distribution "format" JNull with
  | Ok f => py_truthy f
  | Raise _ => false
  end.

(** The distribution has the format [s]. *)
Definition format_is (s : string) (distribution : json) : bool :=
  match distribution with
  | JDict d => py_truthy (dict_get "format" d JNull)
               && py_eq (dict_get "format" d JNull) (JStr s)
  | _ => false
  end.

(** The distribution is a mapping whose format is a string or counts as
    absent. *)
Definition text_format (distribution : json) : bool :=
  match distribution with
  | JDict d => is_string (dict_get "format" d JNull)
               || negb (py_truthy (dict_get "format" d JNull))
  | _ => false
  end.

(** The dataset is a mapping with a list of such distributions. *)
Definition text_formats (dataset : json) : bool :=
  match dataset with
  | JDict d => match dict_lookup "distribution" d with
               | Some (JList l) => forallb text_format l
               | _ => false
               end
  | _ => false
  end.

(** No key of the histogram equals an earlier one. *)
Fixpoint separated (h : histogram) : bool :=
  match h with
  | [] => true
  | (k, _) :: r => forallb (fun kn => negb (py_eq (fst kn) k)) r && separated r
  end.

Definition string_keys (h : histogram) : bool :=
  forallb (fun kn => is_string (fst kn)) h.

Definition sample_catalog_formats : json :=
  JDict [("dataset",
          JList [JDict [("distribution",
                         JList [JDict [("format", JStr "CSV")];
                                JDict [("title", JStr "sin formato")];
                                JDict [("format", JStr "XLSX")]])];
                 JDict [("distribution",
                         JList [JDict [("format", JStr "CSV")];
                                JDict [("format", JStr "")]])]])].

Definition sample_catalog_no_distribution : list (string * json) :=
  [("dataset",
    JList [JDict [("distribution", JList [JDict [("format", JStr "CSV")]])];
           JDict [("title", JStr "sin distribuciones")]])].

(** ** Matcher *)

Definition is_nil {A : Type} (l : list A) : bool :=
  match l with [] => true | _ => false end.

(** Where distribution fields are compared, both datasets have the same
    number of distributions. *)
Definition same_distribution_count (dataset other : json)
    (fields_distribution : option (list field)) : bool :=
  match fields_distribution with
  | None | Some [] => true
  | Some _ =>
      match py_get dataset "distribution" ≫= py_len,
            py_get other "distribution" ≫= py_len with
      | Ok n, Ok m => Nat.eqb n m
      | _, _ => false
      end
  end.

(** The state [st'] of a comparison loop comes from [st] by appending diff
    entries, and its flag is still set only if there were none. *)
Definition extends (st st' : bool * list diff_entry) : Prop :=
  exists extra, snd st' = (snd st ++ extra)%list /\ fst st' = fst st && is_nil extra.

(** The two values of the diff entry are different. *)
Definition differs (e : diff_entry) : bool :=
  negb (py_eq (dataset_value e) (other_value e)).

(** Where distribution fields are compared, the dataset has a list of
    mappings as its distributions. *)
Definition distributions_comparable (d : list (string * json))
    (fields_distribution : option (list field)) : bool :=
  match fields_distribution with
  | None | Some [] => true
  | Some _ => match dict_lookup "distribution" d with
              | Some (JList l) => forallb is_dict l
              | _ => false
              end
  end.

Definition sample_compared_dataset : list (string * json) :=
  [("title", JStr "Presupuesto"); ("issued", JStr "2026-09-25");
   ("distribution", JList [JDict [("title", JStr "csv"); ("format", JStr "CSV")]])].

Definition sample_other_dataset : json :=
  JDict [("title", JStr "Presupuesto"); ("issued", JStr "2026-10-30");
         ("distribution", JList [JDict [("title", JStr "csv"); ("format", JStr "XLSX")]])].

(** ** Bulk removal *)

(** The searches of [n] pages of [query], from page [k] on. *)
Definition page_searches (query : string) (k n : nat) : list call :=
  (fun i => PackageSearch query 500 (500 * Z.of_nat i)) <$> seq k n.

(** The searches a removal makes for its organization: none without one. *)
Definition organization_searches (organization : option string) (n : nat) : list call :=
  match active_organization organization with
  | Some o => page_searches (organization_query o) 0 (S n)
  | None => []
  end.

(** The registry serves slices of a list [content] of identifiers, which
    searching does not change. *)
Definition serves_slices `{Registry} (content : portal -> list string) : Prop :=
  forall p q start, 0 <= start ->
    count (fst (package_search p q 500 start)) = Z.of_nat (length (content p)) /\
    results (fst (package_search p q 500 start)) =
      take 500 (drop (Z.to_nat start) (content p)) /\
    content (snd (package_search p q 500 start)) = content p.

(** ** Pushing a dataset *)

Definition has_license_id (package : json) : bool :=
  match package with
  | JDict d => dict_has "license_id" d
  | _ => false
  end.

(** The events of the license lookup: none, or one call of ['license_list']. *)
Definition license_events (evs : list event) : Prop :=
  evs = [] \/ exists answer, evs = [Called LicenseList answer].

(** The events of pushing [package] and the outcome of the push: the
    update, the creation only when the update was not found, the session
    closed only once one of the two has returned. *)
Definition update_events (package : json) (evs : list event) (o : outcome json) : Prop :=
  (exists pushed_package,
     evs = [Called (PackageUpdate package) (Returned pushed_package); Closed] /\
     o = of_result (py_getitem pushed_package "id")) \/
  (exists pushed_package,
     evs = [Called (PackageUpdate package) (Failed NotFound);
            Called (PackageCreate package) (Returned pushed_package); Closed] /\
     o = of_result (py_getitem pushed_package "id")) \/
  (exists f,
     evs = [Called (PackageUpdate package) (Failed NotFound);
            Called (PackageCreate package) (Failed f)] /\
     o = Failed f) \/
  (exists e,
     evs = [Called (PackageUpdate package) (Failed (Error e))] /\
     o = Failed (Error e)).

Definition push_events (evs : list event) (o : outcome json) : Prop :=
  exists lic,
    license_events lic /\
    ((evs = lic /\ exists f, o = Failed f) \/
     (exists package rest,
        has_license_id package = true /\ update_events package rest o /\
        evs = (lic ++ rest)%list)).

(** The entry of ['license_list'] has the three keys that are read. *)
Definition listed_license (license_item : json) : bool :=
  match license_item with
  | JDict i => dict_has "title" i && dict_has "url" i && dict_has "id" i
  | _ => false
  end.

(** The title or the url of the entry is the license wanted. *)
Definition license_matches (license : json) (license_item : json) : bool :=
  match license_item with
  | JDict i => py_eq (dict_get "title" i JNull) license
               || py_eq (dict_get "url" i JNull) license
  | _ => false
  end.

(** The ['license_id'] a dataset with [license] gets from the list. *)
Definition resolved_license_id (license : json) (license_list : list json) : json :=
  if py_truthy license then
    match List.find (license_matches license) license_list with
    | Some (JDict i) => dict_get "id" i JNull
    | _ => JStr "notspecified"
    end
  else JStr "notspecified".

Definition sample_licenses : list json :=
  [JDict [("title", JStr "somelicense"); ("url", JStr "somelicense.com"); ("id", JStr "1")];
   JDict [("title", JStr "otherlicense"); ("url", JStr "otherlicense.com"); ("id", JStr "2")]].

(** A registry that holds the identifiers of its packages. *)
Definition sample_ckan : Ckan :=
  {| remote := list string;
     serve := fun r a =>
       match a with
       | LicenseList => (Returned (JList sample_licenses), r)
       | PackageUpdate (JDict d) =>
           match dict_lookup "id" d with
           | Some (JStr i) => if existsb (String.eqb i) r
                              then (Returned (JDict d), r)
                              else (Failed NotFound, r)
           | _ => (Failed (Error ExternalError), r)
           end
       | PackageCreate (JDict d) =>
           match dict_lookup "id" d with
           | Some (JStr i) => (Returned (JDict d), i :: r)
           | _ => (Failed (Error ExternalError), r)
           end
       | _ => (Failed (Error ExternalError), r)
       end |}.

Definition sample_datajson : DataJson :=
  {| get_dataset := fun catalog identifier =>
       match catalog_datasets catalog with
       | Some ds =>
           match List.find (fun d => match d with
                                     | JDict f => py_eq (dict_get "identifier" f JNull)
                                                        (JStr identifier)
                                     | _ => false
                                     end) ds with
           | Some d => Returned d
           | None => Returned JNull
           end
       | None => Failed (Error ExternalError)
       end;
     map_dataset_to_package := fun _ dataset owner_org _ _ _ =>
       match dataset with
       | JDict f => Returned (JDict [("id", dict_get "identifier" f JNull);
                                     ("owner_org", JStr owner_org)])
       | _ => Failed (Error AttributeError)
       end |}.

Definition sample_licensed_dataset : list (string * json) :=
  [("identifier", JStr "7"); ("title", JStr "Padron"); ("license", JStr "otherlicense.com")].

Definition sample_push_catalog : json :=
  JDict [("dataset", JList [JDict sample_licensed_dataset])].

(** * Loops in the [result] monad *)

Lemma bind_Ok {A B : Type} (m : result A) (f : A -> result B) (a : A) :
  m = Ok a -> (m ≫= f) = f a.
Proof. by intros ->. Qed.

Lemma bind_Raise {A B : Type} (m : result A) (f : A -> result B) (e : exn) :
  m = Raise e -> (m ≫= f) = Raise e.
Proof. by intros ->. Qed.

(** A loop whose body never raises on the elements of the list is a plain
    fold. *)
Lemma foldM_pure {A B : Type} (f : B -> A -> result B) (g : B -> A -> B) (l : list A) :
  (forall acc x, In x l -> f acc x = Ok (g acc x)) ->
  forall acc, foldM f l acc = Ok (fold_left g l acc).
Proof.
  induction l as [| x l IH]; intros Hf acc; [reflexivity |].
  cbn [foldM fold_left]. rewrite Hf by (by left).
  apply IH. intros acc' y Hy. apply Hf. by right.
Qed.

(** A loop that raises [e] on the bad elements and goes on otherwise. *)
Lemma foldM_first_bad {A B : Type} (f : B -> A -> result B) (good bad : A -> bool)
    (e : exn) (l : list A) :
  (forall acc x, good x = true ->
     if bad x then f acc x = Raise e else exists acc', f acc x = Ok acc') ->
  forallb good l = true ->
  forall acc,
    if existsb bad l then foldM f l acc = Raise e
    else exists acc', foldM f l acc = Ok acc'.
Proof.
  intros Hf. induction l as [| x l IH]; intros Hgood acc.
  - cbn. eauto.
  - cbn [forallb] in Hgood. apply andb_prop in Hgood as [Hx Hl].
    specialize (Hf acc x Hx). cbn [existsb foldM].
    destruct (bad x); cbn [orb].
    + by rewrite Hf.
    + destruct Hf as [acc' ->]. by apply IH.
Qed.

Lemma mapM_Ok_length {A B : Type} (f : A -> result B) (l : list A) (r : list B) :
  mapM f l = Ok r -> length r = length l.
Proof.
  revert r. induction l as [| x l IH]; intros r; cbn [mapM].
  - by intros [= <-].
  - destruct (f x); [| discriminate]. destruct (mapM f l); [| discriminate].
    intros [= <-]. cbn. f_equal. by apply IH.
Qed.

Lemma foldM_total {A B : Type} (f : B -> A -> result B) (l : list A) :
  (forall acc x, In x l -> exists acc', f acc x = Ok acc') ->
  forall acc, exists r, foldM f l acc = Ok r.
Proof.
  induction l as [| x l IH]; intros Hf acc; [cbn; eauto |].
  cbn [foldM]. destruct (Hf acc x) as [acc' ->]; [by left |].
  apply IH. intros a y Hy. apply Hf. by right.
Qed.

Lemma foldM_invariant {A B : Type} (f : B -> A -> result B) (I : B -> Prop) (l : list A) :
  (forall acc x acc', In x l -> I acc -> f acc x = Ok acc' -> I acc') ->
  forall acc r, I acc -> foldM f l acc = Ok r -> I r.
Proof.
  induction l as [| x l IH]; intros Hf acc r Hacc; cbn [foldM].
  - by intros [= <-].
  - destruct (f acc x) as [acc' |] eqn:E; [| discriminate].
    apply IH.
    + intros a y a' Hy. apply Hf. by right.
    + apply (Hf acc x acc'); [by left | exact Hacc | exact E].
Qed.

Lemma bind_Ok_inv {A B : Type} (m : result A) (f : A -> result B) (b : B) :
  (m ≫= f) = Ok b -> exists a, m = Ok a /\ f a = Ok b.
Proof. destruct m as [a | e]; [eauto | discriminate]. Qed.

(** Splits a successful sequence of binds into its steps. *)
Ltac inv_bind H :=
  repeat (let a := fresh "x" in
          let E := fresh "E" in
          apply bind_Ok_inv in H as (a & E & H)).

(** * Rationals *)

Lemma float_nonzero (n : nat) : n <> O -> Qeq_bool (float n) 0 = false.
Proof.
  intros Hn. destruct (Qeq_bool (float n) 0) eqn:E; [| reflexivity].
  apply Qeq_bool_eq in E. unfold float, Qeq in E. cbn in E. lia.
Qed.

Lemma py_div_nonzero (x : Q) (n : nat) :
  n <> O -> py_div x (float n) = Ok (Qred (x / float n)).
Proof. intros Hn. unfold py_div. by rewrite float_nonzero. Qed.

Lemma nonzero_or (a b : nat) :
  (negb (Nat.eqb a 0) || negb (Nat.eqb b 0))%bool = negb (Nat.eqb (a + b) 0).
Proof. destruct a, b; reflexivity. Qed.

Lemma whole_percentage (n : nat) :
  n <> O -> py_round (Qred (100 * float n / float n)) 2 = 100%Q.
Proof.
  intros Hn.
  assert (E : Qred (100 * float n / float n) = Qred 100).
  { apply Qred_complete. field. intros E. unfold float, Qeq in E. cbn in E. lia. }
  rewrite E. reflexivity.
Qed.

(** * Field usage counter *)

Lemma field_spec_nested_ind (P : field_spec -> Prop) :
  (forall r, P (Leaf r)) ->
  (forall fields, Forall (fun kv => P (snd kv)) fields -> P (Nested fields)) ->
  forall v, P v.
Proof.
  intros HL HN. fix IH 1. intros [r | fields].
  - apply HL.
  - apply HN. induction fields as [| kv fields IHf]; constructor.
    + apply IH.
    + exact IHf.
Qed.

Ltac totals_arith :=
  unfold totals_plus, totals; cbn; f_equal; [f_equal |]; lia.

Lemma totals_add a b : totals (key_count_add a b) = totals_plus (totals a) (totals b).
Proof. reflexivity. Qed.

Lemma totals_incr_used r c : totals (incr_used r c) = totals c.
Proof. by destruct r. Qed.

Lemma totals_incr_total r c :
  totals (incr_total r c) = totals_plus (totals c) (totals (incr_total r key_count_zero)).
Proof. destruct r, c; totals_arith. Qed.

Lemma totals_plus_zero a : totals_plus a (totals key_count_zero) = a.
Proof. destruct a as [[x y] z]. totals_arith. Qed.

Lemma totals_plus_assoc a b c :
  totals_plus (totals_plus a b) c = totals_plus a (totals_plus b c).
Proof.
  destruct a as [[? ?] ?], b as [[? ?] ?], c as [[? ?] ?].
  totals_arith.
Qed.

Lemma no_sequence_at_empty v k : no_sequence_at v k [] = true.
Proof. by destruct v. Qed.

(** The loop over the schema, on a dict without sequences. *)
Lemma count_fields_loop d fields :
  Forall (fun kv => forall k d acc, no_sequence_at (snd kv) k d = true ->
            exists c, count_field (snd kv) k (JDict d) acc = Ok c /\
                      totals c = totals_plus (totals acc) (totals (field_totals (snd kv))))
         fields ->
  forall acc, forallb (fun kv => no_sequence_at (snd kv) (fst kv) d) fields = true ->
  exists c, foldM (fun kc kv => count_field (snd kv) (fst kv) (JDict d) kc) fields acc = Ok c /\
            totals c = totals_plus (totals acc) (totals (field_totals (Nested fields))).
Proof.
  induction 1 as [| kv fields Hkv _ IH]; intros acc Hns.
  - exists acc. split; [reflexivity |]. by rewrite totals_plus_zero.
  - cbn [forallb] in Hns. apply andb_prop in Hns as [Hk Hr].
    destruct (Hkv (fst kv) d acc Hk) as (c1 & E1 & T1).
    destruct (IH c1 Hr) as (c & E & T).
    exists c. split.
    + cbn [foldM]. rewrite E1. exact E.
    + rewrite T, T1. cbn [field_totals fold_right]. rewrite totals_add.
      rewrite totals_plus_assoc. reflexivity.
Qed.

Lemma count_field_no_sequence v :
  forall k d acc, no_sequence_at v k d = true ->
  exists c, count_field v k (JDict d) acc = Ok c /\
            totals c = totals_plus (totals acc) (totals (field_totals v)).
Proof.
  induction v as [r | fields IH] using field_spec_nested_ind; intros k d acc Hns.
  - cbn. eexists. split; [reflexivity |].
    destruct (dict_has k d); rewrite ?totals_incr_used; apply totals_incr_total.
  - assert (Hone : forall d', forallb (fun kv => no_sequence_at (snd kv) (fst kv) d') fields = true ->
              exists c, foldM (fun kc element =>
                   result ← foldM (fun kc' kv => count_field (snd kv) (fst kv) element kc')
                                  fields key_count_zero;
                   Ok (key_count_add kc result)) [JDict d'] acc = Ok c /\
                totals c = totals_plus (totals acc) (totals (field_totals (Nested fields)))).
    { intros d' Hd'. destruct (count_fields_loop d' fields IH key_count_zero Hd') as (c & E & T).
      exists (key_count_add acc c). split.
      - cbn [foldM]. rewrite E. reflexivity.
      - rewrite totals_add, T. reflexivity. }
    assert (Hempty : forallb (fun kv => no_sequence_at (snd kv) (fst kv) []) fields = true).
    { apply forallb_forall. intros kv _. apply no_sequence_at_empty. }
    cbn [count_field]. unfold nested_elements, py_get, py_get_default, py_getitem, dict_get.
    cbn [no_sequence_at] in Hns. cbn [mbind result_bind].
    destruct (dict_lookup k d) as [[| | | | | l | d'] |] eqn:El; cbn [mbind result_bind];
      try discriminate Hns; try (apply Hone; assumption).
Qed.

Lemma count_fields_no_sequences d fields :
  no_sequences d fields = true ->
  exists c, count_fields_recursive (JDict d) fields = Ok c /\
            totals c = totals (schema_totals fields).
Proof.
  intros Hns.
  destruct (count_fields_loop d fields) with (acc := key_count_zero) as (c & E & T).
  - apply Forall_forall. intros kv _ k d' acc. apply count_field_no_sequence.
  - exact Hns.
  - exists c. split; [exact E | exact T].
Qed.

(** The loop over the schema, on a mapping that fits. *)
Lemma count_totals_loop d fields :
  Forall (fun kv => forall k d acc, fits_at (snd kv) k d = true ->
            exists c, count_field (snd kv) k (JDict d) acc = Ok c /\
                      totals c = totals_plus (totals acc) (totals_at (snd kv) k (JDict d)))
         fields ->
  forall acc, forallb (fun kv => fits_at (snd kv) (fst kv) d) fields = true ->
  exists c, foldM (fun kc kv => count_field (snd kv) (fst kv) (JDict d) kc) fields acc = Ok c /\
            totals c = totals_plus (totals acc) (record_totals fields (JDict d)).
Proof.
  induction 1 as [| kv fields Hkv _ IH]; intros acc Hfit.
  - exists acc. split; [reflexivity |]. by rewrite totals_plus_zero.
  - cbn [forallb] in Hfit. apply andb_prop in Hfit as [Hk Hr].
    destruct (Hkv (fst kv) d acc Hk) as (c1 & E1 & T1).
    destruct (IH c1 Hr) as (c & E & T).
    exists c. split.
    + cbn [foldM]. rewrite E1. exact E.
    + rewrite T, T1. cbn [record_totals fold_right].
      rewrite totals_plus_assoc. reflexivity.
Qed.

(** A nested schema is counted once per element. *)
Lemma count_field_totals v :
  forall k d acc, fits_at v k d = true ->
  exists c, count_field v k (JDict d) acc = Ok c /\
            totals c = totals_plus (totals acc) (totals_at v k (JDict d)).
Proof.
  induction v as [r | fields IH] using field_spec_nested_ind; intros k d acc Hfit.
  - cbn. eexists. split; [reflexivity |].
    destruct (dict_has k d); rewrite ?totals_incr_used; apply totals_incr_total.
  - change (totals_at (Nested fields) k (JDict d))
      with (fold_right (fun element t => totals_plus (record_totals fields element) t)
                       (totals key_count_zero) (elements_of k (JDict d))).
    assert (Hall : forall l acc,
      forallb (fun e => match e with
                        | JDict d' => forallb (fun kv => fits_at (snd kv) (fst kv) d') fields
                        | _ => false
                        end) l = true ->
      exists c, foldM (fun kc element =>
                  result ← foldM (fun kc' kv => count_field (snd kv) (fst kv) element kc')
                                 fields key_count_zero;
                  Ok (key_count_add kc result)) l acc = Ok c /\
                totals c =
                  totals_plus (totals acc)
                    (fold_right (fun element t => totals_plus (record_totals fields element) t)
                                (totals key_count_zero) l)).
    { induction l as [| e l IHl]; intros a Hl.
      - exists a. split; [reflexivity |]. by rewrite totals_plus_zero.
      - cbn [forallb] in Hl. apply andb_prop in Hl as [He Hl].
        destruct e as [| | | | | | d']; try discriminate.
        destruct (count_totals_loop d' fields IH key_count_zero He) as (c1 & E1 & T1).
        destruct (IHl (key_count_add a c1) Hl) as (c & E & T).
        exists c. split.
        + cbn [foldM]. rewrite E1. exact E.
        + assert (Hzero : forall t : nat * nat * nat,
                    totals_plus (totals key_count_zero) t = t) by (by intros [[x y] z]).
          rewrite T, totals_add, T1, Hzero. cbn [fold_right].
          by rewrite totals_plus_assoc. }
    assert (Hempty : forallb (fun kv => fits_at (snd kv) (fst kv) []) fields = true).
    { apply forallb_forall. intros kv _. by destruct (snd kv). }
    cbn [count_field]. unfold nested_elements, py_get, py_get_default, py_getitem, dict_get.
    cbn [fits_at] in Hfit. cbn [elements_of mbind result_bind].
    destruct (dict_lookup k d) as [[| | | | | l | d'] |]; cbn [mbind result_bind];
      try (apply (Hall [JDict []]); cbn; by rewrite Hempty).
    + by apply Hall.
    + apply (Hall [JDict d']). cbn. by rewrite Hfit.
Qed.

Lemma same_lengths_record_totals fields :
  Forall (fun kv => forall k r1 r2, same_lengths_at (snd kv) k r1 r2 = true ->
            totals_at (snd kv) k r1 = totals_at (snd kv) k r2) fields ->
  forall r1 r2, same_lengths fields r1 r2 = true ->
  record_totals fields r1 = record_totals fields r2.
Proof.
  unfold same_lengths, record_totals.
  induction 1 as [| kv fields Hkv _ IH]; intros r1 r2 Hs; [reflexivity |].
  cbn [forallb] in Hs. apply andb_prop in Hs as [Hk Hr].
  cbn [fold_right]. by rewrite (Hkv _ _ _ Hk), (IH _ _ Hr).
Qed.

(** Records with as many elements to count have the same totals. *)
Lemma same_lengths_totals v :
  forall k r1 r2, same_lengths_at v k r1 r2 = true -> totals_at v k r1 = totals_at v k r2.
Proof.
  induction v as [r | fields IH] using field_spec_nested_ind; intros k r1 r2;
    [reflexivity |].
  change (totals_at (Nested fields) k r1)
    with (fold_right (fun element t => totals_plus (record_totals fields element) t)
                     (totals key_count_zero) (elements_of k r1)).
  change (totals_at (Nested fields) k r2)
    with (fold_right (fun element t => totals_plus (record_totals fields element) t)
                     (totals key_count_zero) (elements_of k r2)).
  cbn [same_lengths_at].
  generalize (elements_of k r1) (elements_of k r2).
  induction l as [| e1 l1 IHl]; intros [| e2 l2]; try discriminate; [reflexivity |].
  intros [He Hl]%andb_prop. cbn [fold_right].
  by rewrite (same_lengths_record_totals fields IH e1 e2 He), (IHl l2 Hl).
Qed.

(** C2, as amended: on records that fit the schema the counter returns, and
    [total_requerido], [total_recomendado] and [total_optativo] are the same
    for any two records that have, under every key with a nested schema, as
    many elements to count.  The totals are those of the schema counted once
    per element of every sequence; for a record without sequences they are
    the number of leaves of the schema per label. *)
Theorem totals_depend_on_schema_and_lengths (fields : list (string * field_spec))
    (d1 d2 : list (string * json)) :
  fits d1 fields = true ->
  fits d2 fields = true ->
  same_lengths fields (JDict d1) (JDict d2) = true ->
  exists c1 c2,
    count_fields_recursive (JDict d1) fields = Ok c1 /\
    count_fields_recursive (JDict d2) fields = Ok c2 /\
    totals c2 = totals c1 /\
    totals c1 = record_totals fields (JDict d1) /\
    (no_sequences d1 fields = true -> totals c1 = totals (schema_totals fields)).
Proof.
  intros H1 H2 Hs.
  assert (Hall : Forall (fun kv => forall k d acc, fits_at (snd kv) k d = true ->
            exists c, count_field (snd kv) k (JDict d) acc = Ok c /\
                      totals c = totals_plus (totals acc) (totals_at (snd kv) k (JDict d)))
            fields).
  { apply Forall_forall. intros kv _. apply count_field_totals. }
  assert (Hzero : forall t : nat * nat * nat, totals_plus (totals key_count_zero) t = t).
  { by intros [[x y] z]. }
  destruct (count_totals_loop d1 fields Hall key_count_zero H1) as (c1 & E1 & T1).
  destruct (count_totals_loop d2 fields Hall key_count_zero H2) as (c2 & E2 & T2).
  rewrite Hzero in T1, T2.
  exists c1, c2. split; [exact E1 |]. split; [exact E2 |]. split; [| split].
  - rewrite T1, T2. symmetry. apply same_lengths_record_totals; [| exact Hs].
    apply Forall_forall. intros kv _. apply same_lengths_totals.
  - exact T1.
  - intros Hns. destruct (count_fields_no_sequences d1 fields Hns) as (c & E & T).
    unfold count_fields_recursive in E. rewrite E1 in E. by injection E as <-.
Qed.

Lemma totals_depend_on_schema_and_lengths_witness :
  exists c1 c2,
    count_fields_recursive (JDict sample_titled_catalog) sample_schema = Ok c1 /\
    count_fields_recursive (JDict sample_untitled_catalog) sample_schema = Ok c2 /\
    totals c2 = totals c1 /\
    totals c1 = (3, 0, 0)%nat.
Proof.
  destruct (totals_depend_on_schema_and_lengths sample_schema
              sample_titled_catalog sample_untitled_catalog)
    as (c1 & c2 & E1 & E2 & T & R & _); [reflexivity | reflexivity | reflexivity |].
  exists c1, c2. split; [exact E1 |]. split; [exact E2 |]. split; [exact T |].
  rewrite R. reflexivity.
Defined.

(** C2, as stated, fails: a nested schema is counted once per element of the
    sequence it resolves to, so an empty list of datasets and a list of two
    give different totals. *)
Lemma totals_depend_on_sequence_length : ~ totals_independent_of_record.
Proof.
  intros Hind.
  specialize (Hind sample_schema sample_no_datasets sample_two_datasets
                _ _ eq_refl eq_refl).
  discriminate Hind.
Qed.

(** * Python equality *)

Lemma json_nested_ind (P : json -> Prop) :
  P JNull -> (forall b, P (JBool b)) -> (forall n, P (JInt n)) ->
  (forall q, P (JFloat q)) -> (forall s, P (JStr s)) ->
  (forall l, Forall P l -> P (JList l)) ->
  (forall d, Forall (fun kv => P (snd kv)) d -> P (JDict d)) ->
  forall x, P x.
Proof.
  intros HN HB HI HF HS HL HD. fix IH 1. intros [| b | n | q | s | l | d].
  - exact HN.
  - apply HB.
  - apply HI.
  - apply HF.
  - apply HS.
  - apply HL. induction l as [| x l IHl]; constructor; [apply IH | exact IHl].
  - apply HD. induction d as [| kv d IHd]; constructor; [apply IH | exact IHd].
Qed.

Lemma Qeq_bool_sym x y : Qeq_bool x y = Qeq_bool y x.
Proof.
  apply eq_true_iff_eq. rewrite !Qeq_bool_iff. split; intros E; symmetry; exact E.
Qed.

Lemma existsb_eqb_In k seen : existsb (String.eqb k) seen = true <-> In k seen.
Proof.
  rewrite existsb_exists. split.
  - intros (x & Hx & E). apply String.eqb_eq in E. by subst.
  - intros Hk. exists k. split; [exact Hk | apply String.eqb_refl].
Qed.

Lemma dict_lookup_In k v d : dict_lookup k d = Some v -> In (k, v) d.
Proof.
  induction d as [| [k' v'] d IH]; cbn; [discriminate |].
  destruct (String.eqb_spec k k') as [-> | Hne].
  - intros [= ->]. by left.
  - intros E. right. by apply IH.
Qed.

Lemma dict_has_lookup k d : dict_has k d = true <-> exists v, dict_lookup k d = Some v.
Proof.
  unfold dict_has. destruct (dict_lookup k d) as [v |].
  - split; [eauto | reflexivity].
  - split; [discriminate | intros [v [=]]].
Qed.

(** What [dict_sub] checks, in terms of lookups. *)
Lemma dict_sub_spec eq d' d : forall seen,
  dict_sub eq d' d seen = true <->
  (forall k v, ~ In k seen -> dict_lookup k d = Some v ->
     exists v', dict_lookup k d' = Some v' /\ eq v v' = true).
Proof.
  induction d as [| [k0 v0] d IH]; intros seen.
  - cbn. split; [intros _ k v _ [=] | reflexivity].
  - cbn [dict_sub fst snd]. rewrite andb_true_iff, IH. split.
    + intros [Hhd Htl] k v Hk. cbn [dict_lookup].
      destruct (String.eqb_spec k k0) as [-> | Hne].
      * intros [= <-].
        destruct (existsb (String.eqb k0) seen) eqn:Es.
        { exfalso. apply Hk. by apply existsb_eqb_In. }
        destruct (dict_lookup k0 d') as [v' |]; [eauto | discriminate].
      * intros El. apply Htl; [| exact El]. intros [-> | Hin]; [by apply Hne | by apply Hk].
    + intros Hall. split.
      * destruct (existsb (String.eqb k0) seen) eqn:Es; [reflexivity |].
        destruct (Hall k0 v0) as (v' & -> & E).
        -- intros Hin. apply existsb_eqb_In in Hin. congruence.
        -- cbn. by rewrite String.eqb_refl.
        -- exact E.
      * intros k v Hk El. apply Hall.
        -- intros Hin. apply Hk. by right.
        -- cbn. destruct (String.eqb_spec k k0) as [-> | Hne]; [| exact El].
           exfalso. apply Hk. by left.
Qed.

Lemma py_eq_dict_spec d d' :
  py_eq (JDict d) (JDict d') = true <->
  (forall k v, dict_lookup k d = Some v ->
     exists v', dict_lookup k d' = Some v' /\ py_eq v v' = true) /\
  (forall k, dict_has k d' = true -> dict_has k d = true).
Proof.
  cbn [py_eq]. rewrite andb_true_iff, dict_sub_spec, forallb_forall. split.
  - intros [Hsub Hkeys]. split.
    + intros k v. apply Hsub. intros [].
    + intros k Hk. apply dict_has_lookup in Hk as [v Hv].
      apply (Hkeys (k, v)). by apply dict_lookup_In.
  - intros [Hsub Hkeys]. split.
    + intros k v _. apply Hsub.
    + intros [k v] Hin. cbn. apply Hkeys. clear -Hin.
      induction d' as [| [k' v'] d' IH]; [destruct Hin |].
      unfold dict_has. cbn. destruct (String.eqb_spec k k'); [reflexivity |].
      destruct Hin as [[= -> ->] | Hin]; [congruence |]. by apply IH.
Qed.

Lemma py_eq_dict_half d d' :
  Forall (fun kv => forall b, py_eq (snd kv) b = py_eq b (snd kv)) d ->
  py_eq (JDict d) (JDict d') = true -> py_eq (JDict d') (JDict d) = true.
Proof.
  intros IH. rewrite !py_eq_dict_spec. intros [Hsub Hkeys]. split.
  - intros k v' Hv'.
    assert (Hk : dict_has k d = true).
    { apply Hkeys. apply dict_has_lookup. eauto. }
    apply dict_has_lookup in Hk as [v Hv].
    destruct (Hsub k v Hv) as (v'' & Hv'' & E).
    assert (v'' = v') by congruence. subst v''.
    exists v. split; [exact Hv |].
    rewrite Forall_forall in IH. rewrite <- (IH (k, v)); [exact E |].
    apply list_elem_of_In. by apply dict_lookup_In.
  - intros k Hk. apply dict_has_lookup in Hk as [v Hv].
    destruct (Hsub k v Hv) as (v' & Hv' & _). apply dict_has_lookup. eauto.
Qed.

Lemma py_eq_dict_half' d d' :
  Forall (fun kv => forall b, py_eq (snd kv) b = py_eq b (snd kv)) d ->
  py_eq (JDict d') (JDict d) = true -> py_eq (JDict d) (JDict d') = true.
Proof.
  intros IH. rewrite !py_eq_dict_spec. intros [Hsub Hkeys]. split.
  - intros k v Hv.
    assert (Hk : dict_has k d' = true).
    { apply Hkeys. apply dict_has_lookup. eauto. }
    apply dict_has_lookup in Hk as [v' Hv'].
    destruct (Hsub k v' Hv') as (v'' & Hv'' & E).
    assert (v'' = v) by congruence. subst v''.
    exists v'. split; [exact Hv' |].
    rewrite Forall_forall in IH. rewrite (IH (k, v)); [exact E |].
    apply list_elem_of_In. by apply dict_lookup_In.
  - intros k Hk. apply dict_has_lookup in Hk as [v Hv].
    destruct (Hsub k v Hv) as (v' & Hv' & _). apply dict_has_lookup. eauto.
Qed.

(** Python's [==] is symmetric on parsed JSON. *)
Lemma py_eq_sym a : forall b, py_eq a b = py_eq b a.
Proof.
  induction a as [| x | n | q | s | l IH | d IH] using json_nested_ind; intros b.
  - by destruct b.
  - destruct b; cbn; try reflexivity; apply Qeq_bool_sym.
  - destruct b; cbn; try reflexivity; apply Qeq_bool_sym.
  - destruct b; cbn; try reflexivity; apply Qeq_bool_sym.
  - destruct b; cbn; try reflexivity. apply String.eqb_sym.
  - destruct b as [| | | | | l' |]; try reflexivity. cbn [py_eq].
    revert l'. induction IH as [| x l Hx _ IHl]; intros [| y l']; try reflexivity.
    cbn [list_eq]. rewrite Hx. f_equal. apply IHl.
  - destruct b as [| | | | | | d']; try reflexivity.
    apply eq_true_iff_eq. split.
    + by apply py_eq_dict_half.
    + by apply py_eq_dict_half'.
Qed.

(** * Dataset matcher *)

(** On two dicts the default fields never raise: the outcome is the
    conjunction of the two comparisons. *)
Lemma compare_default_fields (d d' : list (string * json)) :
  exists diff,
    compare_dataset_fields (JDict d) (JDict d') default_fields_dataset =
      Ok (py_eq (dict_get "title" d JNull)
                (dict_get "title" d' JNull)
          && py_eq (traverse_dict (JDict d) [PKey "publisher"; PKey "name"] JNull)
                   (traverse_dict (JDict d') [PKey "publisher"; PKey "name"] JNull),
          diff).
Proof.
  unfold compare_dataset_fields, default_fields_dataset.
  cbn -[traverse_dict py_eq dict_get].
  destruct (py_eq (dict_get "title" d JNull) _);
    cbn -[traverse_dict py_eq dict_get];
    destruct (py_eq (traverse_dict (JDict d) _ _) _);
    cbn -[traverse_dict py_eq dict_get]; eexists; reflexivity.
Qed.

Lemma datasets_equal_dicts (d d' : list (string * json)) :
  datasets_equal (JDict d) (JDict d') None None false =
    Ok (IsEqual (py_eq (dict_get "title" d JNull)
                       (dict_get "title" d' JNull)
                 && py_eq (traverse_dict (JDict d) [PKey "publisher"; PKey "name"] JNull)
                          (traverse_dict (JDict d') [PKey "publisher"; PKey "name"] JNull))).
Proof.
  unfold datasets_equal. destruct (compare_default_fields d d') as [diff ->].
  reflexivity.
Qed.

(** C8: used for equality only (default dataset fields, no distribution
    fields, [return_diff=False]) the matcher is symmetric; when it raises, it
    raises the same exception both ways. *)
Theorem datasets_equal_symmetric (a b : json) :
  datasets_equal a b None None false = datasets_equal b a None None false.
Proof.
  destruct a as [| | | | | | d], b as [| | | | | | d']; try reflexivity.
  rewrite !datasets_equal_dicts.
  rewrite (py_eq_sym (dict_get "title" d JNull)).
  rewrite (py_eq_sym (traverse_dict (JDict d) _ _)).
  reflexivity.
Qed.

(** A length mismatch between the distribution lists changes the boolean and
    adds nothing to the diff. *)
Lemma length_mismatch_leaves_no_diff (d d' : list (string * json))
    (l l' : list json) (fd : field) (fds : list field) (return_diff : bool) :
  compare_dataset_fields (JDict d) (JDict d') default_fields_dataset = Ok (true, []) ->
  dict_lookup "distribution" d = Some (JList l) ->
  dict_lookup "distribution" d' = Some (JList l') ->
  length l <> length l' ->
  compare_distributions (zip l l') (fd :: fds) [] = Ok (true, []) ->
  datasets_equal (JDict d) (JDict d') None (Some (fd :: fds)) return_diff =
    Ok (if return_diff then Diff [] else IsEqual false).
Proof.
  intros Hfields Hl Hl' Hlen Hzip. unfold datasets_equal.
  rewrite Hfields. cbn [mbind result_bind py_get py_get_default]. unfold dict_get.
  rewrite Hl, Hl'. cbn [py_len py_iter mbind result_bind fst snd].
  rewrite Hzip. cbn [mbind result_bind fst snd].
  apply Nat.eqb_neq in Hlen. rewrite Hlen. reflexivity.
Qed.

(** C10: an empty diff does not imply a match.  There are datasets equal on
    every dataset field, whose distribution lists differ in length and agree
    on every distribution field up to the shorter one, for which
    [return_diff=True] gives the empty list and [return_diff=False] gives
    [False]. *)
Theorem empty_diff_does_not_imply_match :
  exists (d d' : list (string * json)) (l l' : list json) (fields_distribution : list field),
    compare_dataset_fields (JDict d) (JDict d') default_fields_dataset = Ok (true, []) /\
    dict_lookup "distribution" d = Some (JList l) /\
    dict_lookup "distribution" d' = Some (JList l') /\
    length l <> length l' /\
    compare_distributions (zip l l') fields_distribution [] = Ok (true, []) /\
    datasets_equal (JDict d) (JDict d') None (Some fields_distribution) true = Ok (Diff []) /\
    datasets_equal (JDict d) (JDict d') None (Some fields_distribution) false
      = Ok (IsEqual false).
Proof.
  exists sample_short_dataset, sample_long_dataset, [sample_csv],
    [sample_csv; sample_xlsx], sample_fields_distribution.
  assert (Hlen : length [sample_csv] <> length [sample_csv; sample_xlsx])
    by (cbn; lia).
  repeat split; try reflexivity; exact Hlen.
Qed.

(** * Federation reconciler *)

Section FederationFacts.
Context `{Collaborators}.

Lemma is_dataset_inv x :
  is_dataset x = true ->
  exists d, x = JDict d /\
    (dict_lookup "publisher" d = None \/ exists p, dict_lookup "publisher" d = Some (JDict p)).
Proof.
  destruct x as [| | | | | | d]; try discriminate. cbn. intros Hx.
  exists d. split; [reflexivity |].
  destruct (dict_lookup "publisher" d) as [[| | | | | | p] |]; try discriminate; eauto.
Qed.

(** Reading the publisher name of a dataset of the data model: a [KeyError]
    without the key, a value or nothing otherwise. *)
Lemma publisher_name_cases x :
  is_dataset x = true ->
  if lacks_publisher x then py_getitem x "publisher" = Raise KeyError
  else exists p, py_getitem x "publisher" = Ok (JDict p) /\
         (dict_has "name" p = true -> exists n, py_getitem (JDict p) "name" = Ok n).
Proof.
  intros Hx. destruct (is_dataset_inv x Hx) as (d & -> & [Hp | [p Hp]]);
    cbn; unfold dict_has; rewrite Hp; cbn.
  - reflexivity.
  - exists p. split; [reflexivity |]. intros Hn.
    destruct (dict_lookup "name" p); [eauto | discriminate].
Qed.

Lemma publisher_names_loop (names : list json) (l : list json) :
  forallb is_dataset l = true ->
  if existsb lacks_publisher l then
    foldM (fun names catalog_dataset =>
             publisher ← py_getitem catalog_dataset "publisher";
             has_name ← py_contains "name" publisher;
             if has_name : bool
             then publisher ← py_getitem catalog_dataset "publisher";
                  name ← py_getitem publisher "name";
                  Ok (names ++ [name])%list
             else Ok names) l names = Raise KeyError
  else exists names',
    foldM (fun names catalog_dataset =>
             publisher ← py_getitem catalog_dataset "publisher";
             has_name ← py_contains "name" publisher;
             if has_name : bool
             then publisher ← py_getitem catalog_dataset "publisher";
                  name ← py_getitem publisher "name";
                  Ok (names ++ [name])%list
             else Ok names) l names = Ok names'.
Proof.
  intros Hl. apply (foldM_first_bad _ is_dataset lacks_publisher KeyError l); [| exact Hl].
  intros acc x Hx. pose proof (publisher_name_cases x Hx) as Hc.
  destruct (lacks_publisher x).
  - by rewrite Hc.
  - destruct Hc as (p & -> & Hn). cbn [mbind result_bind py_contains].
    destruct (dict_has "name" p); [| eauto].
    destruct Hn as [n Hn]; [reflexivity |]. rewrite Hn. cbn. eauto.
Qed.

Lemma filtered_central_loop (publisher_names : list json) (acc : list json) (l : list json) :
  forallb is_dataset l = true ->
  if existsb lacks_publisher l then
    foldM (fun filtered_central_datasets central_dataset =>
             publisher ← py_getitem central_dataset "publisher";
             has_name ← py_contains "name" publisher;
             if has_name : bool
             then publisher ← py_getitem central_dataset "publisher";
                  name ← py_getitem publisher "name";
                  Ok (if list_contains name publisher_names
                      then (filtered_central_datasets ++ [central_dataset])%list
                      else filtered_central_datasets)
             else Ok filtered_central_datasets) l acc = Raise KeyError
  else exists l',
    foldM (fun filtered_central_datasets central_dataset =>
             publisher ← py_getitem central_dataset "publisher";
             has_name ← py_contains "name" publisher;
             if has_name : bool
             then publisher ← py_getitem central_dataset "publisher";
                  name ← py_getitem publisher "name";
                  Ok (if list_contains name publisher_names
                      then (filtered_central_datasets ++ [central_dataset])%list
                      else filtered_central_datasets)
             else Ok filtered_central_datasets) l acc = Ok l'.
Proof.
  intros Hl. apply (foldM_first_bad _ is_dataset lacks_publisher KeyError l); [| exact Hl].
  intros acc' x Hx. pose proof (publisher_name_cases x Hx) as Hc.
  destruct (lacks_publisher x).
  - by rewrite Hc.
  - destruct Hc as (p & -> & Hn). cbn [mbind result_bind py_contains].
    destruct (dict_has "name" p); [| eauto].
    destruct Hn as [n Hn]; [reflexivity |]. rewrite Hn. cbn. eauto.
Qed.

Lemma filter_by_likely_publisher_raises (central_list local_list : list json) :
  forallb is_dataset local_list = true ->
  forallb is_dataset central_list = true ->
  existsb lacks_publisher (local_list ++ central_list) = true ->
  filter_by_likely_publisher (JList central_list) (JList local_list) = Raise KeyError.
Proof.
  intros Hl Hc Hbad. unfold filter_by_likely_publisher.
  cbn [py_iter mbind result_bind].
  pose proof (publisher_names_loop [] local_list Hl) as H1.
  rewrite existsb_app in Hbad.
  destruct (existsb lacks_publisher local_list).
  - by rewrite H1.
  - destruct H1 as [names ->]. cbn [orb] in Hbad.
    pose proof (filtered_central_loop names [] central_list Hc) as H2.
    rewrite Hbad in H2. exact H2.
Qed.

End FederationFacts.

Section Reconciler.
Context `{Collaborators}.

Lemma has_publisher_is_dataset x : has_publisher x = true -> is_dataset x = true.
Proof. unfold has_publisher. by intros [? _]%andb_prop. Qed.

Lemma has_publisher_not_lacking x : has_publisher x = true -> lacks_publisher x = false.
Proof. unfold has_publisher. intros [_ E]%andb_prop. by apply negb_true_iff. Qed.

Lemma is_dataset_is_dict x : is_dataset x = true -> is_dict x = true.
Proof. by destruct x. Qed.

Lemma forallb_impl {A : Type} (P Q : A -> bool) (l : list A) :
  (forall x, P x = true -> Q x = true) -> forallb P l = true -> forallb Q l = true.
Proof.
  intros HPQ. rewrite !forallb_forall. intros HP x Hx. by apply HPQ, HP.
Qed.

Lemma existsb_none {A : Type} (P Q : A -> bool) (l : list A) :
  (forall x, P x = true -> Q x = false) -> forallb P l = true -> existsb Q l = false.
Proof.
  intros HPQ. induction l as [| x l IH]; [reflexivity |].
  cbn. intros [Hx Hl]%andb_prop. by rewrite (HPQ x Hx), IH.
Qed.

Lemma title_and_landing_dict x :
  is_dict x = true -> title_and_landing x = Ok (display_pair x).
Proof. by destruct x. Qed.

(** The inner loop on mappings: it never raises, and says whether some
    element matches. *)
Lemma found_in_dicts (swap : bool) (x : json) (l : list json) :
  is_dict x = true -> forallb is_dict l = true ->
  found_in swap x l =
    Ok (existsb (fun o => if swap then dataset_matches o x else dataset_matches x o) l).
Proof.
  intros Hx. induction l as [| o l IH]; [reflexivity |].
  cbn [forallb]. intros [Ho Hl]%andb_prop.
  destruct x as [| | | | | | d]; try discriminate.
  destruct o as [| | | | | | d']; try discriminate.
  cbn [found_in existsb]. unfold dataset_matches at 1 2.
  destruct swap; rewrite datasets_equal_dicts; cbn [mbind result_bind equal_result_truthy];
    (destruct (_ && _)%bool; [reflexivity | by rewrite IH]).
Qed.

(** The scan stops at the first match: what comes after it is not looked
    at. *)
Lemma found_in_first_match (x o : json) (before after : list json) :
  found_in false x before = Ok false ->
  datasets_equal x o None None false = Ok (IsEqual true) ->
  found_in false x (before ++ o :: after) = Ok true.
Proof.
  intros Hb Ho. induction before as [| b before IH]; cbn [found_in app].
  - by rewrite Ho.
  - cbn [found_in] in Hb. destruct (datasets_equal x b None None false) as [r |]; [| discriminate].
    cbn [mbind result_bind] in *. destruct (equal_result_truthy r); [discriminate |].
    by apply IH.
Qed.

Lemma forward_pass (cd ed : list (string * json)) (ds cs : list json)
    (st : nat * nat * list (json * json) * list (json * json)) :
  dict_get "dataset" ed (JList []) = JList cs ->
  forallb is_dict ds = true -> forallb is_dict cs = true ->
  foldM (fun st dataset =>
           let '(federados, no_federados, datasets_federados, datasets_no_federados) := st in
           central ← py_get_default (JDict ed) "dataset" (JList []);
           central_list ← py_iter central;
           found ← found_in false dataset central_list;
           t ← title_and_landing dataset;
           if found : bool
           then Ok (S federados, no_federados, (datasets_federados ++ [t])%list,
                    datasets_no_federados)
           else Ok (federados, S no_federados, datasets_federados,
                    (datasets_no_federados ++ [t])%list))
        ds st
  = Ok (fold_left (classify_local cs) ds st).
Proof.
  intros Hcs Hds Hcd. apply foldM_pure.
  intros [[[f n] lf] ln] x Hx.
  rewrite forallb_forall in Hds. specialize (Hds x Hx).
  cbn [py_get_default]. rewrite Hcs. cbn [mbind result_bind py_iter].
  rewrite (found_in_dicts false x cs Hds Hcd). cbn [mbind result_bind].
  rewrite (title_and_landing_dict x Hds). cbn [mbind result_bind classify_local].
  by destruct (existsb _ cs).
Qed.

Lemma classify_local_counts (cs ds : list json) :
  forall st,
    let r := fold_left (classify_local cs) ds st in
    r.1.1.1 = (st.1.1.1 + length (List.filter (fun d => existsb (dataset_matches d) cs) ds))%nat /\
    r.1.1.2 = (st.1.1.2 +
               length (List.filter (fun d => negb (existsb (dataset_matches d) cs)) ds))%nat.
Proof.
  induction ds as [| d ds IH]; intros [[[f n] lf] ln]; cbn [fold_left].
  - cbn. lia.
  - cbn [classify_local List.filter]. destruct (existsb (dataset_matches d) cs) eqn:E.
    + destruct (IH (S f, n, (lf ++ [display_pair d])%list, ln)) as [-> ->]. cbn. lia.
    + destruct (IH (f, S n, lf, (ln ++ [display_pair d])%list)) as [-> ->]. cbn. lia.
Qed.

Lemma federados_pct_of_spec (federados no_federados : nat) :
  federados_pct_of federados no_federados =
    Ok (if Nat.eqb (federados + no_federados) 0 then 0%Q
        else Qred (100 * float federados / float (federados + no_federados))).
Proof.
  unfold federados_pct_of. rewrite nonzero_or.
  destruct (Nat.eqb_spec (federados + no_federados) 0) as [E | E]; [reflexivity |].
  cbn [negb]. by apply py_div_nonzero.
Qed.

Lemma filter_by_likely_publisher_total (cs ds : list json) :
  forallb has_publisher ds = true ->
  forallb has_publisher cs = true ->
  exists l, filter_by_likely_publisher (JList cs) (JList ds) = Ok l /\
            forall x, In x l -> In x cs.
Proof.
  intros Hds Hcs. unfold filter_by_likely_publisher. cbn [py_iter mbind result_bind].
  pose proof (publisher_names_loop [] ds
                (forallb_impl _ _ _ has_publisher_is_dataset Hds)) as H1.
  rewrite (existsb_none _ _ _ has_publisher_not_lacking Hds) in H1.
  destruct H1 as [names ->]. cbn [mbind result_bind].
  pose proof (filtered_central_loop names [] cs
                (forallb_impl _ _ _ has_publisher_is_dataset Hcs)) as H2.
  rewrite (existsb_none _ _ _ has_publisher_not_lacking Hcs) in H2.
  destruct H2 as [l Hl]. exists l. split; [exact Hl |].
  refine (foldM_invariant _ (fun acc => forall x, In x acc -> In x cs) cs _ [] l _ Hl);
    [| intros x []].
  intros acc x acc' Hx Hacc.
  destruct (py_getitem x "publisher") as [p |]; [| discriminate]. cbn [mbind result_bind].
  destruct (py_contains "name" p) as [[|] |]; cbn [mbind result_bind]; try discriminate.
  - destruct (py_getitem p "name") as [n |]; [| discriminate]. cbn [mbind result_bind].
    destruct (list_contains n names); intros [= <-]; [| exact Hacc].
    intros y [Hy | [<- | []]]%in_app_or; [by apply Hacc | exact Hx].
  - by intros [= <-].
Qed.

Lemma backward_pass (cd : list (string * json)) (ds l : list json) (st : nat * list (json * json)) :
  dict_get "dataset" cd (JList []) = JList ds ->
  forallb is_dict ds = true -> forallb is_dict l = true ->
  exists r,
    foldM (fun st central_dataset =>
             local ← py_get_default (JDict cd) "dataset" (JList []);
             local_list ← py_iter local;
             found ← found_in true central_dataset local_list;
             if found : bool then Ok st
             else t ← title_and_landing central_dataset;
                  Ok (S (fst st), (snd st ++ [t])%list))
          l st = Ok r.
Proof.
  intros Hcd Hds Hl. apply foldM_total. intros acc x Hx.
  rewrite forallb_forall in Hl. specialize (Hl x Hx).
  cbn [py_get_default]. rewrite Hcd. cbn [mbind result_bind py_iter].
  rewrite (found_in_dicts true x ds Hl Hds). cbn [mbind result_bind].
  destruct (existsb _ ds); [eauto |].
  rewrite (title_and_landing_dict x Hl). cbn. eauto.
Qed.

Lemma catalog_datasets_inv (catalog : json) (ds : list json) :
  catalog_datasets catalog = Some ds ->
  exists d, catalog = JDict d /\ dict_get "dataset" d (JList []) = JList ds.
Proof.
  destruct catalog as [| | | | | | d]; try discriminate. cbn.
  destruct (dict_get "dataset" d (JList [])) eqn:E; try discriminate.
  intros [= <-]. eauto.
Qed.

(** The reconciler up to the pre-filter of the second pass. *)
Lemma federation_indicators_unfold (catalog : json) (central : source)
    (ds cs : list json) :
  catalog_datasets catalog = Some ds ->
  catalog_datasets (read_catalog central) = Some cs ->
  forallb is_dict ds = true -> forallb is_dict cs = true ->
  federation_indicators catalog central =
    (let '(federados, no_federados, datasets_federados, datasets_no_federados) :=
       fold_left (classify_local cs) ds (O, O, [], []) in
     filtered_central ← filter_by_likely_publisher (JList cs) (JList ds);
     pass2 ←
       foldM (fun st central_dataset =>
                local ← py_get_default catalog "dataset" (JList []);
                local_list ← py_iter local;
                found ← found_in true central_dataset local_list;
                if found : bool then Ok st
                else t ← title_and_landing central_dataset;
                     Ok (S (fst st), (snd st ++ [t])%list))
             filtered_central (O, []);
     federados_pct ← federados_pct_of federados no_federados;
     Ok (FederationResult federados no_federados (fst pass2) (snd pass2)
           datasets_no_federados datasets_federados (py_round federados_pct 2))).
Proof.
  intros Hcat Hcen Hds Hcs.
  destruct (catalog_datasets_inv _ _ Hcat) as (cd & -> & Hcd).
  destruct (catalog_datasets_inv _ _ Hcen) as (ed & Eed & Hed).
  assert (Gcd : py_get_default (JDict cd) "dataset" (JList []) = Ok (JList ds))
    by (cbn; by rewrite Hcd).
  assert (Ged : py_get_default (JDict ed) "dataset" (JList []) = Ok (JList cs))
    by (cbn; by rewrite Hed).
  unfold federation_indicators. rewrite Eed. cbv zeta.
  rewrite Gcd at 1. cbn [mbind result_bind py_iter].
  rewrite (forward_pass cd ed ds cs _ Hed Hds Hcs). cbn [mbind result_bind].
  destruct (fold_left (classify_local cs) ds (O, O, [], [])) as [[[f n] lf] ln].
  rewrite Ged at 1. cbn [mbind result_bind].
  rewrite Gcd at 1. reflexivity.
Qed.

(** C9: the pre-filter of the deletion pass is not total over the data
    model.  When a dataset of the local or of the central catalog has no
    ['publisher'] key, the filter raises [KeyError], and so does the
    reconciler. *)
Theorem federation_indicators_KeyError (catalog : json) (central : source)
    (ds cs : list json) :
  catalog_datasets catalog = Some ds ->
  catalog_datasets (read_catalog central) = Some cs ->
  forallb is_dataset ds = true ->
  forallb is_dataset cs = true ->
  existsb lacks_publisher (ds ++ cs) = true ->
  filter_by_likely_publisher (JList cs) (JList ds) = Raise KeyError /\
  federation_indicators catalog central = Raise KeyError.
Proof.
  intros Hcat Hcen Hds Hcs Hbad.
  pose proof (filter_by_likely_publisher_raises cs ds Hds Hcs Hbad) as Hf.
  split; [exact Hf |].
  rewrite (federation_indicators_unfold catalog central ds cs Hcat Hcen
             (forallb_impl _ _ _ is_dataset_is_dict Hds)
             (forallb_impl _ _ _ is_dataset_is_dict Hcs)).
  destruct (fold_left (classify_local cs) ds (O, O, [], [])) as [[[f n] lf] ln].
  by rewrite Hf.
Qed.

(** C7, as amended: on catalogs whose datasets are mappings with a
    [publisher] mapping the reconciler returns; a local dataset counts as
    federated exactly when some central dataset matches it; the percentage is
    federados / (federados + no_federados) x 100 rounded to 2 decimals, or 0
    when both counts are 0; and a local catalog with at least one dataset,
    each matching a central one, has no unfederated dataset and 100 per
    cent. *)
Theorem fully_federated_catalog (catalog : json) (central : source)
    (ds cs : list json) :
  catalog_datasets catalog = Some ds ->
  catalog_datasets (read_catalog central) = Some cs ->
  forallb has_publisher ds = true ->
  forallb has_publisher cs = true ->
  exists r,
    federation_indicators catalog central = Ok r /\
    datasets_federados_cant r =
      length (List.filter (fun d => existsb (dataset_matches d) cs) ds) /\
    datasets_no_federados_cant r =
      length (List.filter (fun d => negb (existsb (dataset_matches d) cs)) ds) /\
    datasets_federados_pct r =
      federados_pct_expected (datasets_federados_cant r) (datasets_no_federados_cant r) /\
    (ds <> [] ->
     forallb (fun d => existsb (dataset_matches d) cs) ds = true ->
     datasets_no_federados_cant r = O /\ datasets_federados_pct r = 100%Q).
Proof.
  intros Hcat Hcen Hds Hcs.
  assert (Dds : forallb is_dict ds = true).
  { eapply forallb_impl; [| exact Hds]. intros x Hx.
    by apply is_dataset_is_dict, has_publisher_is_dataset. }
  assert (Dcs : forallb is_dict cs = true).
  { eapply forallb_impl; [| exact Hcs]. intros x Hx.
    by apply is_dataset_is_dict, has_publisher_is_dataset. }
  rewrite (federation_indicators_unfold catalog central ds cs Hcat Hcen Dds Dcs).
  pose proof (classify_local_counts cs ds (O, O, [], [])) as [Hf Hn].
  destruct (fold_left (classify_local cs) ds (O, O, [], [])) as [[[f n] lf] ln].
  cbn [fst snd] in Hf, Hn. rewrite Nat.add_0_l in Hf, Hn.
  destruct (filter_by_likely_publisher_total cs ds Hds Hcs) as (l & -> & Hl).
  cbn [mbind result_bind].
  destruct (catalog_datasets_inv _ _ Hcat) as (cd & -> & Hcd).
  destruct (backward_pass cd ds l (O, []) Hcd Dds) as [p2 ->].
  { apply forallb_forall. intros x Hx. rewrite forallb_forall in Dcs. by apply Dcs, Hl. }
  cbn [mbind result_bind]. rewrite federados_pct_of_spec. cbn [mbind result_bind].
  eexists. split; [reflexivity |]. cbn [datasets_federados_cant datasets_no_federados_cant
                                         datasets_federados_pct].
  split; [exact Hf |]. split; [exact Hn |]. split; [reflexivity |].
  intros Hne Hall.
  assert (Hn0 : n = O).
  { rewrite Hn. clear -Hall. induction ds as [| d ds IH]; [reflexivity |].
    cbn in Hall |- *. apply andb_prop in Hall as [-> Hall]. cbn. by apply IH. }
  assert (Hfl : f = length ds).
  { rewrite Hf. clear -Hall. induction ds as [| d ds IH]; [reflexivity |].
    cbn in Hall |- *. apply andb_prop in Hall as [-> Hall]. cbn. f_equal. by apply IH. }
  split; [exact Hn0 |]. rewrite Hn0.
  assert (Hf0 : f <> O) by (rewrite Hfl; destruct ds; [congruence | cbn; lia]).
  rewrite Nat.add_0_r. destruct (Nat.eqb_spec f 0) as [E | _]; [contradiction |].
  by apply whole_percentage.
Qed.

End Reconciler.

Lemma fully_federated_catalog_witness :
  exists r,
    @federation_indicators sample_collaborators sample_local_catalog
      (Parsed sample_central_catalog) = Ok r /\
    datasets_no_federados_cant r = O /\ datasets_federados_pct r = 100%Q.
Proof.
  destruct (@fully_federated_catalog sample_collaborators sample_local_catalog
              (Parsed sample_central_catalog)
              [sample_dataset "Padron" "Ministerio"; sample_dataset "Presupuesto" "Ministerio"]
              [sample_dataset "Censo" "Instituto"; sample_dataset "Presupuesto" "Ministerio";
               sample_dataset "Padron" "Ministerio"]
              eq_refl eq_refl eq_refl eq_refl) as (r & Hr & _ & _ & _ & Hfull).
  exists r. split; [exact Hr |]. apply Hfull; [discriminate | reflexivity].
Defined.

Lemma federation_indicators_KeyError_witness :
  @federation_indicators sample_collaborators sample_orphan_catalog
    (Parsed sample_central_catalog) = Raise KeyError.
Proof.
  apply (@federation_indicators_KeyError sample_collaborators sample_orphan_catalog
           (Parsed sample_central_catalog)
           [sample_dataset "Padron" "Ministerio"; sample_orphan_dataset]
           [sample_dataset "Censo" "Instituto"; sample_dataset "Presupuesto" "Ministerio";
            sample_dataset "Padron" "Ministerio"]); reflexivity.
Defined.

(** C7, as stated, fails on a local catalog without datasets: all of its
    datasets match, and the percentage is 0. *)
Lemma empty_catalog_is_not_100 : ~ fully_contained_gives_100.
Proof.
  intros Hclaim.
  destruct (Hclaim sample_collaborators sample_empty_catalog
              (Parsed sample_central_catalog) []
              [sample_dataset "Censo" "Instituto"; sample_dataset "Presupuesto" "Ministerio";
               sample_dataset "Padron" "Ministerio"]
              (FederationResult 0 0 0 [] [] [] 0)
              eq_refl eq_refl eq_refl eq_refl) as [_ Hpct].
  discriminate Hpct.
Qed.

(** * Freshness evaluator *)

Section Freshness.
Context `{Collaborators}.




End Freshness.

(** C5, on the code: a catalog whose most recent date is today gets [None],
    because 0 days is a false value; and when the catalog was updated today
    and a dataset five days ago, the result is 5, not the minimum 0. *)
Theorem updated_today_is_None :
  @days_from_last_update sample_collaborators sample_catalog_updated_today "modified"
    = Ok None /\
  catalogo_ultima_actualizacion_dias <$>
    @generate_date_indicators sample_collaborators sample_catalog_updated_today
      default_tolerance = Ok None /\
  catalogo_ultima_actualizacion_dias <$>
    @generate_date_indicators sample_collaborators sample_catalog_today_and_before
      default_tolerance = Ok (Some 5%Z).
Proof. repeat split; reflexivity. Qed.

(** C3, on the code: the percentage is taken over all the datasets and is
    rounded before it is multiplied by 100.  With one updated dataset out of
    one that has a periodicity, among three datasets, the code gives 33 and
    not 100; with one updated out of three that have a periodicity it gives
    33 and not 33.33. *)
Theorem actualizados_pct_over_all_datasets :
  (fun r => (datasets_actualizados_cant r, datasets_desactualizados_cant r,
             datasets_actualizados_pct r)) <$>
    @generate_date_indicators sample_collaborators sample_catalog_one_periodic
      default_tolerance = Ok (1%nat, 0%nat, 33%Q) /\
  actualizados_pct_expected 1 1 = 100%Q /\
  (fun r => (datasets_actualizados_cant r, datasets_desactualizados_cant r,
             datasets_actualizados_pct r)) <$>
    @generate_date_indicators sample_collaborators sample_catalog_one_of_three
      default_tolerance = Ok (1%nat, 2%nat, 33%Q) /\
  actualizados_pct_expected 1 3 = 33.33%Q.
Proof. repeat split; reflexivity. Qed.

(** * Bulk removal *)

Section RemovalFacts.
Context `{Registry}.

Lemma purged_app (l l' : list call) : purged (l ++ l') = (purged l ++ purged l')%list.
Proof. unfold purged. apply omap_app. Qed.

(** The purge loop adds one call per identifier, in order. *)
Lemma purge_loop (ids : list string) (st : run_state) :
  snd (fold_left call_dataset_purge ids st) = (snd st ++ (DatasetPurge <$> ids))%list.
Proof.
  revert st. induction ids as [| id ids IH]; intros st; cbn [fold_left fmap list_fmap].
  - by rewrite app_nil_r.
  - rewrite IH. cbn. by rewrite <- app_assoc.
Qed.

Lemma purged_purges (ids : list string) : purged (DatasetPurge <$> ids) = ids.
Proof.
  induction ids as [| id ids IH]; [reflexivity |].
  change (purged (DatasetPurge <$> id :: ids)) with (id :: purged (DatasetPurge <$> ids)).
  by rewrite IH.
Qed.

(** Paging only searches: it purges nothing. *)
Lemma search_pages_purges_nothing (fuel : nat) :
  forall st query sr ids start ids' st',
    search_pages fuel st query sr ids start = Some (ids', st') ->
    purged (snd st') = purged (snd st).
Proof.
  induction fuel as [| fuel IH]; intros st query sr ids start ids' st'; cbn [search_pages].
  - destruct (count sr >? start); [discriminate |]. by intros [= _ <-].
  - destruct (count sr >? start); [| by intros [= _ <-]].
    unfold call_package_search. destruct (package_search _ _ _ _) as [sr' p].
    intros E. apply IH in E. rewrite E. cbn [snd]. rewrite purged_app. cbn.
    by rewrite app_nil_r.
Qed.

(** Paging ends when the counts that the registry reports are bounded, along
    the states the registry goes through. *)
Lemma search_pages_terminates (bound : Z) (inv : portal -> Prop) (fuel : nat) :
  (forall p q rows start, inv p ->
     count (fst (package_search p q rows start)) <= bound /\
     inv (snd (package_search p q rows start))) ->
  forall st query sr ids start,
    inv (fst st) ->
    count sr <= bound ->
    bound - start <= 500 * Z.of_nat fuel ->
    exists r, search_pages fuel st query sr ids start = Some r.
Proof.
  intros Hbound. induction fuel as [| fuel IH]; intros st query sr ids start Hst Hsr Hfuel;
    cbn [search_pages].
  - destruct (Z.gtb_spec (count sr) start); [lia | eauto].
  - destruct (Z.gtb_spec (count sr) start); [| eauto].
    unfold call_package_search.
    pose proof (Hbound (fst st) query 500 start Hst) as [Hb Hi].
    destruct (package_search _ _ _ _) as [sr' p]. cbn [fst snd] in Hb, Hi.
    apply IH; [exact Hi | exact Hb | lia].
Qed.

(** C6: with both sources active the identifiers purged are the intersection
    of the two sources, each purged once; with one source active they are the
    identifiers of that source; without any filter no call is made at all. *)
Theorem purge_set (fuel : nat) (ckan_portal : portal) (portal_url : string)
    (filter_in filter_out : option json) (only_time_series : bool)
    (organization : option string) (bound : Z) (inv : portal -> Prop) :
  inv ckan_portal ->
  (forall p q rows start, inv p ->
     count (fst (package_search p q rows start)) <= bound /\
     inv (snd (package_search p q rows start))) ->
  bound <= 500 + 500 * Z.of_nat fuel ->
  exists st,
    remove_datasets_from_ckan fuel ckan_portal portal_url filter_in filter_out
      only_time_series organization = Some st /\
    let filtered := get_datasets (portal_url ++ "/data.json")
                      filter_in filter_out only_time_series in
    match filters_active filter_in filter_out only_time_series,
          active_organization organization with
    | true, Some o =>
        exists org_identifiers,
          organization_source fuel ckan_portal o = Some org_identifiers /\
          (list_to_set (purged (snd st)) : gset string) =
            list_to_set filtered ∩ list_to_set org_identifiers /\
          NoDup (purged (snd st))
    | true, None => snd st = DatasetPurge <$> filtered
    | false, Some o =>
        exists org_identifiers,
          organization_source fuel ckan_portal o = Some org_identifiers /\
          purged (snd st) = org_identifiers
    | false, None => snd st = []
    end.
Proof.
  intros Hinv Hbound Hfuel. unfold active_organization.
  destruct organization as [o |]; [destruct (String.eqb o "") eqn:Eo |].
  - unfold remove_datasets_from_ckan. rewrite Eo.
    fold (filters_active filter_in filter_out only_time_series).
    destruct (filters_active _ _ _); cbn [negb mbind option_bind];
      (eexists; split; [reflexivity |]); rewrite purge_loop; reflexivity.
  - pose proof (Hbound ckan_portal (organization_query o) 500 0 Hinv) as [Hb Hi].
    destruct (package_search ckan_portal (organization_query o) 500 0) as [sr p] eqn:Epkg.
    cbn [fst snd] in Hb, Hi.
    destruct (search_pages_terminates bound inv fuel Hbound
                (p, [PackageSearch (organization_query o) 500 0])
                (organization_query o) sr (results sr) 500 Hi Hb) as [[ids st'] E]; [lia |].
    pose proof (search_pages_purges_nothing _ _ _ _ _ _ _ _ E) as Hp. cbn in Hp.
    assert (Hsrc : organization_source fuel ckan_portal o = Some ids).
    { unfold organization_source, call_package_search. cbn [fst snd app].
      rewrite Epkg, E. reflexivity. }
    assert (Hrun :
      remove_datasets_from_ckan fuel ckan_portal portal_url filter_in filter_out
        only_time_series (Some o) =
      Some (fold_left call_dataset_purge
              (identifiers_iter
                 (if filters_active filter_in filter_out only_time_series
                  then IdSet (list_to_set
                                (get_datasets (portal_url ++ "/data.json")
                                   filter_in filter_out only_time_series)
                              ∩ list_to_set ids)
                  else IdList ids)) st')).
    { unfold remove_datasets_from_ckan, call_package_search. rewrite Eo.
      fold (organization_query o). cbn [negb fst snd app]. rewrite Epkg, E.
      fold (filters_active filter_in filter_out only_time_series).
      destruct (filters_active _ _ _); reflexivity. }
    rewrite Hrun. eexists. split; [reflexivity |].
    rewrite purge_loop, purged_app, Hp, purged_purges. cbn [app].
    destruct (filters_active _ _ _); cbn [identifiers_iter];
      exists ids; (split; [exact Hsrc |]).
    + split; [apply list_to_set_elements_L | apply NoDup_elements].
    + reflexivity.
  - unfold remove_datasets_from_ckan.
    fold (filters_active filter_in filter_out only_time_series).
    destruct (filters_active _ _ _); cbn [mbind option_bind];
      (eexists; split; [reflexivity |]); rewrite purge_loop; reflexivity.
Qed.

End RemovalFacts.

Lemma purge_set_witness :
  exists st,
    @remove_datasets_from_ckan sample_registry 1 ["b"; "c"] "http://portal"
      (Some sample_filter) None false (Some "org") = Some st /\
    (list_to_set (purged (snd st)) : gset string) = {["b"]} /\
    NoDup (purged (snd st)).
Proof.
  destruct (@purge_set sample_registry 1 ["b"; "c"] "http://portal"
              (Some sample_filter) None false (Some "org") 2
              (fun p => p = ["b"; "c"])) as (st & Hst & Hset).
  - reflexivity.
  - intros p q rows start ->. split; [cbn; lia | reflexivity].
  - lia.
  - exists st. split; [exact Hst |].
    change (exists ids,
              @organization_source sample_registry 1 ["b"; "c"] "org" = Some ids /\
              (list_to_set (purged (snd st)) : gset string) =
                list_to_set ["a"; "b"] ∩ list_to_set ids /\
              NoDup (purged (snd st))) in Hset.
    destruct Hset as (ids & Hids & Hpurged & Hnodup).
    injection Hids as <-. split; [| exact Hnodup].
    rewrite Hpurged. apply set_eq. intros x. set_solver.
Defined.

(** * Division faults *)

Lemma safe_Ok {A : Type} (a : A) : safe (Ok a).
Proof. discriminate. Qed.

Lemma safe_Raise {A : Type} (e : exn) : e <> ZeroDivisionError -> safe (@Raise A e).
Proof. intros He [= E]. by apply He. Qed.

Lemma safe_bind {A B : Type} (m : result A) (f : A -> result B) :
  safe m -> (forall a, m = Ok a -> safe (f a)) -> safe (m ≫= f).
Proof.
  intros Hm Hf. destruct m as [a | e]; cbn.
  - by apply Hf.
  - intros [= ->]. by apply Hm.
Qed.

Lemma safe_foldM_Forall {A B : Type} (f : B -> A -> result B) (l : list A) :
  Forall (fun x => forall acc, safe (f acc x)) l -> forall acc, safe (foldM f l acc).
Proof.
  induction 1 as [| x l Hx _ IH]; intros acc; cbn [foldM]; [apply safe_Ok |].
  specialize (Hx acc). destruct (f acc x) as [acc' | e]; [apply IH |].
  intros [= ->]. by apply Hx.
Qed.

Lemma safe_foldM {A B : Type} (f : B -> A -> result B) (l : list A) (acc : B) :
  (forall acc x, safe (f acc x)) -> safe (foldM f l acc).
Proof.
  intros Hf. apply safe_foldM_Forall. apply Forall_forall. intros x _ a. apply Hf.
Qed.

Lemma safe_py_get_default x k d : safe (py_get_default x k d).
Proof. destruct x; discriminate. Qed.

Lemma safe_py_get x k : safe (py_get x k).
Proof. apply safe_py_get_default. Qed.

Lemma safe_py_getitem x k : safe (py_getitem x k).
Proof. destruct x as [| | | | | | d]; try discriminate. cbn. by destruct (dict_lookup k d). Qed.

Lemma safe_py_contains k x : safe (py_contains k x).
Proof. destruct x; discriminate. Qed.

Lemma safe_py_iter x : safe (py_iter x).
Proof. destruct x; discriminate. Qed.

Lemma safe_py_len x : safe (py_len x).
Proof. destruct x; discriminate. Qed.

Lemma safe_hist_add k n h : safe (hist_add k n h).
Proof. unfold hist_add. destruct (py_hashable k); discriminate. Qed.

Lemma safe_py_div_float (x : Q) (n : nat) : n <> O -> safe (py_div x (float n)).
Proof. intros Hn. rewrite py_div_nonzero by exact Hn. apply safe_Ok. Qed.

(** A division behind the guard [if a or b]. *)
Lemma guarded_division (x : Q) (a b : nat) :
  (if (nonzero a || nonzero b)%bool then py_div x (float (a + b)) else Ok 0%Q) =
  Ok (if Nat.eqb (a + b) 0 then 0%Q else Qred (x / float (a + b))).
Proof.
  unfold nonzero. rewrite nonzero_or.
  destruct (Nat.eqb_spec (a + b) 0) as [E | E]; [reflexivity |].
  cbn [negb]. by apply py_div_nonzero.
Qed.

(** The guarded division of the federation percentage of the network, which
    leaves the record as it is when both counts are 0. *)
Lemma guarded_division_bind {A : Type} (x : Q) (a b : nat) (k : Q -> A) (other : A) :
  (if (nonzero a || nonzero b)%bool
   then q ← py_div x (float (a + b)); Ok (k q)
   else Ok other) =
  Ok (if Nat.eqb (a + b) 0 then other else k (Qred (x / float (a + b)))).
Proof.
  unfold nonzero. rewrite nonzero_or.
  destruct (Nat.eqb_spec (a + b) 0) as [E | E]; [reflexivity |].
  cbn [negb]. by rewrite py_div_nonzero.
Qed.

(** A division behind the guard [if n]. *)
Lemma guarded_division_one (x : Q) (n : nat) :
  (if negb (Nat.eqb n 0) then py_div x (float n) else Ok 0%Q) =
  Ok (if Nat.eqb n 0 then 0%Q else Qred (x / float n)).
Proof.
  destruct (Nat.eqb_spec n 0) as [E | E]; [reflexivity |].
  cbn [negb]. by apply py_div_nonzero.
Qed.

Create HintDb safe.
#[local] Hint Resolve safe_py_get_default safe_py_get safe_py_getitem safe_py_contains
  safe_py_iter safe_py_len safe_hist_add : safe.

(** One step of a proof that a computation is [safe]. *)
Ltac safe_step :=
  match goal with
  | |- safe (Ok _) => apply safe_Ok
  | |- safe (Raise _) => apply safe_Raise; discriminate
  | |- safe (mret _) => apply safe_Ok
  | |- safe (mbind _ _) => apply safe_bind; [| intros ? _]
  | |- safe (foldM _ _ _) => apply safe_foldM; intros ? ?
  | |- safe (let '(_, _) := ?x in _) => destruct x
  | |- safe (if ?b then _ else _) => destruct b
  | |- safe (match ?x with _ => _ end) => destruct x
  | |- safe _ => solve [auto with safe]
  end.

Ltac safe_auto := repeat safe_step.

Lemma safe_count_field (v : field_spec) :
  forall k dataset acc, safe (count_field v k dataset acc).
Proof.
  induction v as [r | fields IH] using field_spec_nested_ind; intros k dataset acc.
  - cbn [count_field]. safe_auto.
  - cbn [count_field]. apply safe_bind; [unfold nested_elements; safe_auto |].
    intros elements _. apply safe_foldM. intros kc element.
    apply safe_bind; [| intros; apply safe_Ok].
    apply safe_foldM_Forall. eapply Forall_impl; [exact IH |].
    intros kv Hkv kc'. apply Hkv.
Qed.

Lemma safe_count_fields_recursive dataset fields :
  safe (count_fields_recursive dataset fields).
Proof.
  unfold count_fields_recursive. apply safe_foldM. intros. apply safe_count_field.
Qed.

Lemma safe_field_value x f : safe (field_value x f).
Proof. destruct f; cbn; safe_auto. Qed.

#[local] Hint Resolve safe_count_fields_recursive safe_field_value : safe.

Lemma safe_datasets_equal a b fd fdist rd : safe (datasets_equal a b fd fdist rd).
Proof.
  unfold datasets_equal, compare_dataset_fields, compare_distributions. safe_auto.
Qed.

#[local] Hint Resolve safe_datasets_equal : safe.

Lemma safe_found_in swap x l : safe (found_in swap x l).
Proof.
  induction l as [| o l IH]; cbn [found_in]; [apply safe_Ok |].
  apply safe_bind; [destruct swap; auto with safe |].
  intros r _. destruct (equal_result_truthy r); [apply safe_Ok | exact IH].
Qed.

Lemma safe_federados_pct_of f n : safe (federados_pct_of f n).
Proof. rewrite federados_pct_of_spec. apply safe_Ok. Qed.

#[local] Hint Resolve safe_found_in safe_federados_pct_of : safe.

Section Safety.
Context `{Collaborators}.

Lemma safe_filter_by_likely_publisher cs ds : safe (filter_by_likely_publisher cs ds).
Proof. unfold filter_by_likely_publisher. safe_auto. Qed.

Lemma safe_federation_indicators catalog central :
  safe (federation_indicators catalog central).
Proof.
  unfold federation_indicators, title_and_landing.
  pose proof safe_filter_by_likely_publisher. safe_auto.
Qed.

Lemma safe_generate_status_indicators catalog v :
  safe (generate_status_indicators catalog v).
Proof.
  unfold generate_status_indicators.
  destruct (fold_left _ _ _) as [[ok err] dist].
  destruct (Nat.eqb_spec (length (generate_datasets_summary catalog v)) 0) as [E | E];
    cbn [negb mbind result_bind]; [apply safe_Ok |].
  rewrite py_div_nonzero by exact E. apply safe_Ok.
Qed.

Lemma safe_days_since d : safe (days_since d).
Proof. destruct d; discriminate. Qed.

Lemma safe_days_from_last_update catalog date_field :
  safe (days_from_last_update catalog date_field).
Proof.
  unfold days_from_last_update. pose proof safe_days_since. safe_auto.
Qed.

Lemma safe_generate_date_indicators catalog tolerance :
  safe (generate_date_indicators catalog tolerance).
Proof.
  unfold generate_date_indicators.
  pose proof safe_days_from_last_update. pose proof safe_days_since.
  apply safe_bind; [auto |]. intros dias _.
  apply safe_bind; [destruct (negb _); [auto | apply safe_Ok] |]. intros dias' _.
  apply safe_bind; [auto with safe |]. intros datasets _.
  apply safe_bind; [auto with safe |]. intros l _.
  apply safe_bind; [apply safe_foldM; intros st x; unfold classify_dataset; safe_auto |].
  intros [[act desact] hist] _.
  apply safe_bind; [auto with safe |]. intros datasets' _.
  apply safe_bind; [auto with safe |]. intros total _.
  rewrite guarded_division_one. cbn. apply safe_Ok.
Qed.

Lemma safe_count_distribution_formats catalog :
  safe (count_distribution_formats catalog).
Proof.
  unfold count_distribution_formats, count_distribution_formats_dataset. safe_auto.
Qed.

End Safety.

(** * Indicators of one catalog *)

Lemma py_div_inv (x : Q) (n : nat) (q : Q) :
  py_div x (float n) = Ok q -> n <> O /\ q = Qred (x / float n).
Proof.
  unfold py_div. destruct n as [| n]; [discriminate |].
  rewrite float_nonzero by discriminate. intros [= <-]. split; [discriminate | reflexivity].
Qed.

Lemma percentage_of_none (den : nat) : percentage 0 den = 0%Q.
Proof.
  unfold percentage. destruct (Nat.eqb den 0); [reflexivity |].
  assert (E : Qred (100 * float 0 / float den) = Qred 0).
  { apply Qred_complete. unfold Qdiv. change (float 0) with 0%Q. ring. }
  rewrite E. reflexivity.
Qed.

Lemma rounded_share_of_none (den : nat) :
  Qred (100 * py_round (if Nat.eqb den 0 then 0%Q else Qred (float 0 / float den)) 2) = 0%Q.
Proof.
  destruct (Nat.eqb den 0); [reflexivity |].
  assert (E : Qred (float 0 / float den) = Qred 0).
  { apply Qred_complete. unfold Qdiv. change (float 0) with 0%Q. ring. }
  rewrite E. reflexivity.
Qed.

(** ** The totals of a schema with leaves at its top level *)

Lemma grows_refl a : grows a a.
Proof. split; lia. Qed.

Lemma grows_trans a b c : grows a b -> grows b c -> grows a c.
Proof. intros [? ?] [? ?]. split; lia. Qed.

Lemma count_field_grows v k dataset acc c :
  count_field v k dataset acc = Ok c -> grows acc c.
Proof.
  destruct v as [r | fields]; cbn [count_field].
  - destruct (py_contains k dataset) as [[|] |]; cbn; try discriminate;
      intros [= <-]; destruct r; split; cbn; lia.
  - intros E. inv_bind E. revert E.
    refine (foldM_invariant _ (fun kc => grows acc kc) x _ acc c (grows_refl acc)).
    intros kc element kc' _ Hkc E. inv_bind E. injection E as <-.
    eapply grows_trans; [exact Hkc |]. split; cbn; lia.
Qed.

Lemma count_leaf_adds r k dataset acc c :
  count_field (Leaf r) k dataset acc = Ok c ->
  match r with
  | recomendado => (S (kc_total_recomendado acc) <= kc_total_recomendado c)%nat
  | optativo => (S (kc_total_optativo acc) <= kc_total_optativo c)%nat
  | requerido => True
  end.
Proof.
  cbn [count_field]. destruct (py_contains k dataset) as [[|] |]; cbn; try discriminate;
    intros [= <-]; destruct r; cbn; lia.
Qed.

Lemma count_fields_leaves dataset fields :
  forall acc c,
    foldM (fun kc kv => count_field (snd kv) (fst kv) dataset kc) fields acc = Ok c ->
    grows acc c /\
    (has_leaf recomendado fields = true ->
       (S (kc_total_recomendado acc) <= kc_total_recomendado c)%nat) /\
    (has_leaf optativo fields = true ->
       (S (kc_total_optativo acc) <= kc_total_optativo c)%nat).
Proof.
  induction fields as [| [k v] fields IH]; intros acc c; cbn [foldM fst snd].
  - intros [= <-]. split; [apply grows_refl |]. split; discriminate.
  - destruct (count_field v k dataset acc) as [acc1 |] eqn:E1; [| discriminate].
    intros E. destruct (IH acc1 c E) as (G & Hr & Ho).
    pose proof (count_field_grows _ _ _ _ _ E1) as G1.
    split; [by eapply grows_trans |].
    destruct G as [Gr Go], G1 as [G1r G1o].
    cbn [has_leaf existsb snd]. split; intros Hl; apply orb_prop in Hl as [Hl | Hl].
    + destruct v as [[| |] |]; try discriminate.
      apply count_leaf_adds in E1. lia.
    + specialize (Hr Hl). lia.
    + destruct v as [[| |] |]; try discriminate.
      apply count_leaf_adds in E1. lia.
    + specialize (Ho Hl). lia.
Qed.

Section OneCatalog.
Context `{Collaborators}.

Lemma schema_totals_nonzero (catalog : json) (fc : key_count) :
  has_leaf recomendado catalog_fields = true ->
  has_leaf optativo catalog_fields = true ->
  count_required_and_optional_fields catalog = Ok fc ->
  kc_total_recomendado fc <> O /\ kc_total_optativo fc <> O.
Proof.
  intros Hr Ho E. unfold count_required_and_optional_fields, count_fields_recursive in E.
  destruct (count_fields_leaves _ _ _ _ E) as (_ & Hr' & Ho').
  specialize (Hr' Hr). specialize (Ho' Ho). lia.
Qed.

Lemma safe_generate_indicators (catalog : json) (v : option validator) :
  has_leaf recomendado catalog_fields = true ->
  has_leaf optativo catalog_fields = true ->
  safe (generate_indicators catalog v).
Proof.
  intros Hr Ho. unfold generate_indicators.
  apply safe_bind; [apply safe_generate_status_indicators |]. intros status _.
  apply safe_bind; [apply safe_generate_date_indicators |]. intros dates _.
  apply safe_bind; [apply safe_count_distribution_formats |]. intros formats _.
  apply safe_bind; [apply safe_count_fields_recursive |]. intros fc Efc.
  destruct (schema_totals_nonzero catalog fc Hr Ho Efc) as [Nr No].
  rewrite !py_div_nonzero by assumption. apply safe_Ok.
Qed.

(** What a successful [_generate_status_indicators] returns. *)
Lemma status_indicators_spec (catalog : json) (v : option validator) (s : status_indicators) :
  generate_status_indicators catalog v = Ok s ->
  datasets_meta_ok_cant s = O -> datasets_meta_ok_pct s = 0%Q.
Proof.
  unfold generate_status_indicators.
  destruct (fold_left _ _ _) as [[ok err] dist].
  destruct (Nat.eqb_spec (length (generate_datasets_summary catalog v)) 0) as [E | E];
    cbn [negb mbind result_bind].
  - by intros [= <-].
  - rewrite py_div_nonzero by exact E. cbn [mbind result_bind]. intros [= <-]. cbn.
    intros ->. pose proof (percentage_of_none (length (generate_datasets_summary catalog v))) as P.
    unfold percentage in P. apply Nat.eqb_neq in E. by rewrite E in P.
Qed.

(** What a successful [_generate_date_indicators] returns. *)
Lemma date_indicators_spec (catalog : json) (tolerance : Q) (d : date_indicators) :
  generate_date_indicators catalog tolerance = Ok d ->
  datasets_actualizados_cant d = O -> datasets_actualizados_pct d = 0%Q.
Proof.
  unfold generate_date_indicators. intros E. inv_bind E.
  destruct x3 as [[act desact] hist]. inv_bind E.
  match goal with
  | Hd : (if negb (Nat.eqb _ 0) then py_div _ _ else _) = Ok _ |- _ =>
      rewrite guarded_division_one in Hd; injection Hd as <-
  end.
  injection E as <-. cbn. intros ->. apply rounded_share_of_none.
Qed.

(** The percentage of updated datasets that the code gives, in general. *)
Lemma date_indicators_pct (catalog : json) (tolerance : Q) (d : date_indicators) :
  generate_date_indicators catalog tolerance = Ok d ->
  exists datasets_total : nat,
    (py_get_default catalog "dataset" (JList []) ≫= py_len) = Ok datasets_total /\
    datasets_actualizados_pct d =
      Qred (100 * py_round (if Nat.eqb datasets_total 0 then 0%Q
                            else Qred (float (datasets_actualizados_cant d)
                                       / float datasets_total)) 2).
Proof.
  unfold generate_date_indicators. intros E. inv_bind E.
  destruct x3 as [[act desact] hist]. inv_bind E.
  match goal with
  | Hd : (if negb (Nat.eqb _ 0) then py_div _ _ else _) = Ok _ |- _ =>
      rewrite guarded_division_one in Hd; injection Hd as <-
  end.
  injection E as <-. cbn.
  match goal with
  | Hg : py_get_default catalog "dataset" (JList []) = Ok ?j, Hl : py_len ?j = Ok ?n |- _ =>
      exists n; rewrite Hg; cbn; split; [exact Hl | reflexivity]
  end.
Qed.

(** The percentage in any result of the reconciler comes from its counts. *)
Lemma federation_pct_spec (catalog : json) (central : source) (r : federation_result) :
  federation_indicators catalog central = Ok r ->
  datasets_federados_pct r =
    percentage (datasets_federados_cant r)
               (datasets_federados_cant r + datasets_no_federados_cant r).
Proof.
  unfold federation_indicators. intros E. inv_bind E.
  destruct x1 as [[[f n] lf] ln]. inv_bind E.
  match goal with
  | Hd : federados_pct_of _ _ = Ok _ |- _ =>
      rewrite federados_pct_of_spec in Hd; injection Hd as <-
  end.
  injection E as <-. reflexivity.
Qed.

Lemma generate_indicators_inv (catalog : json) (v : option validator)
    (fc : key_count) (ind : indicators) :
  generate_indicators catalog v = Ok (fc, ind) ->
  count_required_and_optional_fields catalog = Ok fc /\
  ind_federation ind = None /\
  kc_total_recomendado fc <> O /\ kc_total_optativo fc <> O /\
  (meta_ok_of ind = O -> datasets_meta_ok_pct (ind_status ind) = 0%Q) /\
  (actualizados_of ind = O -> datasets_actualizados_pct (ind_dates ind) = 0%Q).
Proof.
  unfold generate_indicators. intros E. inv_bind E.
  injection E as <- <-.
  repeat match goal with
         | Hd : py_div _ (float _) = Ok _ |- _ => apply py_div_inv in Hd as [? _]
         end.
  split; [assumption |]. split; [reflexivity |]. split; [assumption |].
  split; [assumption |]. split.
  - by apply (status_indicators_spec catalog v).
  - by apply (date_indicators_spec catalog default_tolerance).
Qed.

End OneCatalog.

(** * Indicators of the network *)

Lemma total_cons {A : Type} (f : A -> nat) (x : A) (l : list A) :
  total f (x :: l) = (f x + total f l)%nat.
Proof. reflexivity. Qed.

Lemma total_app {A : Type} (f : A -> nat) (l l' : list A) :
  total f (l ++ l') = (total f l + total f l')%nat.
Proof. unfold total. induction l as [| x l IH]; cbn; [reflexivity | rewrite IH; lia]. Qed.

(** Summing the records sums each count. *)
Lemma totals_fold (proj : indicators -> nat) (rest : list indicators) :
  (forall a b, proj (add_dicts a b) = (proj a + proj b)%nat) ->
  forall first, proj (fold_left add_dicts rest first) = (proj first + total proj rest)%nat.
Proof.
  intros Hadd. induction rest as [| x rest IH]; intros first; cbn [fold_left].
  - cbn. lia.
  - rewrite total_cons, IH, Hadd. lia.
Qed.

Lemma federados_of_add a b : federados_of (add_dicts a b) = (federados_of a + federados_of b)%nat.
Proof.
  unfold federados_of. cbn. destruct (ind_federation a), (ind_federation b); cbn; try lia.
  reflexivity.
Qed.

Lemma no_federados_of_add a b :
  no_federados_of (add_dicts a b) = (no_federados_of a + no_federados_of b)%nat.
Proof.
  unfold no_federados_of. cbn. destruct (ind_federation a), (ind_federation b); cbn; try lia.
  reflexivity.
Qed.

Lemma federation_fold_Some (rest : list indicators) :
  forall first, is_Some (ind_federation first) ->
  is_Some (ind_federation (fold_left add_dicts rest first)).
Proof.
  induction rest as [| x rest IH]; intros first Hf; cbn [fold_left]; [exact Hf |].
  apply IH. destruct Hf as [f Hf]. cbn. rewrite Hf.
  destruct (ind_federation x); cbn; eauto.
Qed.

(** Percentages that are all 0 sum to 0. *)
Lemma federation_fold_zero (rest : list indicators) :
  Forall (fun i => federados_pct_of_record i = 0%Q) rest ->
  forall first, federados_pct_of_record first = 0%Q ->
  federados_pct_of_record (fold_left add_dicts rest first) = 0%Q.
Proof.
  induction 1 as [| x rest Hx _ IH]; intros first Hf; cbn [fold_left]; [exact Hf |].
  apply IH. unfold federados_pct_of_record in *. cbn.
  destruct (ind_federation first) as [f |], (ind_federation x) as [g |]; cbn in *;
    try assumption.
  unfold add_dicts, add_Q. rewrite Hf, Hx. reflexivity.
Qed.

Lemma total_zero {A : Type} (f : A -> nat) (l : list A) :
  total f l = O -> Forall (fun x => f x = O) l.
Proof.
  induction l as [| x l IH]; [constructor |]. rewrite total_cons.
  intros E. constructor; [lia | apply IH; lia].
Qed.

(** The running sum of the field counts sums each count. *)
Lemma fields_fold (proj : key_count -> nat) (fcs : list key_count) :
  (forall a b, proj (key_count_add a b) = (proj a + proj b)%nat) ->
  forall f0, exists f,
    fold_left add_fields fcs (Some f0) = Some f /\
    proj f = (total proj fcs + proj f0)%nat.
Proof.
  intros Hadd. induction fcs as [| fc fcs IH]; intros f0; cbn [fold_left].
  - exists f0. split; [reflexivity | cbn; lia].
  - destruct (IH (key_count_add fc f0)) as (f & E & P).
    exists f. split; [exact E |]. rewrite total_cons, P, Hadd. lia.
Qed.

Lemma fields_fold_from_empty (fcs : list key_count) :
  fcs <> [] ->
  exists f,
    fold_left add_fields fcs None = Some f /\
    kc_recomendado f = total kc_recomendado fcs /\
    kc_total_recomendado f = total kc_total_recomendado fcs /\
    kc_optativo f = total kc_optativo fcs /\
    kc_total_optativo f = total kc_total_optativo fcs.
Proof.
  destruct fcs as [| fc fcs]; [congruence |]. intros _. cbn [fold_left].
  change (add_fields None fc) with (Some fc).
  assert (Hsame : exists f, fold_left add_fields fcs (Some fc) = Some f /\
            forall proj : key_count -> nat,
              (forall a b, proj (key_count_add a b) = (proj a + proj b)%nat) ->
              proj f = (total proj fcs + proj fc)%nat).
  { clear. revert fc. induction fcs as [| x fcs IH]; intros fc; cbn [fold_left].
    - exists fc. split; [reflexivity |]. intros proj _. cbn. lia.
    - destruct (IH (key_count_add x fc)) as (f & E & P).
      exists f. split; [exact E |]. intros proj Hadd.
      rewrite (P proj Hadd), Hadd, total_cons. lia. }
  destruct Hsame as (f & E & P). exists f. split; [exact E |].
  rewrite !total_cons, !P by reflexivity. repeat split; lia.
Qed.

(** What a successful [_network_indicator_percentages] returns. *)
Lemma network_percentages_spec (fields : option key_count) (net net' : network) :
  network_indicator_percentages fields net = Ok net' ->
  let t := network_totals net in
  let t' := network_totals net' in
  (meta_ok_of t' = meta_ok_of t /\ meta_error_of t' = meta_error_of t /\
   actualizados_of t' = actualizados_of t /\ desactualizados_of t' = desactualizados_of t /\
   federados_of t' = federados_of t /\ no_federados_of t' = no_federados_of t) /\
  datasets_meta_ok_pct (ind_status t') =
    percentage (meta_ok_of t) (meta_ok_of t + meta_error_of t) /\
  datasets_actualizados_pct (ind_dates t') =
    percentage (actualizados_of t) (actualizados_of t + desactualizados_of t) /\
  (forall f, fields = Some f ->
     kc_total_recomendado f <> O /\ kc_total_optativo f <> O /\
     campos_recomendados_pct t' =
       py_round (Qred (100 * float (kc_recomendado f) / float (kc_total_recomendado f))) 2 /\
     campos_optativos_pct t' =
       py_round (Qred (100 * float (kc_optativo f) / float (kc_total_optativo f))) 2) /\
  (is_Some (ind_federation t) ->
   is_Some (ind_federation t') /\
   federados_pct_of_record t' =
     if Nat.eqb (federados_of t + no_federados_of t) 0 then federados_pct_of_record t
     else percentage (federados_of t) (federados_of t + no_federados_of t)).
Proof.
  unfold network_indicator_percentages.
  rewrite (Nat.add_comm (datasets_meta_error_cant _) (datasets_meta_ok_cant _)).
  rewrite !guarded_division. cbn [mbind result_bind].
  intros E. apply bind_Ok_inv in E as (campos & Ecampos & E).
  apply bind_Ok_inv in E as (federation & Efed & E). injection E as <-.
  cbn [network_totals]. unfold meta_ok_of, meta_error_of, actualizados_of,
    desactualizados_of, federados_of, no_federados_of, federados_pct_of_record.
  cbn [ind_status ind_dates ind_federation datasets_meta_ok_cant datasets_meta_error_cant
       datasets_actualizados_cant datasets_desactualizados_cant datasets_meta_ok_pct
       datasets_actualizados_pct campos_recomendados_pct campos_optativos_pct].
  assert (Hfed :
    from_option datasets_federados_cant O federation =
      from_option datasets_federados_cant O (ind_federation (network_totals net)) /\
    from_option datasets_no_federados_cant O federation =
      from_option datasets_no_federados_cant O (ind_federation (network_totals net)) /\
    (is_Some (ind_federation (network_totals net)) ->
     is_Some federation /\
     from_option datasets_federados_pct 0%Q federation =
       if Nat.eqb (from_option datasets_federados_cant O (ind_federation (network_totals net))
                   + from_option datasets_no_federados_cant O
                       (ind_federation (network_totals net))) 0
       then from_option datasets_federados_pct 0%Q (ind_federation (network_totals net))
       else percentage
              (from_option datasets_federados_cant O (ind_federation (network_totals net)))
              (from_option datasets_federados_cant O (ind_federation (network_totals net))
               + from_option datasets_no_federados_cant O
                   (ind_federation (network_totals net))))).
  { destruct (ind_federation (network_totals net)) as [fed |].
    - rewrite guarded_division_bind in Efed. injection Efed as <-.
      cbn [from_option]. unfold percentage.
      destruct (Nat.eqb (datasets_federados_cant fed + datasets_no_federados_cant fed) 0);
        repeat split; eauto.
    - injection Efed as <-. split; [reflexivity |]. split; [reflexivity |].
      intros [? ?]; discriminate. }
  destruct Hfed as (Hf & Hn & Hp).
  split; [repeat split; try reflexivity; assumption |].
  split; [reflexivity |]. split; [reflexivity |]. split; [| exact Hp].
  intros f ->. cbn [mbind result_bind] in Ecampos. inv_bind Ecampos.
  injection Ecampos as <-.
  repeat match goal with
         | Hd : py_div _ (float _) = Ok _ |- _ => apply py_div_inv in Hd as [? ->]
         end.
  repeat split; try assumption; reflexivity.
Qed.

Lemma safe_network_indicator_percentages (f : key_count) (net : network) :
  kc_total_recomendado f <> O -> kc_total_optativo f <> O ->
  safe (network_indicator_percentages (Some f) net).
Proof.
  intros Nr No. unfold network_indicator_percentages.
  rewrite (Nat.add_comm (datasets_meta_error_cant _) (datasets_meta_ok_cant _)).
  rewrite !guarded_division, !py_div_nonzero by assumption. cbn [mbind result_bind].
  destruct (ind_federation (network_totals net)) as [fed |].
  - rewrite guarded_division_bind. apply safe_Ok.
  - apply safe_Ok.
Qed.

Lemma total_nonzero {A : Type} (f : A -> nat) (l : list A) :
  l <> [] -> Forall (fun x => f x <> O) l -> total f l <> O.
Proof.
  destruct l as [| x l]; [congruence |]. intros _ Hl. rewrite total_cons.
  apply Forall_cons_1 in Hl as [Hx _]. lia.
Qed.

Section NetworkFacts.
Context `{Collaborators}.

Lemma central_catalog_truthy (central_catalog : option source) :
  source_truthy (match central_catalog with
                 | Some c => if source_truthy c then c else CENTRAL_CATALOG
                 | None => CENTRAL_CATALOG
                 end) = true.
Proof.
  destruct central_catalog as [c |]; [| reflexivity].
  destruct (source_truthy c) eqn:E; [exact E | reflexivity].
Qed.

Lemma catalog_step_inv (central : source) (v : option validator)
    (st st' : list indicators * option key_count) (catalog : json) :
  source_truthy central = true ->
  catalog_step central v st catalog = Ok st' ->
  exists fc ind,
    count_required_and_optional_fields catalog = Ok fc /\
    (kc_total_recomendado fc <> O /\ kc_total_optativo fc <> O) /\
    consistent_record ind /\
    st' = ((fst st ++ [ind])%list, add_fields (snd st) fc).
Proof.
  intros Ht. unfold catalog_step. cbn [read_catalog]. rewrite Ht. intros E. inv_bind E.
  destruct x as [fc ind]. cbn [fst snd] in *.
  match goal with
  | Hg : generate_indicators _ _ = Ok _ |- _ =>
      destruct (generate_indicators_inv _ _ _ _ Hg) as (Hc & _ & Nr & No & Hm & Ha)
  end.
  match goal with
  | Hf : (federation_indicators _ _ ≫= _) = Ok _ |- _ =>
      apply bind_Ok_inv in Hf as (fed & Hfed & Hf); injection Hf as <-;
      apply federation_pct_spec in Hfed
  end.
  injection E as <-.
  exists fc, (update_federation ind fed).
  split; [exact Hc |]. split; [by split |]. split; [| reflexivity].
  split; [| split; assumption]. exists fed. split; [reflexivity | assumption].
Qed.

Lemma catalog_loop (central : source) (v : option validator) (l : list json) :
  source_truthy central = true ->
  forall st st',
    foldM (catalog_step central v) l st = Ok st' ->
    exists fcs news,
      mapM count_required_and_optional_fields l = Ok fcs /\
      Forall (fun fc => kc_total_recomendado fc <> O /\ kc_total_optativo fc <> O) fcs /\
      Forall consistent_record news /\
      length news = length l /\
      st' = ((fst st ++ news)%list, fold_left add_fields fcs (snd st)).
Proof.
  intros Ht. induction l as [| catalog l IH]; intros st st'; cbn [foldM mapM].
  - intros [= <-]. exists [], []. rewrite app_nil_r. destruct st. repeat split; constructor.
  - destruct (catalog_step central v st catalog) as [st1 |] eqn:E1; [| discriminate].
    intros E. destruct (catalog_step_inv _ _ _ _ _ Ht E1) as (fc & ind & Hc & Hn & Hi & ->).
    destruct (IH _ _ E) as (fcs & news & Hm & Hfcs & Hnews & Hlen & ->).
    exists (fc :: fcs), (ind :: news). rewrite Hc, Hm. cbn [fst snd fold_left length].
    rewrite <- app_assoc. repeat split; try constructor; try assumption; try lia.
    all: by destruct Hn.
Qed.

Lemma consistent_record_zero_guarded (i : indicators) :
  consistent_record i -> zero_guarded i.
Proof.
  intros ((f & Ef & Pf) & Hm & Ha). split; [| split].
  - intros E. apply Hm. lia.
  - intros E. apply Ha. lia.
  - unfold federados_of, no_federados_of, federados_pct_of_record. rewrite Ef. cbn.
    intros E. rewrite Pf, E. reflexivity.
Qed.

Lemma consistent_record_zero_pct (i : indicators) :
  consistent_record i -> (federados_of i + no_federados_of i = 0)%nat ->
  federados_pct_of_record i = 0%Q.
Proof. intros Hi. by apply consistent_record_zero_guarded. Qed.

(** The run of [generate_catalogs_indicators], step by step. *)
Lemma generate_catalogs_indicators_inv (catalogs : catalogs_arg)
    (central : option source) (v : option validator)
    (l : list indicators) (net : network) :
  generate_catalogs_indicators catalogs central v = Ok (l, net) ->
  exists fcs first rest fields,
    mapM count_required_and_optional_fields (catalogs_list catalogs) = Ok fcs /\
    l = first :: rest /\
    Forall consistent_record l /\
    fold_left add_fields fcs None = Some fields /\
    kc_recomendado fields = total kc_recomendado fcs /\
    kc_total_recomendado fields = total kc_total_recomendado fcs /\
    kc_optativo fields = total kc_optativo fcs /\
    kc_total_optativo fields = total kc_total_optativo fcs /\
    network_indicator_percentages (Some fields)
      (Network (length (catalogs_list catalogs)) (fold_left add_dicts rest first)) = Ok net.
Proof.
  unfold generate_catalogs_indicators. fold (catalogs_list catalogs).
  intros E. apply bind_Ok_inv in E as ([l' fields] & Eloop & E).
  destruct (catalog_loop _ _ _ (central_catalog_truthy central) _ _ Eloop)
    as (fcs & news & Hm & Hfcs & Hnews & Hlen & Hst).
  cbn [fst snd app] in Hst. injection Hst as -> ->.
  destruct news as [| first rest]; [discriminate |].
  apply bind_Ok_inv in E as (net' & Enet & E). injection E as <- <-.
  assert (Hne : fcs <> []).
  { apply mapM_Ok_length in Hm. intros ->. cbn in *. lia. }
  destruct (fields_fold_from_empty fcs Hne) as (f & Ef & P1 & P2 & P3 & P4).
  exists fcs, first, rest, f. rewrite Ef in Enet. repeat split; assumption.
Qed.

(** The record of the network, from the records of the catalogs: the counts
    are the sums, and the percentages come from these sums. *)
Lemma network_record_spec (catalogs : catalogs_arg)
    (central : option source) (v : option validator)
    (l : list indicators) (net : network) :
  generate_catalogs_indicators catalogs central v = Ok (l, net) ->
  Forall consistent_record l /\
  (meta_ok_of (network_totals net) = total meta_ok_of l /\
   meta_error_of (network_totals net) = total meta_error_of l /\
   actualizados_of (network_totals net) = total actualizados_of l /\
   desactualizados_of (network_totals net) = total desactualizados_of l /\
   federados_of (network_totals net) = total federados_of l /\
   no_federados_of (network_totals net) = total no_federados_of l) /\
  exists fcs,
    mapM count_required_and_optional_fields (catalogs_list catalogs) = Ok fcs /\
    datasets_meta_ok_pct (ind_status (network_totals net)) =
      percentage (total meta_ok_of l) (total meta_ok_of l + total meta_error_of l) /\
    campos_recomendados_pct (network_totals net) =
      percentage (total kc_recomendado fcs) (total kc_total_recomendado fcs) /\
    campos_optativos_pct (network_totals net) =
      percentage (total kc_optativo fcs) (total kc_total_optativo fcs) /\
    datasets_actualizados_pct (ind_dates (network_totals net)) =
      percentage (total actualizados_of l)
                 (total actualizados_of l + total desactualizados_of l) /\
    federados_pct_of_record (network_totals net) =
      percentage (total federados_of l) (total federados_of l + total no_federados_of l).
Proof.
  intros E.
  destruct (generate_catalogs_indicators_inv _ _ _ _ _ E)
    as (fcs & first & rest & fields & Hm & -> & Hl & _ & P1 & P2 & P3 & P4 & Enet).
  apply network_percentages_spec in Enet as (Hcounts & Hmeta & Hact & Hcampos & Hfed).
  cbn [network_totals] in Hcounts, Hmeta, Hact, Hfed.
  destruct (Hcampos fields eq_refl) as (Nr & No & Hrec & Hopt).
  assert (Hsum : forall proj : indicators -> nat,
            (forall a b, proj (add_dicts a b) = (proj a + proj b)%nat) ->
            proj (fold_left add_dicts rest first) = total proj (first :: rest)).
  { intros proj Hadd. rewrite total_cons. by apply totals_fold. }
  rewrite !(Hsum meta_ok_of), !(Hsum meta_error_of) in Hmeta by reflexivity.
  rewrite !(Hsum actualizados_of), !(Hsum desactualizados_of) in Hact by reflexivity.
  rewrite (Hsum meta_ok_of), (Hsum meta_error_of), (Hsum actualizados_of),
    (Hsum desactualizados_of), (Hsum federados_of federados_of_add),
    (Hsum no_federados_of no_federados_of_add) in Hcounts by reflexivity.
  split; [exact Hl |]. split; [exact Hcounts |].
  exists fcs. split; [exact Hm |]. split; [exact Hmeta |].
  split; [| split; [| split; [exact Hact |]]].
  - rewrite Hrec, P1, P2. unfold percentage.
    rewrite P2 in Nr. apply Nat.eqb_neq in Nr. by rewrite Nr.
  - rewrite Hopt, P3, P4. unfold percentage.
    rewrite P4 in No. apply Nat.eqb_neq in No. by rewrite No.
  - destruct Hfed as [_ Hpct].
    { apply federation_fold_Some. apply Forall_cons_1 in Hl as [((f & -> & _) & _) _]. eauto. }
    rewrite !(Hsum federados_of federados_of_add),
            !(Hsum no_federados_of no_federados_of_add) in Hpct.
    rewrite Hpct.
    destruct (Nat.eqb_spec (total federados_of (first :: rest)
                            + total no_federados_of (first :: rest)) 0) as [E0 | E0];
      [| reflexivity].
    rewrite E0. unfold percentage at 1. cbn [Nat.eqb].
    assert (Hzero : Forall (fun i => federados_pct_of_record i = 0%Q) (first :: rest)).
    { assert (Hf0 : total federados_of (first :: rest) = O) by lia.
      assert (Hn0 : total no_federados_of (first :: rest) = O) by lia.
      apply total_zero in Hf0, Hn0. rewrite Forall_forall in Hl, Hf0, Hn0 |- *.
      intros i Hi. apply consistent_record_zero_pct; [by apply Hl |].
      rewrite (Hf0 i Hi), (Hn0 i Hi). reflexivity. }
    apply Forall_cons_1 in Hzero as [Hz1 Hz2].
    rewrite (federation_fold_zero rest Hz2 first Hz1). reflexivity.
Qed.


Lemma percentage_of_nothing (num : nat) : percentage num 0 = 0%Q.
Proof. reflexivity. Qed.

Lemma safe_catalog_step (central : source) (v : option validator)
    (st : list indicators * option key_count) (catalog : json) :
  has_leaf recomendado catalog_fields = true ->
  has_leaf optativo catalog_fields = true ->
  safe (catalog_step central v st catalog).
Proof.
  intros Hr Ho. unfold catalog_step.
  apply safe_bind; [by apply safe_generate_indicators |]. intros r _.
  apply safe_bind; [| intros; apply safe_Ok].
  destruct (source_truthy central); [| apply safe_Ok].
  apply safe_bind; [apply safe_federation_indicators | intros; apply safe_Ok].
Qed.

(** C4, as amended: with a schema that has a recommended and an optional
    leaf at its top level (so that the two totals are never 0) no percentage
    computation ends in a division by zero; and the percentages that are
    computed behind a guard (metadata, freshness, federation), in the records
    of the catalogs and in the record of the network, are 0 when their
    denominator is 0. *)
Theorem guarded_percentages (catalogs : catalogs_arg)
    (central : option source) (v : option validator) :
  has_leaf recomendado catalog_fields = true ->
  has_leaf optativo catalog_fields = true ->
  generate_catalogs_indicators catalogs central v <> Raise ZeroDivisionError /\
  forall l net,
    generate_catalogs_indicators catalogs central v = Ok (l, net) ->
    Forall zero_guarded l /\ zero_guarded (network_totals net).
Proof.
  intros Hr Ho. split.
  - change (safe (generate_catalogs_indicators catalogs central v)).
    unfold generate_catalogs_indicators. fold (catalogs_list catalogs).
    apply safe_bind; [apply safe_foldM; intros; by apply safe_catalog_step |].
    intros [l fields] Eloop.
    destruct (catalog_loop _ _ _ (central_catalog_truthy central) _ _ Eloop)
      as (fcs & news & Hm & Hfcs & _ & Hlen & Hst).
    cbn [fst snd app] in Hst. injection Hst as -> ->.
    destruct news as [| first rest]; [apply safe_Raise; discriminate |].
    assert (Hne : fcs <> []).
    { apply mapM_Ok_length in Hm. intros ->. cbn in *. lia. }
    destruct (fields_fold_from_empty fcs Hne) as (f & -> & _ & P2 & _ & P4).
    apply safe_bind; [| intros; apply safe_Ok].
    apply safe_network_indicator_percentages.
    + rewrite P2. apply total_nonzero; [exact Hne |].
      eapply Forall_impl; [exact Hfcs |]. by intros fc [? ?].
    + rewrite P4. apply total_nonzero; [exact Hne |].
      eapply Forall_impl; [exact Hfcs |]. by intros fc [? ?].
  - intros l net E.
    destruct (network_record_spec _ _ _ _ _ E)
      as (Hl & (C1 & C2 & C3 & C4 & C5 & C6) & fcs & _ & Hmeta & _ & _ & Hact & Hfed).
    split.
    + eapply Forall_impl; [exact Hl |]. apply consistent_record_zero_guarded.
    + split; [| split].
      * rewrite C1, C2, Hmeta. intros ->. apply percentage_of_nothing.
      * rewrite C3, C4, Hact. intros ->. apply percentage_of_nothing.
      * rewrite C5, C6, Hfed. intros ->. apply percentage_of_nothing.
Qed.

End NetworkFacts.


Lemma guarded_percentages_witness :
  @generate_catalogs_indicators sample_collaborators
    (OneCatalog (Parsed sample_empty_catalog)) None None <> Raise ZeroDivisionError /\
  forall l net,
    @generate_catalogs_indicators sample_collaborators
      (OneCatalog (Parsed sample_empty_catalog)) None None = Ok (l, net) ->
    Forall zero_guarded l /\ zero_guarded (network_totals net).
Proof.
  apply (@guarded_percentages sample_collaborators
           (OneCatalog (Parsed sample_empty_catalog)) None None); reflexivity.
Defined.

(** C4, as stated, fails: with an empty schema the two totals are 0 and the
    percentages of recommended and optional fields divide by them. *)
Lemma empty_schema_divides_by_zero : ~ every_percentage_is_guarded.
Proof.
  intros Hclaim.
  apply (Hclaim empty_schema_collaborators (OneCatalog (Parsed sample_small_catalog))
           None None).
  reflexivity.
Qed.

(** * More on loops, rounding and equality *)

(** An invariant that follows the elements gone through so far. *)
Lemma foldM_prefix_invariant {A B : Type} (f : B -> A -> result B)
    (I : list A -> B -> Prop) (l : list A) (acc r : B) :
  I [] acc ->
  (forall p x a a', I p a -> f a x = Ok a' -> I (p ++ [x])%list a') ->
  foldM f l acc = Ok r -> I l r.
Proof.
  intros Hacc Hstep.
  assert (G : forall p acc, I p acc -> foldM f l acc = Ok r -> I (p ++ l)%list r).
  { clear acc Hacc. induction l as [| x l IH]; intros p acc Hp; cbn [foldM].
    - intros [= <-]. by rewrite app_nil_r.
    - destruct (f acc x) as [a' |] eqn:E; [| discriminate]. intros Hr.
      replace (p ++ x :: l)%list with ((p ++ [x]) ++ l)%list by (by rewrite <- app_assoc).
      apply (IH _ a'); [by eapply Hstep | exact Hr]. }
  apply (G [] acc Hacc).
Qed.

Lemma round_half_even_bounds (x : Q) (n : Z) :
  (0 <= x)%Q -> (x <= inject_Z n)%Q -> 0 <= round_half_even x <= n.
Proof.
  intros H0 Hn. unfold round_half_even.
  assert (F0 : 0 <= Qfloor x).
  { change 0 with (Qfloor 0). by apply Qfloor_resp_le. }
  assert (Fn : Qfloor x <= n).
  { rewrite <- (Qfloor_Z n). by apply Qfloor_resp_le. }
  assert (Up : (inject_Z (Qfloor x) < x)%Q -> Qfloor x + 1 <= n).
  { intros Hlt. assert (Hq : (inject_Z (Qfloor x) < inject_Z n)%Q) by (eapply Qlt_le_trans; eauto).
    rewrite <- Zlt_Qlt in Hq. lia. }
  destruct (Qcompare_spec (x - inject_Z (Qfloor x)) (1 # 2)) as [E | L | G].
  - destruct (Z.even (Qfloor x)); [lia |]. split; [lia |]. apply Up.
    apply Qlt_minus_iff.
    assert (Hx : (x + - inject_Z (Qfloor x) == x - inject_Z (Qfloor x))%Q) by ring.
    rewrite Hx, E. reflexivity.
  - lia.
  - split; [lia |]. apply Up. apply Qlt_minus_iff.
    assert (Hx : (x + - inject_Z (Qfloor x) == x - inject_Z (Qfloor x))%Q) by ring.
    rewrite Hx. eapply Qlt_trans; [| exact G]. reflexivity.
Qed.

(** Rounding to 2 decimals keeps a value between 0 and 100 there. *)
Lemma py_round_bounds (x : Q) :
  (0 <= x)%Q -> (x <= 100)%Q -> (0 <= py_round x 2)%Q /\ (py_round x 2 <= 100)%Q.
Proof.
  intros H0 H100. unfold py_round.
  change (Pos.pow 10 (Pos.of_nat 2)) with 100%positive.
  destruct (round_half_even_bounds (x * inject_Z 100) 10000) as [R0 R1].
  - apply Qmult_le_0_compat; [exact H0 | discriminate].
  - change (inject_Z 10000) with (100 * inject_Z 100)%Q.
    apply Qmult_le_compat_r; [exact H100 | discriminate].
  - rewrite !Qred_correct. unfold Qle. cbn. split; lia.
Qed.

Lemma percentage_bounds (num den : nat) :
  (num <= den)%nat -> (0 <= percentage num den)%Q /\ (percentage num den <= 100)%Q.
Proof.
  intros Hle. unfold percentage. destruct (Nat.eqb_spec den 0) as [E | E].
  - split; discriminate.
  - apply py_round_bounds; rewrite Qred_correct.
    + apply Qle_shift_div_l.
      * unfold float, Qlt. cbn. lia.
      * unfold float, Qle. cbn. lia.
    + apply Qle_shift_div_r.
      * unfold float, Qlt. cbn. lia.
      * unfold float, Qle. cbn. lia.
Qed.

Lemma py_eq_refl (a : json) : py_eq a a = true.
Proof.
  induction a as [| x | n | q | s | l IH | d IH] using json_nested_ind.
  - reflexivity.
  - cbn. by destruct x.
  - cbn. apply Qeq_bool_iff. reflexivity.
  - cbn. apply Qeq_bool_iff. reflexivity.
  - cbn. apply String.eqb_refl.
  - cbn [py_eq]. induction IH as [| x l Hx _ IHl]; [reflexivity |].
    cbn [list_eq]. by rewrite Hx.
  - apply py_eq_dict_spec. split; [| done].
    intros k v Hv. exists v. split; [exact Hv |].
    rewrite Forall_forall in IH. apply (IH (k, v)).
    apply list_elem_of_In. by apply dict_lookup_In.
Qed.

(** * More on the field usage counter *)

Lemma within_totals_add a b : within_totals a -> within_totals b ->
  within_totals (key_count_add a b).
Proof. intros (? & ? & ?) (? & ? & ?). repeat split; cbn; lia. Qed.

Lemma within_totals_zero : within_totals key_count_zero.
Proof. repeat split; cbn; lia. Qed.

Lemma count_field_within (v : field_spec) :
  forall k dataset acc c,
    count_field v k dataset acc = Ok c -> within_totals acc -> within_totals c.
Proof.
  induction v as [r | fields IH] using field_spec_nested_ind; intros k dataset acc c.
  - cbn [count_field]. destruct (py_contains k dataset) as [[|] |]; cbn; try discriminate;
      intros [= <-] (? & ? & ?); destruct r; repeat split; cbn; lia.
  - cbn [count_field]. intros E Hacc. inv_bind E. revert E.
    refine (foldM_invariant _ within_totals x _ acc c Hacc).
    intros kc element kc' _ Hkc E. inv_bind E. injection E as <-.
    apply within_totals_add; [exact Hkc |].
    match goal with
    | Hin : foldM _ fields key_count_zero = Ok ?r |- within_totals ?r =>
        revert Hin;
        refine (foldM_invariant _ within_totals fields _ key_count_zero r
                  within_totals_zero)
    end.
    intros a kv a' Hkv Ha Ea. rewrite Forall_forall in IH.
    apply (IH kv (proj2 (list_elem_of_In _ _) Hkv) _ _ _ _ Ea Ha).
Qed.

(** X1: whatever the record and the schema, when the counter returns, the
    count of used fields of each label is at most the total of that label. *)
Theorem used_fields_within_totals (dataset : json)
    (fields : list (string * field_spec)) (c : key_count) :
  count_fields_recursive dataset fields = Ok c -> within_totals c.
Proof.
  unfold count_fields_recursive.
  refine (foldM_invariant _ within_totals fields _ key_count_zero c within_totals_zero).
  intros a kv a' _ Ha Ea. by eapply count_field_within.
Qed.

Lemma used_fields_within_totals_witness :
  exists c, count_fields_recursive (JDict sample_catalog_for_schema) sample_catalog_fields
              = Ok c /\ within_totals c.
Proof.
  eexists. split; [reflexivity |].
  apply (used_fields_within_totals (JDict sample_catalog_for_schema) sample_catalog_fields).
  reflexivity.
Defined.

Lemma key_count_add_zero_l c : key_count_add key_count_zero c = c.
Proof. by destruct c. Qed.

Lemma count_over_elements (fields : list (string * field_spec)) (l : list json) :
  forall acc,
    foldM (fun kc element =>
             result ← foldM (fun kc' kv => count_field (snd kv) (fst kv) element kc')
                            fields key_count_zero;
             Ok (key_count_add kc result)) l acc
    = (cs ← mapM (fun e => count_fields_recursive e fields) l;
       Ok (fold_left key_count_add cs acc)).
Proof.
  induction l as [| e l IH]; intros acc; [reflexivity |].
  cbn [foldM mapM]. unfold count_fields_recursive at 1.
  destruct (foldM _ fields key_count_zero) as [r |]; [| reflexivity].
  cbn [mbind result_bind]. rewrite IH.
  destruct (mapM _ l) as [cs |]; reflexivity.
Qed.

Lemma nested_key_counts_eq (d : list (string * json)) (k : string)
    (fields : list (string * field_spec)) :
  count_fields_recursive (JDict d) [(k, Nested fields)] =
    match dict_lookup k d with
    | Some (JList l) =>
        cs ← mapM (fun e => count_fields_recursive e fields) l;
        Ok (fold_left key_count_add cs key_count_zero)
    | Some (JDict e) => count_fields_recursive (JDict e) fields
    | _ => count_fields_recursive (JDict []) fields
    end.
Proof.
  unfold count_fields_recursive at 1. cbn [foldM fst snd count_field].
  unfold nested_elements, py_get, py_get_default, py_getitem, dict_get.
  assert (Hone : forall e,
    (foldM (fun kc element =>
              result ← foldM (fun kc' kv => count_field (snd kv) (fst kv) element kc')
                             fields key_count_zero;
              Ok (key_count_add kc result)) [e] key_count_zero)
    = count_fields_recursive e fields).
  { intros e. rewrite count_over_elements. cbn [mapM].
    destruct (count_fields_recursive e fields) as [c |]; [| reflexivity].
    cbn. by rewrite key_count_add_zero_l. }
  destruct (dict_lookup k d) as [[| | | | | l | e] |]; cbn [mbind result_bind];
    rewrite ?Hone;
    try (destruct (count_fields_recursive _ fields); reflexivity).
  rewrite count_over_elements.
  destruct (mapM _ l); reflexivity.
Qed.

(** X2: how a key with a nested schema is counted.  A list is counted
    element by element and the counts are added; a mapping counts as itself;
    a missing key or any other value counts as an empty mapping. *)
Theorem nested_key_counts (d : list (string * json)) (k : string)
    (fields : list (string * field_spec)) :
  count_fields_recursive (JDict d) [(k, Nested fields)] =
    match dict_lookup k d with
    | Some (JList l) =>
        cs ← mapM (fun e => count_fields_recursive e fields) l;
        Ok (fold_left key_count_add cs key_count_zero)
    | Some (JDict e) => count_fields_recursive (JDict e) fields
    | _ => count_fields_recursive (JDict []) fields
    end.
Proof. apply nested_key_counts_eq. Qed.

(** The loop over the schema, on a mapping that fits. *)
Lemma count_fits_loop (d : list (string * json)) (fields : list (string * field_spec)) :
  Forall (fun kv => forall k d acc, fits_at (snd kv) k d = true ->
            exists c, count_field (snd kv) k (JDict d) acc = Ok c) fields ->
  forall acc, forallb (fun kv => fits_at (snd kv) (fst kv) d) fields = true ->
  exists c, foldM (fun kc kv => count_field (snd kv) (fst kv) (JDict d) kc) fields acc = Ok c.
Proof.
  induction 1 as [| kv fields Hkv _ IH]; intros acc Hfit; [cbn; eauto |].
  cbn [forallb] in Hfit. apply andb_prop in Hfit as [Hk Hr].
  destruct (Hkv (fst kv) d acc Hk) as [c1 E1]. cbn [foldM]. rewrite E1. by apply IH.
Qed.

Lemma count_field_fits (v : field_spec) :
  forall k d acc, fits_at v k d = true -> exists c, count_field v k (JDict d) acc = Ok c.
Proof.
  induction v as [r | fields IH] using field_spec_nested_ind; intros k d acc Hfit.
  - cbn. eauto.
  - cbn [count_field]. unfold nested_elements, py_get, py_get_default, py_getitem, dict_get.
    cbn [fits_at] in Hfit.
    assert (Hall : forall l acc,
      forallb (fun e => match e with
                        | JDict d' => forallb (fun kv => fits_at (snd kv) (fst kv) d') fields
                        | _ => false
                        end) l = true ->
      exists c, foldM (fun kc element =>
                  result ← foldM (fun kc' kv => count_field (snd kv) (fst kv) element kc')
                                 fields key_count_zero;
                  Ok (key_count_add kc result)) l acc = Ok c).
    { induction l as [| e l IHl]; intros a Hl; [cbn; eauto |].
      cbn [forallb] in Hl. apply andb_prop in Hl as [He Hl].
      destruct e as [| | | | | | d']; try discriminate.
      destruct (count_fits_loop d' fields IH key_count_zero He) as [c1 E1].
      cbn [foldM]. rewrite E1. cbn [mbind result_bind]. by apply IHl. }
    assert (Hempty : forallb (fun kv => fits_at (snd kv) (fst kv) []) fields = true).
    { apply forallb_forall. intros kv _. by destruct (snd kv). }
    destruct (dict_lookup k d) as [[| | | | | l | d'] |]; cbn [mbind result_bind];
      try (apply (Hall [JDict []]); cbn; by rewrite Hempty).
    + by apply Hall.
    + apply (Hall [JDict d']). cbn. by rewrite Hfit.
Qed.

(** X3: on a record that fits the schema (under the keys with a nested
    schema there are mappings, lists of mappings, or values of another
    type) the counter returns: it raises nothing. *)
Theorem counter_returns_on_fitting_record (d : list (string * json))
    (fields : list (string * field_spec)) :
  fits d fields = true -> exists c, count_fields_recursive (JDict d) fields = Ok c.
Proof.
  intros Hfit. apply count_fits_loop; [| exact Hfit].
  apply Forall_forall. intros kv _. apply count_field_fits.
Qed.

Lemma counter_returns_on_fitting_record_witness :
  exists c, count_fields_recursive (JDict sample_catalog_for_schema) sample_catalog_fields
              = Ok c.
Proof.
  apply (counter_returns_on_fitting_record sample_catalog_for_schema sample_catalog_fields).
  reflexivity.
Defined.

(** X4: lists of scalars are not supported.  When the first element of the
    list under a key with a nested schema is [None], a boolean or a number,
    the counter raises: [TypeError] if the first entry of the nested schema
    is a leaf, [AttributeError] if it is itself nested. *)
Theorem scalar_element_raises (d : list (string * json)) (k k' : string)
    (e : json) (l : list json) (v' : field_spec) (fields : list (string * field_spec)) :
  dict_lookup k d = Some (JList (e :: l)) ->
  is_scalar e = true ->
  count_fields_recursive (JDict d) [(k, Nested ((k', v') :: fields))] =
    Raise (match v' with Leaf _ => TypeError | Nested _ => AttributeError end).
Proof.
  intros Hk He. rewrite nested_key_counts_eq, Hk. cbn [mapM].
  unfold count_fields_recursive at 1. cbn [foldM fst snd].
  destruct e; try discriminate; destruct v'; reflexivity.
Qed.

Lemma scalar_element_raises_witness :
  count_fields_recursive (JDict [("dataset", JList [JInt 3])])
    [("dataset", Nested [("title", Leaf requerido)])] = Raise TypeError.
Proof.
  apply (scalar_element_raises [("dataset", JList [JInt 3])] "dataset" "title"
           (JInt 3) [] (Leaf requerido) []); reflexivity.
Defined.

(** * More on the indicators of a catalog and of the network *)

Section StatusFacts.
Context `{Collaborators}.

Lemma status_loop (summary : list dataset_summary) :
  forall ok err dist,
    fold_left (fun st dataset =>
                 let '(cant_ok, cant_error, cant_dist) := st in
                 let cant_dist := (cant_dist + cant_distribuciones dataset)%nat in
                 if String.eqb (estado_metadatos dataset) "OK"
                 then (S cant_ok, cant_error, cant_dist)
                 else (cant_ok, S cant_error, cant_dist))
              summary (ok, err, dist)
    = ((ok + length (List.filter is_ok summary))%nat,
       (err + length (List.filter (fun d => negb (is_ok d)) summary))%nat,
       (dist + total cant_distribuciones summary)%nat).
Proof.
  induction summary as [| d summary IH]; intros ok err dist; cbn [fold_left].
  - cbn. f_equal; [f_equal |]; lia.
  - rewrite total_cons. cbn [List.filter].
    change (is_ok d) with (String.eqb (estado_metadatos d) "OK").
    destruct (String.eqb (estado_metadatos d) "OK"); rewrite IH; cbn [negb length];
      (f_equal; [f_equal |]; lia).
Qed.

Lemma filter_partition {A : Type} (p : A -> bool) (l : list A) :
  (length (List.filter p l) + length (List.filter (fun x => negb (p x)) l))%nat = length l.
Proof.
  induction l as [| x l IH]; [reflexivity |]. cbn. destruct (p x); cbn; lia.
Qed.

(** X5: the status indicators never raise.  The datasets are those of the
    validation summary, each counted as OK or as in error, the
    distributions are added up, and the percentage of valid datasets lies
    between 0 and 100. *)
Theorem status_indicators_shape (catalog : json) (v : option validator) :
  exists s,
    generate_status_indicators catalog v = Ok s /\
    let summary := generate_datasets_summary catalog v in
    datasets_cant s = length summary /\
    datasets_meta_ok_cant s = length (List.filter is_ok summary) /\
    (datasets_meta_ok_cant s + datasets_meta_error_cant s)%nat = length summary /\
    distribuciones_cant s = total cant_distribuciones summary /\
    datasets_meta_ok_pct s = percentage (datasets_meta_ok_cant s) (length summary) /\
    (0 <= datasets_meta_ok_pct s)%Q /\ (datasets_meta_ok_pct s <= 100)%Q.
Proof.
  unfold generate_status_indicators. rewrite status_loop. cbn [Nat.add].
  set (summary := generate_datasets_summary catalog v).
  pose proof (filter_partition is_ok summary) as Hpart.
  assert (Hpct :
    (if negb (Nat.eqb (length summary) 0)
     then q ← py_div (100 * float (length (List.filter is_ok summary)))
                     (float (length summary));
          Ok (py_round q 2)
     else Ok 0%Q) = Ok (percentage (length (List.filter is_ok summary)) (length summary))).
  { unfold percentage. destruct (Nat.eqb_spec (length summary) 0) as [E | E];
      cbn [negb]; [reflexivity |]. by rewrite py_div_nonzero. }
  rewrite Hpct. cbn [mbind result_bind]. eexists. split; [reflexivity |].
  cbn. repeat split; try reflexivity; try exact Hpart.
  all: apply percentage_bounds; lia.
Qed.

End StatusFacts.

Lemma network_keeps_catalogos_cant (fields : option key_count) (net net' : network) :
  network_indicator_percentages fields net = Ok net' ->
  catalogos_cant net' = catalogos_cant net.
Proof.
  unfold network_indicator_percentages. intros E. inv_bind E. by injection E as <-.
Qed.

Lemma datasets_cant_add (a b : indicators) :
  datasets_cant (ind_status (add_dicts a b)) =
    (datasets_cant (ind_status a) + datasets_cant (ind_status b))%nat.
Proof. reflexivity. Qed.

Lemma network_keeps_status_counts (fields : option key_count) (net net' : network) :
  network_indicator_percentages fields net = Ok net' ->
  datasets_cant (ind_status (network_totals net')) =
    datasets_cant (ind_status (network_totals net)) /\
  distribuciones_cant (ind_status (network_totals net')) =
    distribuciones_cant (ind_status (network_totals net)).
Proof.
  unfold network_indicator_percentages. intros E. inv_bind E. by injection E as <-.
Qed.

Section NetworkShape.
Context `{Collaborators}.

(** X6: without catalogs there is no result: the function raises
    [IndexError]. *)
Theorem no_catalogs_IndexError (catalogs : catalogs_arg) (central : option source)
    (v : option validator) :
  catalogs_list catalogs = [] ->
  generate_catalogs_indicators catalogs central v = Raise IndexError.
Proof.
  unfold generate_catalogs_indicators. fold (catalogs_list catalogs). by intros ->.
Qed.

(** X7: a result has one record per catalog, in the order of the catalogs,
    and ['catalogos_cant'] is their number.  Every record, and the record of
    the network, has the federation indicators, also when no central catalog
    is given: the default one is used. *)
Theorem one_record_per_catalog (catalogs : catalogs_arg) (central : option source)
    (v : option validator) (l : list indicators) (net : network) :
  generate_catalogs_indicators catalogs central v = Ok (l, net) ->
  length l = length (catalogs_list catalogs) /\
  catalogos_cant net = length (catalogs_list catalogs) /\
  Forall (fun i => is_Some (ind_federation i)) l /\
  is_Some (ind_federation (network_totals net)).
Proof.
  intros E. pose proof E as E0.
  unfold generate_catalogs_indicators in E. fold (catalogs_list catalogs) in E.
  apply bind_Ok_inv in E as ([l' fields] & Eloop & E).
  destruct (catalog_loop _ _ _ (central_catalog_truthy central) _ _ Eloop)
    as (fcs & news & _ & _ & Hnews & Hlen & Hst).
  cbn [fst snd app] in Hst. injection Hst as -> ->.
  destruct news as [| first rest]; [discriminate |].
  apply bind_Ok_inv in E as (net' & Enet & E). injection E as <- <-.
  assert (Hsome : Forall (fun i => is_Some (ind_federation i)) (first :: rest)).
  { eapply Forall_impl; [exact Hnews |]. intros i ((f & -> & _) & _). eauto. }
  split; [exact Hlen |].
  split; [by rewrite (network_keeps_catalogos_cant _ _ _ Enet) |].
  split; [exact Hsome |].
  apply network_percentages_spec in Enet as (_ & _ & _ & _ & Hfed).
  apply Hfed. cbn [network_totals]. apply federation_fold_Some.
  by apply Forall_cons_1 in Hsome as [? _].
Qed.

(** X8: the counts of the network are the sums of the counts of the
    catalogs. *)
Theorem network_counts_are_sums (catalogs : catalogs_arg) (central : option source)
    (v : option validator) (l : list indicators) (net : network) :
  generate_catalogs_indicators catalogs central v = Ok (l, net) ->
  let t := network_totals net in
  datasets_cant (ind_status t) = total (fun i => datasets_cant (ind_status i)) l /\
  distribuciones_cant (ind_status t) = total (fun i => distribuciones_cant (ind_status i)) l /\
  meta_ok_of t = total meta_ok_of l /\
  meta_error_of t = total meta_error_of l /\
  actualizados_of t = total actualizados_of l /\
  desactualizados_of t = total desactualizados_of l /\
  federados_of t = total federados_of l /\
  no_federados_of t = total no_federados_of l.
Proof.
  intros E.
  destruct (network_record_spec _ _ _ _ _ E) as (_ & (C1 & C2 & C3 & C4 & C5 & C6) & _).
  destruct (generate_catalogs_indicators_inv _ _ _ _ _ E)
    as (fcs & first & rest & fields & _ & -> & _ & _ & _ & _ & _ & _ & Enet).
  apply network_keeps_status_counts in Enet as [D1 D2]. cbn [network_totals] in D1, D2.
  cbv zeta. rewrite D1, D2.
  rewrite (totals_fold (fun i => datasets_cant (ind_status i)) rest) by reflexivity.
  rewrite (totals_fold (fun i => distribuciones_cant (ind_status i)) rest) by reflexivity.
  rewrite !total_cons. repeat split; assumption.
Qed.

(** X9: the percentages of the network for metadata, freshness and
    federation lie between 0 and 100. *)
Theorem network_percentages_in_range (catalogs : catalogs_arg) (central : option source)
    (v : option validator) (l : list indicators) (net : network) :
  generate_catalogs_indicators catalogs central v = Ok (l, net) ->
  let t := network_totals net in
  ((0 <= datasets_meta_ok_pct (ind_status t))%Q /\
   (datasets_meta_ok_pct (ind_status t) <= 100)%Q) /\
  ((0 <= datasets_actualizados_pct (ind_dates t))%Q /\
   (datasets_actualizados_pct (ind_dates t) <= 100)%Q) /\
  ((0 <= federados_pct_of_record t)%Q /\ (federados_pct_of_record t <= 100)%Q).
Proof.
  intros E.
  destruct (network_record_spec _ _ _ _ _ E)
    as (_ & _ & fcs & _ & Hmeta & _ & _ & Hact & Hfed).
  cbv zeta. rewrite Hmeta, Hact, Hfed.
  repeat split; apply percentage_bounds; lia.
Qed.

End NetworkShape.

Lemma no_catalogs_IndexError_witness :
  @generate_catalogs_indicators sample_collaborators (ManyCatalogs []) None None
    = Raise IndexError.
Proof.
  apply (@no_catalogs_IndexError sample_collaborators (ManyCatalogs []) None None).
  reflexivity.
Defined.

Lemma sample_network_run :
  exists l net,
    @generate_catalogs_indicators sample_collaborators
      (ManyCatalogs [Parsed sample_small_catalog; Parsed sample_large_catalog])
      None None = Ok (l, net).
Proof.
  destruct (@generate_catalogs_indicators sample_collaborators
              (ManyCatalogs [Parsed sample_small_catalog; Parsed sample_large_catalog])
              None None) as [[l net] |] eqn:E; [eauto | vm_compute in E; discriminate E].
Defined.

Lemma one_record_per_catalog_witness :
  exists l net,
    @generate_catalogs_indicators sample_collaborators
      (ManyCatalogs [Parsed sample_small_catalog; Parsed sample_large_catalog])
      None None = Ok (l, net) /\
    length l = 2%nat /\ catalogos_cant net = 2%nat /\
    Forall (fun i => is_Some (ind_federation i)) l.
Proof.
  destruct sample_network_run as (l & net & E). exists l, net. split; [exact E |].
  destruct (@one_record_per_catalog sample_collaborators _ _ _ _ _ E) as (H1 & H2 & H3 & _).
  repeat split; assumption.
Defined.

Lemma network_counts_are_sums_witness :
  exists l net,
    @generate_catalogs_indicators sample_collaborators
      (ManyCatalogs [Parsed sample_small_catalog; Parsed sample_large_catalog])
      None None = Ok (l, net) /\
    datasets_cant (ind_status (network_totals net)) =
      total (fun i => datasets_cant (ind_status i)) l.
Proof.
  destruct sample_network_run as (l & net & E). exists l, net. split; [exact E |].
  by destruct (@network_counts_are_sums sample_collaborators _ _ _ _ _ E) as (H1 & _).
Defined.

Lemma network_percentages_in_range_witness :
  exists l net,
    @generate_catalogs_indicators sample_collaborators
      (ManyCatalogs [Parsed sample_small_catalog; Parsed sample_large_catalog])
      None None = Ok (l, net) /\
    (0 <= datasets_meta_ok_pct (ind_status (network_totals net)))%Q /\
    (datasets_meta_ok_pct (ind_status (network_totals net)) <= 100)%Q.
Proof.
  destruct sample_network_run as (l & net & E). exists l, net. split; [exact E |].
  by destruct (@network_percentages_in_range sample_collaborators _ _ _ _ _ E) as (H1 & _).
Defined.

(** * More on the federation reconciler *)

(** What a dataset kept by the pre-filter looks like: it has a publisher
    name that is also the publisher name of a local dataset. *)
Lemma likely_publisher_names (dl : list json) (names : list json) :
  foldM (fun names catalog_dataset =>
           publisher ← py_getitem catalog_dataset "publisher";
           has_name ← py_contains "name" publisher;
           if has_name : bool
           then publisher ← py_getitem catalog_dataset "publisher";
                name ← py_getitem publisher "name";
                Ok (names ++ [name])%list
           else Ok names) dl [] = Ok names ->
  forall m, In m names ->
    exists y q, In y dl /\ py_getitem y "publisher" = Ok q /\ py_getitem q "name" = Ok m.
Proof.
  refine (foldM_prefix_invariant _
            (fun p names => forall m, In m names ->
               exists y q, In y p /\ py_getitem y "publisher" = Ok q /\
                           py_getitem q "name" = Ok m) dl [] names _ _).
  - intros m [].
  - intros p x a a' Ha E. inv_bind E.
    assert (Hold : forall m, In m a -> exists y q, In y (p ++ [x])%list /\
              py_getitem y "publisher" = Ok q /\ py_getitem q "name" = Ok m).
    { intros m Hm. destruct (Ha m Hm) as (y & q & Hy & Hq & Hn).
      exists y, q. split; [apply in_or_app; by left | by split]. }
    destruct x1; [| injection E as <-; exact Hold].
    inv_bind E. injection E as <-.
    intros m [Hm | [<- | []]]%in_app_or; [by apply Hold |].
    eexists x, _. split; [apply in_or_app; right; by left |]. split; eassumption.
Qed.

Lemma likely_publisher_filter (cl : list json) (names : list json) (l : list json) :
  foldM (fun filtered_central_datasets central_dataset =>
           publisher ← py_getitem central_dataset "publisher";
           has_name ← py_contains "name" publisher;
           if has_name : bool
           then publisher ← py_getitem central_dataset "publisher";
                name ← py_getitem publisher "name";
                Ok (if list_contains name names
                    then (filtered_central_datasets ++ [central_dataset])%list
                    else filtered_central_datasets)
           else Ok filtered_central_datasets) cl [] = Ok l ->
  sublist l cl /\
  forall x, In x l ->
    exists p n, py_getitem x "publisher" = Ok p /\ py_getitem p "name" = Ok n /\
                list_contains n names = true.
Proof.
  refine (foldM_prefix_invariant _
            (fun pre acc => sublist acc pre /\
               forall x, In x acc ->
                 exists p n, py_getitem x "publisher" = Ok p /\
                             py_getitem p "name" = Ok n /\
                             list_contains n names = true) cl [] l _ _).
  - split; [constructor | intros x []].
  - intros pre x a a' [Hsub Ha] E. inv_bind E.
    assert (Hkeep : sublist a (pre ++ [x])%list) by (by apply sublist_inserts_r).
    destruct x1; [| injection E as <-; by split].
    inv_bind E. injection E as <-.
    match goal with
    | |- context [list_contains ?n names] => destruct (list_contains n names) eqn:Ec
    end; [| by split].
    split; [by apply sublist_app |].
    intros y [Hy | [<- | []]]%in_app_or; [by apply Ha |].
    do 2 eexists. repeat split; eassumption.
Qed.

(** X10: the pre-filter of the deletion pass keeps central datasets in their
    order and adds none; each dataset it keeps has a publisher name equal to
    the publisher name of some local dataset.  Without local datasets it
    keeps nothing. *)
Theorem likely_publisher_keeps (central_datasets catalog_datasets : json) (l : list json) :
  filter_by_likely_publisher central_datasets catalog_datasets = Ok l ->
  exists cl dl,
    py_iter central_datasets = Ok cl /\ py_iter catalog_datasets = Ok dl /\
    sublist l cl /\
    (forall x, In x l ->
       exists p n y q m,
         py_getitem x "publisher" = Ok p /\ py_getitem p "name" = Ok n /\
         In y dl /\ py_getitem y "publisher" = Ok q /\ py_getitem q "name" = Ok m /\
         py_eq n m = true) /\
    (dl = [] -> l = []).
Proof.
  unfold filter_by_likely_publisher. intros E.
  apply bind_Ok_inv in E as (dl & Edl & E).
  apply bind_Ok_inv in E as (names & Enames & E).
  apply bind_Ok_inv in E as (cl & Ecl & E).
  destruct (likely_publisher_filter _ _ _ E) as [Hsub Hin].
  pose proof (likely_publisher_names _ _ Enames) as Hnames.
  exists cl, dl. split; [exact Ecl |]. split; [exact Edl |]. split; [exact Hsub |]. split.
  - intros x Hx. destruct (Hin x Hx) as (p & n & Hp & Hn & Hc).
    unfold list_contains in Hc. apply existsb_exists in Hc as (m & Hm & Heq).
    destruct (Hnames m Hm) as (y & q & Hy & Hq & Hqm).
    exists p, n, y, q, m. repeat split; assumption.
  - intros ->. cbn in Enames. injection Enames as <-.
    destruct l as [| x l]; [reflexivity |].
    destruct (Hin x (or_introl eq_refl)) as (_ & n & _ & _ & Hc). discriminate Hc.
Qed.

Lemma likely_publisher_keeps_witness :
  exists l,
    filter_by_likely_publisher
      (JList [sample_dataset "Censo" "Instituto"; sample_dataset "Padron" "Ministerio"])
      (JList [sample_dataset "Presupuesto" "Ministerio"]) = Ok l /\
    sublist l [sample_dataset "Censo" "Instituto"; sample_dataset "Padron" "Ministerio"].
Proof.
  eexists. split; [reflexivity |].
  destruct (likely_publisher_keeps
              (JList [sample_dataset "Censo" "Instituto"; sample_dataset "Padron" "Ministerio"])
              (JList [sample_dataset "Presupuesto" "Ministerio"]) _ eq_refl)
    as (cl & dl & Hcl & _ & Hsub & _).
  injection Hcl as <-. exact Hsub.
Defined.

Section ReconcilerShape.
Context `{Collaborators}.

(** X11: in any result of the reconciler every local dataset is counted
    once, as federated or not; the three lists have the lengths that the
    counts say; no more datasets are reported as removed than the central
    catalog has; and the percentage lies between 0 and 100. *)
Theorem reconciler_counts (catalog : json) (central : source) (r : federation_result) :
  federation_indicators catalog central = Ok r ->
  exists local_list central_list,
    (py_get_default catalog "dataset" (JList []) ≫= py_iter) = Ok local_list /\
    (py_get_default (read_catalog central) "dataset" (JList []) ≫= py_iter)
      = Ok central_list /\
    (datasets_federados_cant r + datasets_no_federados_cant r)%nat = length local_list /\
    length (datasets_federados r) = datasets_federados_cant r /\
    length (datasets_no_federados r) = datasets_no_federados_cant r /\
    length (datasets_federados_eliminados r) = datasets_federados_eliminados_cant r /\
    (datasets_federados_eliminados_cant r <= length central_list)%nat /\
    (0 <= datasets_federados_pct r)%Q /\ (datasets_federados_pct r <= 100)%Q.
Proof.
  intros E. pose proof (federation_pct_spec _ _ _ E) as Hpct.
  unfold federation_indicators in E. cbv zeta in E.
  apply bind_Ok_inv in E as (local & Elocal & E).
  apply bind_Ok_inv in E as (local_list & Eiter & E).
  apply bind_Ok_inv in E as ([[[f n] lf] ln] & Epass1 & E).
  apply bind_Ok_inv in E as (centralv & Ecentral & E).
  apply bind_Ok_inv in E as (local' & Elocal' & E).
  apply bind_Ok_inv in E as (filtered & Efilter & E).
  apply bind_Ok_inv in E as ([n2 l2] & Epass2 & E).
  apply bind_Ok_inv in E as (pct & Epct & E). injection E as <-.
  cbn [datasets_federados_cant datasets_no_federados_cant datasets_federados
       datasets_no_federados datasets_federados_eliminados
       datasets_federados_eliminados_cant datasets_federados_pct] in *.
  destruct (likely_publisher_keeps _ _ _ Efilter) as (cl & dl & Ecl & _ & Hsub & _).
  exists local_list, cl. rewrite Elocal, Ecentral. cbn [mbind result_bind].
  split; [exact Eiter |]. split; [exact Ecl |].
  assert (H1 : (f + n = length local_list)%nat /\ length lf = f /\ length ln = n).
  { revert Epass1.
    refine (foldM_prefix_invariant _
              (fun p st => (st.1.1.1 + st.1.1.2 = length p)%nat /\
                           length st.1.2 = st.1.1.1 /\ length st.2 = st.1.1.2)
              local_list (O, O, [], []) (f, n, lf, ln) _ _); [by repeat split |].
    intros p x [[[a b] la] lb] st' (I1 & I2 & I3) Est. cbn [fst snd] in *.
    inv_bind Est.
    match goal with
    | Hb : (if ?found then _ else _) = Ok st' |- _ =>
        destruct found; injection Hb as <-
    end; cbn [fst snd]; rewrite !length_app; cbn [length]; repeat split; lia. }
  assert (H2 : length l2 = n2 /\ (n2 <= length filtered)%nat).
  { revert Epass2.
    refine (foldM_prefix_invariant _
              (fun p st => length st.2 = st.1 /\ (st.1 <= length p)%nat)
              filtered (O, []) (n2, l2) _ _); [cbn; split; [reflexivity | lia] |].
    intros p x [a la] st' [I1 I2] Est. cbn [fst snd] in *. inv_bind Est.
    match goal with
    | Hb : (if ?found then _ else _) = Ok st' |- _ => destruct found
    end.
    - injection Est as <-. cbn [fst snd]. rewrite length_app. cbn. split; [exact I1 | lia].
    - inv_bind Est. injection Est as <-. cbn [fst snd]. rewrite !length_app. cbn.
      split; lia. }
  destruct H1 as (H1 & H1f & H1n), H2 as (H2 & H2n).
  apply sublist_length in Hsub.
  repeat split; try assumption; try lia.
  all: rewrite Hpct; apply percentage_bounds; lia.
Qed.

Lemma dataset_matches_itself (x : json) : is_dict x = true -> dataset_matches x x = true.
Proof.
  destruct x as [| | | | | | d]; try discriminate. intros _.
  unfold dataset_matches. rewrite datasets_equal_dicts. cbn.
  by rewrite !py_eq_refl.
Qed.

Lemma existsb_self {A : Type} (p : A -> A -> bool) (l : list A) (x : A) :
  In x l -> p x x = true -> existsb (p x) l = true.
Proof. intros Hx Hp. apply existsb_exists. eauto. Qed.

Lemma filter_all {A : Type} (p : A -> bool) (l : list A) :
  (forall x, In x l -> p x = true) -> List.filter p l = l.
Proof.
  induction l as [| x l IH]; intros Hp; [reflexivity |].
  cbn. rewrite (Hp x (or_introl eq_refl)). f_equal. apply IH.
  intros y Hy. apply Hp. by right.
Qed.

Lemma filter_none {A : Type} (p : A -> bool) (l : list A) :
  (forall x, In x l -> p x = true) -> List.filter (fun x => negb (p x)) l = [].
Proof.
  induction l as [| x l IH]; intros Hp; [reflexivity |].
  cbn. rewrite (Hp x (or_introl eq_refl)). cbn. apply IH.
  intros y Hy. apply Hp. by right.
Qed.

(** X12: a catalog compared with itself.  When its datasets are mappings
    with a [publisher] mapping and there is at least one, all of them are
    federated, none is reported as removed, and the percentage is 100. *)
Theorem catalog_federated_with_itself (catalog : json) (ds : list json) :
  catalog_datasets catalog = Some ds ->
  forallb has_publisher ds = true ->
  ds <> [] ->
  exists r,
    federation_indicators catalog (Parsed catalog) = Ok r /\
    datasets_federados_cant r = length ds /\
    datasets_no_federados_cant r = O /\
    datasets_federados_eliminados_cant r = O /\
    datasets_federados_eliminados r = [] /\
    datasets_federados_pct r = 100%Q.
Proof.
  intros Hcat Hds Hne.
  assert (Dds : forallb is_dict ds = true).
  { eapply forallb_impl; [| exact Hds]. intros x Hx.
    by apply is_dataset_is_dict, has_publisher_is_dataset. }
  assert (Hall : forall x, In x ds -> existsb (dataset_matches x) ds = true).
  { intros x Hx. apply existsb_self; [exact Hx |].
    apply dataset_matches_itself. rewrite forallb_forall in Dds. by apply Dds. }
  rewrite (federation_indicators_unfold catalog (Parsed catalog) ds ds Hcat Hcat Dds Dds).
  pose proof (classify_local_counts ds ds (O, O, [], [])) as [Hf Hn].
  destruct (fold_left (classify_local ds) ds (O, O, [], [])) as [[[f n] lf] ln].
  cbn [fst snd] in Hf, Hn. rewrite Nat.add_0_l in Hf, Hn.
  assert (Hf' : f = length ds) by (by rewrite Hf, filter_all).
  assert (Hn' : n = O) by (by rewrite Hn, filter_none).
  destruct (filter_by_likely_publisher_total ds ds Hds Hds) as (l & -> & Hl).
  cbn [mbind result_bind].
  destruct (catalog_datasets_inv _ _ Hcat) as (cd & -> & Hcd).
  assert (Hpass2 :
    foldM (fun st central_dataset =>
             local ← py_get_default (JDict cd) "dataset" (JList []);
             local_list ← py_iter local;
             found ← found_in true central_dataset local_list;
             if found : bool then Ok st
             else t ← title_and_landing central_dataset;
                  Ok (S (fst st), (snd st ++ [t])%list))
          l (O, []) = Ok (O, [])).
  { rewrite (foldM_pure _ (fun st _ => st)).
    - f_equal. clear. by induction l.
    - intros acc x Hx. cbn [py_get_default]. rewrite Hcd. cbn [mbind result_bind py_iter].
      assert (Dx : is_dict x = true).
      { rewrite forallb_forall in Dds. by apply Dds, Hl. }
      rewrite (found_in_dicts true x ds Dx Dds).
      assert (Hex : existsb (fun o => if true then dataset_matches o x
                                       else dataset_matches x o) ds = true).
      { apply existsb_exists. exists x. split; [by apply Hl |].
        by apply dataset_matches_itself. }
      rewrite Hex. reflexivity. }
  rewrite Hpass2. cbn [mbind result_bind]. rewrite federados_pct_of_spec.
  cbn [mbind result_bind]. eexists. split; [reflexivity |].
  cbn [datasets_federados_cant datasets_no_federados_cant datasets_federados_pct
       datasets_federados_eliminados_cant datasets_federados_eliminados fst snd].
  repeat split; try assumption.
  rewrite Hn', Nat.add_0_r.
  assert (Hf0 : f <> O) by (rewrite Hf'; destruct ds; [congruence | cbn; lia]).
  destruct (Nat.eqb_spec f 0) as [E | _]; [contradiction |].
  by apply whole_percentage.
Qed.

End ReconcilerShape.

Lemma reconciler_counts_witness :
  exists r,
    @federation_indicators sample_collaborators sample_local_catalog
      (Parsed sample_central_catalog) = Ok r /\
    (datasets_federados_cant r + datasets_no_federados_cant r)%nat = 2%nat /\
    (datasets_federados_eliminados_cant r <= 3)%nat.
Proof.
  eexists. split; [reflexivity |].
  destruct (@reconciler_counts sample_collaborators sample_local_catalog
              (Parsed sample_central_catalog) _ eq_refl)
    as (ll & cl & Hll & Hcl & Hsum & _ & _ & _ & Hle & _).
  injection Hll as <-. injection Hcl as <-. split; [exact Hsum | exact Hle].
Defined.

Lemma catalog_federated_with_itself_witness :
  exists r,
    @federation_indicators sample_collaborators sample_local_catalog
      (Parsed sample_local_catalog) = Ok r /\
    datasets_federados_cant r = 2%nat /\ datasets_federados_eliminados_cant r = O.
Proof.
  destruct (@catalog_federated_with_itself sample_collaborators sample_local_catalog
              [sample_dataset "Padron" "Ministerio"; sample_dataset "Presupuesto" "Ministerio"]
              eq_refl eq_refl) as (r & Hr & Hf & _ & He & _); [discriminate |].
  exists r. repeat split; assumption.
Defined.

(** * More on the freshness evaluator *)

Lemma hist_total_set (k : json) (n : nat) (h : histogram) :
  hist_total (hist_set k (hist_get k h + n) h) = (hist_total h + n)%nat.
Proof.
  unfold hist_total. induction h as [| [k' n'] h IH]; cbn [hist_set hist_get].
  - cbn. lia.
  - destruct (py_eq k k'); rewrite !total_cons; cbn [snd]; [lia |]. rewrite IH. lia.
Qed.

Lemma hist_add_total (k : json) (n : nat) (h h' : histogram) :
  hist_add k n h = Ok h' -> hist_total h' = (hist_total h + n)%nat.
Proof.
  unfold hist_add. destruct (py_hashable k); [| discriminate].
  intros [= <-]. apply hist_total_set.
Qed.

Section FreshnessShape.
Context `{Collaborators}.

Lemma days_from_last_update_not_today (catalog : json) (date_field : string)
    (r : option Z) :
  days_from_last_update catalog date_field = Ok r -> r <> Some 0.
Proof.
  unfold days_from_last_update. intros E. inv_bind E. injection E as <-.
  match goal with
  | |- (if days_truthy ?x then _ else _) <> _ => destruct x as [[| p | p] |]
  end; cbn; discriminate.
Qed.

(** X13: the catalog-level days since the last update are never 0: a
    catalog gets [None] or a number of days other than 0. *)
Theorem last_update_days_never_zero (catalog : json) (tolerance : Q) (d : date_indicators) :
  generate_date_indicators catalog tolerance = Ok d ->
  catalogo_ultima_actualizacion_dias d <> Some 0.
Proof.
  unfold generate_date_indicators. intros E.
  apply bind_Ok_inv in E as (dias & E1 & E).
  apply bind_Ok_inv in E as (dias' & E2 & E).
  assert (Hd : dias' <> Some 0).
  { destruct (days_truthy dias) eqn:Et; cbn [negb] in E2.
    - injection E2 as <-. by apply days_from_last_update_not_today in E1.
    - by apply days_from_last_update_not_today in E2. }
  inv_bind E.
  match goal with Hx : foldM _ _ _ = Ok ?st |- _ => destruct st as [[act desact] hist] end.
  inv_bind E. by injection E as <-.
Qed.

Lemma classify_dataset_step (tolerance : Q) (st st' : nat * nat * histogram) (x : json) :
  classify_dataset tolerance st x = Ok st' ->
  st' = st \/
  (((st'.1.1 = S st.1.1 /\ st'.1.2 = st.1.2) \/ (st'.1.1 = st.1.1 /\ st'.1.2 = S st.1.2)) /\
   hist_total st'.2 = S (hist_total st.2)).
Proof.
  destruct st as [[act desact] hist]. unfold classify_dataset. intros E.
  apply bind_Ok_inv in E as (periodicity & Ep & E).
  destruct (py_truthy periodicity); cbn [negb] in E; [| left; by injection E as <-].
  right. destruct (py_eq periodicity (JStr "eventual")).
  - apply bind_Ok_inv in E as (h' & Eh & E). injection E as <-.
    apply hist_add_total in Eh. cbn [fst snd]. rewrite Eh. split; [left; by split | lia].
  - apply bind_Ok_inv in E as (has_modified & Em & E).
    apply bind_Ok_inv in E as ([a b] & Ec & E).
    apply bind_Ok_inv in E as (h' & Eh & E). injection E as <-.
    apply hist_add_total in Eh. cbn [fst snd]. rewrite Eh. split; [| lia].
    destruct has_modified; cbn [negb] in Ec.
    + inv_bind Ec.
      match goal with
      | Hb : (if ?c then _ else _) = Ok (a, b) |- _ =>
          destruct c; injection Hb as <- <-; [left | right]; by split
      end.
    + injection Ec as <- <-. right. by split.
Qed.

(** X14: in any result of the freshness evaluator every dataset is counted
    at most once, as updated or as outdated, and the frequency histogram
    counts exactly the datasets that were counted. *)
Theorem freshness_counts (catalog : json) (tolerance : Q) (d : date_indicators) :
  generate_date_indicators catalog tolerance = Ok d ->
  exists datasets,
    (py_get_default catalog "dataset" (JList []) ≫= py_iter) = Ok datasets /\
    (datasets_actualizados_cant d + datasets_desactualizados_cant d <= length datasets)%nat /\
    hist_total (datasets_frecuencia_cant d) =
      (datasets_actualizados_cant d + datasets_desactualizados_cant d)%nat.
Proof.
  unfold generate_date_indicators. intros E.
  apply bind_Ok_inv in E as (dias & _ & E).
  apply bind_Ok_inv in E as (dias' & _ & E).
  apply bind_Ok_inv in E as (dsv & Edsv & E).
  apply bind_Ok_inv in E as (datasets & Eiter & E).
  apply bind_Ok_inv in E as ([[act desact] hist] & Eloop & E).
  inv_bind E. injection E as <-.
  exists datasets. rewrite Edsv. cbn [mbind result_bind]. split; [exact Eiter |].
  cbn [datasets_actualizados_cant datasets_desactualizados_cant datasets_frecuencia_cant].
  revert Eloop.
  refine (foldM_prefix_invariant _
            (fun p st => (st.1.1 + st.1.2 <= length p)%nat /\
                         hist_total st.2 = (st.1.1 + st.1.2)%nat)
            datasets (O, O, []) (act, desact, hist) _ _); [cbn; split; [lia | reflexivity] |].
  intros pre dataset st st' [I1 I2] Est. rewrite length_app. cbn [length].
  destruct (classify_dataset_step _ _ _ _ Est) as [-> | [[[-> ->] | [-> ->]] ->]];
    split; lia.
Qed.

Lemma days_from_last_update_returns (cd : list (string * json)) (ds : list json)
    (date_field : string) :
  catalog_datasets (JDict cd) = Some ds ->
  forallb is_dict ds = true ->
  catalog_date_parses date_field cd = true ->
  exists r, days_from_last_update (JDict cd) date_field = Ok r.
Proof.
  intros Hds Hdict Hparse.
  destruct (catalog_datasets_inv _ _ Hds) as (cd' & [= <-] & Hcd).
  unfold days_from_last_update.
  change (py_get_default (JDict cd) date_field JNull)
    with (Ok (dict_get date_field cd JNull)).
  change (py_get_default (JDict cd) "dataset" (JList []))
    with (Ok (dict_get "dataset" cd (JList []))).
  cbn [mbind result_bind]. unfold catalog_date_parses in Hparse.
  assert (Hfirst : exists own,
    (if is_string (dict_get date_field cd JNull)
     then d ← days_since (parse_date_string (dict_get date_field cd JNull)); Ok (Some d)
     else Ok None) = Ok own).
  { destruct (is_string _); [| eauto].
    destruct (parse_date_string _); [cbn; eauto | discriminate]. }
  destruct Hfirst as [own ->]. cbn [mbind result_bind]. rewrite Hcd.
  cbn [py_iter mbind result_bind].
  destruct (foldM_total
              (fun dias_ultima_actualizacion dataset =>
                 s ← py_get_default dataset date_field (JStr "");
                 let date := parse_date_string s in
                 let days_diff :=
                   match date with Some d => Some (today - d) | None => None end in
                 if (negb (days_truthy dias_ultima_actualizacion)
                     || (days_truthy days_diff
                         && match days_diff, dias_ultima_actualizacion with
                            | Some x, Some y => x <? y
                            | _, _ => false
                            end))%bool
                 then Ok days_diff
                 else Ok dias_ultima_actualizacion) ds) with (acc := own) as [r Er].
  - intros acc x Hx. rewrite forallb_forall in Hdict. specialize (Hdict x Hx).
    destruct x; try discriminate. cbn [py_get_default mbind result_bind].
    destruct (_ || _)%bool; eauto.
  - cbv zeta in Er |- *. rewrite Er. cbn. eauto.
Qed.

(** X15: a date of the catalog that is a string for which
    [parse_date_string] gives [None] is not taken as absent: the freshness
    evaluator raises [TypeError]. *)
Theorem unparseable_catalog_date_raises (cd : list (string * json)) (s : string)
    (tolerance : Q) :
  dict_lookup "modified" cd = Some (JStr s) ->
  parse_date_string (JStr s) = None ->
  generate_date_indicators (JDict cd) tolerance = Raise TypeError.
Proof.
  intros Hm Hp.
  assert (E : days_from_last_update (JDict cd) "modified" = Raise TypeError).
  { unfold days_from_last_update.
    change (py_get_default (JDict cd) "modified" JNull)
      with (Ok (dict_get "modified" cd JNull)).
    unfold dict_get. rewrite Hm. cbn [mbind result_bind is_string]. rewrite Hp.
    reflexivity. }
  unfold generate_date_indicators. rewrite E. reflexivity.
Qed.



Lemma classify_eventual (tolerance : Q) (x : json) (act desact : nat) (hist : histogram) :
  is_eventual x = true ->
  classify_dataset tolerance (act, desact, hist) x =
    Ok (S act, desact, hist_set (JStr "eventual") (hist_get (JStr "eventual") hist + 1) hist).
Proof.
  destruct x as [| | | | | | d]; try discriminate. cbn [is_eventual]. intros He.
  unfold classify_dataset. cbn [py_get py_get_default mbind result_bind].
  destruct (dict_get "accrualPeriodicity" d JNull) as [| | | | s | |]; try discriminate.
  cbn in He. apply String.eqb_eq in He as ->. reflexivity.
Qed.


Lemma tally_loop (tolerance : Q) (ds : list json) (good : json -> bool)
    (up : bool) :
  (forall x act desact hist, good x = true ->
     exists hist',
       classify_dataset tolerance (act, desact, hist) x =
         Ok (if up then (S act, desact, hist') else (act, S desact, hist'))) ->
  forallb good ds = true ->
  forall act desact hist,
  exists hist',
    foldM (classify_dataset tolerance) ds (act, desact, hist) =
      Ok (if up then ((act + length ds)%nat, desact, hist')
          else (act, (desact + length ds)%nat, hist')).
Proof.
  intros Hstep. induction ds as [| x ds IH]; intros Hgood act desact hist.
  - exists hist. cbn. rewrite !Nat.add_0_r. by destruct up.
  - cbn [forallb] in Hgood. apply andb_prop in Hgood as [Hx Hds].
    destruct (Hstep x act desact hist Hx) as [h1 E1]. cbn [foldM]. rewrite E1.
    destruct up.
    + destruct (IH Hds (S act) desact h1) as [h' ->]. exists h'.
      cbn [length]. by replace (S act + length ds)%nat with (act + S (length ds))%nat by lia.
    + destruct (IH Hds act (S desact) h1) as [h' ->]. exists h'.
      cbn [length].
      by replace (S desact + length ds)%nat with (desact + S (length ds))%nat by lia.
Qed.

Lemma rounded_whole_share (n : nat) :
  n <> O -> Qred (100 * py_round (Qred (float n / float n)) 2) = 100%Q.
Proof.
  intros Hn.
  assert (E : Qred (float n / float n) = Qred 1).
  { apply Qred_complete. field. intros E. unfold float, Qeq in E. cbn in E. lia. }
  rewrite E. reflexivity.
Qed.

(** X17: datasets whose periodicity is ['eventual'] count as updated however
    old their dates are.  On a catalog whose dates, its own and those of its
    datasets, are absent or dates that [parse_date_string] reads, and whose
    datasets all have that periodicity, all of them are updated, none is
    outdated and the percentage is 100. *)
Theorem eventual_datasets_are_updated (cd : list (string * json)) (ds : list json)
    (tolerance : Q) :
  catalog_datasets (JDict cd) = Some ds ->
  forallb is_eventual ds = true ->
  forallb dataset_dates_parse ds = true ->
  ds <> [] ->
  catalog_date_parses "modified" cd = true ->
  catalog_date_parses "issued" cd = true ->
  exists d,
    generate_date_indicators (JDict cd) tolerance = Ok d /\
    datasets_actualizados_cant d = length ds /\
    datasets_desactualizados_cant d = O /\
    datasets_actualizados_pct d = 100%Q.
Proof.
  intros Hds Hev _ Hne Hpm Hpi.
  assert (Hdict : forallb is_dict ds = true).
  { eapply forallb_impl; [| exact Hev]. by intros []. }
  destruct (days_from_last_update_returns cd _ "modified" Hds Hdict Hpm) as [r1 E1].
  destruct (days_from_last_update_returns cd _ "issued" Hds Hdict Hpi) as [r2 E2].
  destruct (catalog_datasets_inv _ _ Hds) as (cd' & [= <-] & Hcd).
  unfold generate_date_indicators. rewrite E1. cbn [mbind result_bind]. rewrite E2.
  assert (Hdias : exists r, (if negb (days_truthy r1) then Ok r2 else Ok r1) = Ok r)
    by (destruct (negb _); eauto).
  destruct Hdias as [r ->]. cbn [mbind result_bind py_get_default]. rewrite Hcd.
  cbn [mbind result_bind py_iter py_len].
  assert (Hstep : forall x a b h, is_eventual x = true ->
            exists h', classify_dataset tolerance (a, b, h) x = Ok (S a, b, h')).
  { intros x a b h Hx. rewrite (classify_eventual tolerance x a b h Hx). eauto. }
  destruct (tally_loop tolerance ds is_eventual true Hstep Hev O O []) as [h' Eloop].
  match goal with
  | |- context [foldM ?f ?l ?a] =>
      match type of Eloop with
      | _ = ?r => assert (Eloop' : foldM f l a = r) by exact Eloop; rewrite Eloop'
      end
  end.
  cbn [mbind result_bind Nat.add]. rewrite guarded_division_one.
  cbn [mbind result_bind]. eexists. split; [reflexivity |]. cbn.
  repeat split.
  assert (Hlen : length ds <> O) by (destruct ds; [congruence | discriminate]).
  destruct (Nat.eqb_spec (length ds) 0) as [E | _]; [contradiction |].
  by apply rounded_whole_share.
Qed.


End FreshnessShape.

Lemma last_update_days_never_zero_witness :
  exists d,
    @generate_date_indicators sample_collaborators sample_catalog_updated_today
      default_tolerance = Ok d /\
    catalogo_ultima_actualizacion_dias d <> Some 0.
Proof.
  eexists. split; [reflexivity |].
  apply (@last_update_days_never_zero sample_collaborators sample_catalog_updated_today
           default_tolerance). reflexivity.
Defined.

Lemma freshness_counts_witness :
  exists d,
    @generate_date_indicators sample_collaborators sample_catalog_one_of_three
      default_tolerance = Ok d /\
    hist_total (datasets_frecuencia_cant d) =
      (datasets_actualizados_cant d + datasets_desactualizados_cant d)%nat.
Proof.
  eexists. split; [reflexivity |].
  destruct (@freshness_counts sample_collaborators sample_catalog_one_of_three
              default_tolerance _ eq_refl) as (l & _ & _ & Hh).
  exact Hh.
Defined.

Lemma unparseable_catalog_date_raises_witness :
  @generate_date_indicators sample_collaborators (JDict sample_catalog_bad_date)
    default_tolerance = Raise TypeError.
Proof.
  apply (@unparseable_catalog_date_raises sample_collaborators sample_catalog_bad_date
           "" default_tolerance); reflexivity.
Defined.


Lemma eventual_datasets_are_updated_witness :
  exists d,
    @generate_date_indicators sample_collaborators sample_catalog_all_eventual
      default_tolerance = Ok d /\
    datasets_actualizados_cant d = 2%nat /\ datasets_actualizados_pct d = 100%Q.
Proof.
  destruct (@eventual_datasets_are_updated sample_collaborators
              [("dataset",
                JList [JDict [("title", JStr "a"); ("accrualPeriodicity", JStr "eventual")];
                       JDict [("title", JStr "b"); ("accrualPeriodicity", JStr "eventual");
                              ("modified", JStr "2026-09-25")]])]
              _ default_tolerance eq_refl eq_refl eq_refl) as (d & Hd & Ha & _ & Hp);
    [discriminate | reflexivity | reflexivity |].
  exists d. repeat split; assumption.
Defined.



(** * The formats of the distributions *)

Lemma foldM_app {A B : Type} (f : B -> A -> result B) (l l' : list A) (acc : B) :
  foldM f (l ++ l')%list acc = foldM f l acc ≫= foldM f l'.
Proof.
  revert acc. induction l as [| x l IH]; intros acc; cbn [foldM app]; [reflexivity |].
  destruct (f acc x); cbn [mbind result_bind]; [apply IH | reflexivity].
Qed.

Lemma total_ext_in {A : Type} (f g : A -> nat) (l : list A) :
  (forall x, In x l -> f x = g x) -> total f l = total g l.
Proof.
  induction l as [| x l IH]; intros Hfg; [reflexivity |].
  rewrite !total_cons, Hfg, IH; [reflexivity | | by left].
  intros y Hy. apply Hfg. by right.
Qed.

Lemma hist_set_keys (P : json -> bool) (k : json) (n : nat) (h : histogram) :
  forallb (fun kn => P (fst kn)) h = true -> P k = true ->
  forallb (fun kn => P (fst kn)) (hist_set k n h) = true.
Proof.
  intros Hh Hk. induction h as [| [k' n'] h IH]; cbn [hist_set forallb fst].
  - by rewrite Hk.
  - cbn [forallb fst] in Hh. apply andb_prop in Hh as [Hk' Hh].
    destruct (py_eq k k'); cbn [forallb fst]; rewrite Hk'; [exact Hh | by apply IH].
Qed.

Lemma hist_set_separated (k : json) (n : nat) (h : histogram) :
  separated h = true -> separated (hist_set k n h) = true.
Proof.
  induction h as [| [k' n'] h IH]; cbn [hist_set separated]; [reflexivity |].
  intros [Hk' Hh]%andb_prop. destruct (py_eq k k') eqn:E; cbn [separated].
  - by rewrite Hk', Hh.
  - rewrite (IH Hh), andb_true_r.
    apply (hist_set_keys (fun k0 => negb (py_eq k0 k'))); [exact Hk' | by rewrite E].
Qed.

Lemma hist_add_separated (k : json) (n : nat) (h h' : histogram) :
  hist_add k n h = Ok h' -> separated h = true -> separated h' = true.
Proof.
  unfold hist_add. destruct (py_hashable k); [| discriminate].
  intros [= <-]. apply hist_set_separated.
Qed.

(** The counts found under the keys of a histogram add up to its total. *)
Lemma separated_total (h : histogram) :
  separated h = true -> total (fun k => hist_get k h) (fst <$> h) = hist_total h.
Proof.
  unfold hist_total. induction h as [| [k n] h IH]; [reflexivity |].
  cbn [separated]. intros [Hk Hh]%andb_prop.
  cbn [fmap list_fmap fst]. rewrite !total_cons. cbn [hist_get snd].
  rewrite py_eq_refl. f_equal. rewrite <- (IH Hh).
  apply total_ext_in. intros k' Hk'.
  apply in_map_iff in Hk' as ([k'' n''] & <- & Hin).
  rewrite forallb_forall in Hk. specialize (Hk _ Hin). cbn [fst] in Hk |- *.
  apply negb_true_iff in Hk. by rewrite Hk.
Qed.

Lemma merge_total (g : json -> nat) (ks : list json) (cf cf' : histogram) :
  foldM (fun catalog_formats distribution_format =>
           hist_add distribution_format (g distribution_format) catalog_formats) ks cf
    = Ok cf' ->
  hist_total cf' = (hist_total cf + total g ks)%nat.
Proof.
  revert cf. induction ks as [| k ks IH]; intros cf; cbn [foldM].
  - intros [= <-]. cbn. lia.
  - destruct (hist_add k (g k) cf) as [cf1 |] eqn:E; [| discriminate].
    intros Hrest. rewrite (IH _ Hrest), (hist_add_total _ _ _ _ E), total_cons. lia.
Qed.

Lemma dataset_formats_total (dataset : json) (df : histogram) :
  count_distribution_formats_dataset dataset = Ok df ->
  separated df = true /\
  hist_total df = length (List.filter has_format (iterated_distributions dataset)).
Proof.
  unfold count_distribution_formats_dataset, iterated_distributions. intros E.
  apply bind_Ok_inv in E as (dv & Edv & E).
  apply bind_Ok_inv in E as (dists & Eiter & E).
  rewrite Edv. cbn [mbind result_bind]. rewrite Eiter.
  revert E.
  refine (foldM_prefix_invariant _
            (fun p h => separated h = true /\
                        hist_total h = length (List.filter has_format p))
            dists [] df _ _); [by split |].
  intros pre dist h h' [Hsep Htot] Estep.
  rewrite List.filter_app, length_app. cbn [List.filter]. unfold has_format at 2.
  apply bind_Ok_inv in Estep as (f & Ef & Estep). rewrite Ef.
  destruct (py_truthy f).
  - split; [by eapply hist_add_separated |].
    rewrite (hist_add_total _ _ _ _ Estep), Htot. reflexivity.
  - injection Estep as <-. split; [exact Hsep |]. cbn [length]. lia.
Qed.

(** X20: in any result of the format counter the counts add up to the number
    of distributions of the catalog that have a format: each of them is
    counted exactly once. *)
Theorem formats_counted_once (catalog : json) (h : histogram) :
  count_distribution_formats catalog = Ok h ->
  exists datasets,
    (py_get_default catalog "dataset" (JList []) ≫= py_iter) = Ok datasets /\
    hist_total h =
      total (fun dataset =>
               length (List.filter has_format (iterated_distributions dataset))) datasets.
Proof.
  unfold count_distribution_formats. intros E.
  apply bind_Ok_inv in E as (dsv & Edsv & E).
  apply bind_Ok_inv in E as (datasets & Eiter & E).
  exists datasets. rewrite Edsv. cbn [mbind result_bind]. split; [exact Eiter |].
  revert E.
  refine (foldM_prefix_invariant _
            (fun p h =>
               hist_total h =
                 total (fun dataset =>
                          length (List.filter has_format (iterated_distributions dataset))) p)
            datasets [] h _ _); [reflexivity |].
  intros pre dataset cf cf' Hcf Estep.
  apply bind_Ok_inv in Estep as (df & Edf & Estep).
  destruct (dataset_formats_total _ _ Edf) as [Hsep Htot].
  rewrite (merge_total (fun k => hist_get k df) _ _ _ Estep), total_app, total_cons.
  rewrite (separated_total _ Hsep), Htot, Hcf. cbn. lia.
Qed.

Lemma hist_get_set_text (s t : string) (n : nat) (h : histogram) :
  string_keys h = true ->
  hist_get (JStr s) (hist_set (JStr t) (hist_get (JStr t) h + n) h) =
    (hist_get (JStr s) h + if String.eqb s t then n else O)%nat.
Proof.
  unfold string_keys. induction h as [| [k m] h IH]; intros Hh.
  - cbn. reflexivity.
  - cbn [forallb fst] in Hh. apply andb_prop in Hh as [Hk Hh].
    destruct k as [| | | | u | |]; try discriminate.
    cbn [hist_get hist_set py_eq].
    destruct (String.eqb_spec t u) as [-> | Htu]; cbn [hist_get py_eq].
    + destruct (String.eqb s u); lia.
    + destruct (String.eqb_spec s u) as [-> | Hsu].
      * destruct (String.eqb_spec u t) as [-> | _]; [contradiction | lia].
      * by apply IH.
Qed.

Lemma hist_get_absent (s : string) (h : histogram) :
  forallb (fun kn => negb (py_eq (fst kn) (JStr s))) h = true ->
  string_keys h = true ->
  hist_get (JStr s) h = O.
Proof.
  unfold string_keys. induction h as [| [k m] h IH]; [reflexivity |].
  cbn [forallb fst]. intros [Hk Hh]%andb_prop [Hs Hstr]%andb_prop.
  destruct k as [| | | | u | |]; try discriminate.
  cbn [hist_get py_eq] in Hk |- *. rewrite String.eqb_sym.
  apply negb_true_iff in Hk. rewrite Hk. by apply IH.
Qed.

(** Looking one format up under every key of a histogram finds it once. *)
Lemma separated_lookup (s : string) (h : histogram) :
  separated h = true -> string_keys h = true ->
  total (fun k => if py_eq (JStr s) k then hist_get k h else O) (fst <$> h) =
    hist_get (JStr s) h.
Proof.
  unfold string_keys. induction h as [| [k n] h IH]; [reflexivity |].
  cbn [separated forallb fst]. intros [Hk Hh]%andb_prop [Hs Hstr]%andb_prop.
  cbn [fmap list_fmap fst]. rewrite total_cons.
  assert (Hrest :
    total (fun k' => if py_eq (JStr s) k' then hist_get k' ((k, n) :: h) else O) (fst <$> h)
    = total (fun k' => if py_eq (JStr s) k' then hist_get k' h else O) (fst <$> h)).
  { apply total_ext_in. intros k' Hk'.
    apply in_map_iff in Hk' as ([k'' n''] & <- & Hin).
    rewrite forallb_forall in Hk. specialize (Hk _ Hin). cbn [fst] in Hk |- *.
    apply negb_true_iff in Hk. cbn [hist_get]. by rewrite Hk. }
  rewrite Hrest, (IH Hh Hstr). cbn [hist_get]. rewrite py_eq_refl.
  destruct k as [| | | | u | |]; try discriminate. cbn [py_eq].
  destruct (String.eqb_spec s u) as [-> | _]; [| reflexivity].
  rewrite (hist_get_absent u h Hk Hstr). lia.
Qed.

Lemma text_formats_dataset (dataset : json) :
  text_formats dataset = true ->
  exists df,
    count_distribution_formats_dataset dataset = Ok df /\
    separated df = true /\ string_keys df = true /\
    forall s, hist_get (JStr s) df =
              length (List.filter (format_is s) (iterated_distributions dataset)).
Proof.
  destruct dataset as [| | | | | | d]; try discriminate. cbn [text_formats].
  unfold count_distribution_formats_dataset, iterated_distributions.
  cbn [py_getitem].
  destruct (dict_lookup "distribution" d) as [[| | | | | dists |] |]; try discriminate.
  cbn [mbind result_bind py_iter]. intros Hdists.
  assert (G : forall h,
    separated h = true -> string_keys h = true ->
    exists df,
      foldM (fun formats distribution =>
               distribution_format ← py_get_default distribution "format" JNull;
               if py_truthy distribution_format
               then hist_add distribution_format 1 formats
               else Ok formats) dists h = Ok df /\
      separated df = true /\ string_keys df = true /\
      forall s, hist_get (JStr s) df =
                (hist_get (JStr s) h + length (List.filter (format_is s) dists))%nat).
  { induction dists as [| dist dists IH]; intros h Hsep Hstr.
    - exists h. cbn. repeat split; try assumption. intros s. lia.
    - cbn [forallb] in Hdists. apply andb_prop in Hdists as [Hdist Hdists].
      destruct dist as [| | | | | | dd]; try discriminate.
      cbn [text_format] in Hdist. cbn [foldM py_get_default mbind result_bind].
      cbn [List.filter format_is].
      destruct (py_truthy (dict_get "format" dd JNull)) eqn:Et.
      + rewrite orb_false_r in Hdist.
        destruct (dict_get "format" dd JNull) as [| | | | t | |]; try discriminate.
        unfold hist_add. cbn [py_hashable mbind result_bind].
        destruct (IH Hdists (hist_set (JStr t) (hist_get (JStr t) h + 1) h))
          as (df & Edf & Hsep' & Hstr' & Hget).
        * by apply hist_set_separated.
        * by apply (hist_set_keys is_string).
        * exists df. repeat split; try assumption. intros s.
          rewrite Hget, (hist_get_set_text s t 1 h Hstr). cbn [andb py_eq].
          rewrite (String.eqb_sym t s).
          destruct (String.eqb s t); cbn [length]; lia.
      + destruct (IH Hdists h Hsep Hstr) as (df & Edf & Hsep' & Hstr' & Hget).
        exists df. repeat split; try assumption. }
  destruct (G [] eq_refl eq_refl) as (df & Edf & Hsep & Hstr & Hget).
  exists df. repeat split; try assumption.
Qed.

Lemma merge_text (df : histogram) (ks : list json) (cf : histogram) :
  forallb is_string ks = true -> string_keys cf = true ->
  exists cf',
    foldM (fun catalog_formats distribution_format =>
             hist_add distribution_format (hist_get distribution_format df) catalog_formats)
          ks cf = Ok cf' /\
    string_keys cf' = true /\
    forall s, hist_get (JStr s) cf' =
              (hist_get (JStr s) cf
               + total (fun k => if py_eq (JStr s) k then hist_get k df else O) ks)%nat.
Proof.
  revert cf. induction ks as [| k ks IH]; intros cf Hks Hcf.
  - exists cf. cbn. repeat split; try assumption. intros s. lia.
  - cbn [forallb] in Hks. apply andb_prop in Hks as [Hk Hks].
    destruct k as [| | | | t | |]; try discriminate.
    cbn [foldM]. unfold hist_add at 1. cbn [py_hashable mbind result_bind].
    destruct (IH (hist_set (JStr t) (hist_get (JStr t) cf + hist_get (JStr t) df) cf) Hks)
      as (cf' & Ecf' & Hstr & Hget).
    { by apply (hist_set_keys is_string). }
    exists cf'. repeat split; try assumption. intros s.
    rewrite Hget, (hist_get_set_text s t _ cf Hcf), total_cons. cbn [py_eq]. lia.
Qed.

Lemma string_keys_fst (h : histogram) :
  string_keys h = true -> forallb is_string (fst <$> h) = true.
Proof.
  unfold string_keys. induction h as [| [k n] h IH]; [reflexivity |].
  cbn [forallb fmap list_fmap fst]. intros [-> Hh]%andb_prop. by apply IH.
Qed.

Lemma formats_loop (datasets : list json) :
  forallb text_formats datasets = true ->
  forall cf, string_keys cf = true ->
  exists cf',
    foldM (fun catalog_formats dataset =>
             dataset_formats ← count_distribution_formats_dataset dataset;
             foldM (fun catalog_formats distribution_format =>
                      hist_add distribution_format
                        (hist_get distribution_format dataset_formats) catalog_formats)
                   (fst <$> dataset_formats) catalog_formats)
          datasets cf = Ok cf' /\
    string_keys cf' = true /\
    forall s, hist_get (JStr s) cf' =
              (hist_get (JStr s) cf
               + total (fun dataset =>
                          length (List.filter (format_is s) (iterated_distributions dataset)))
                       datasets)%nat.
Proof.
  induction datasets as [| dataset datasets IH]; intros Hall cf Hcf.
  - exists cf. cbn. repeat split; try assumption. intros s. lia.
  - cbn [forallb] in Hall. apply andb_prop in Hall as [Hd Hall].
    destruct (text_formats_dataset dataset Hd) as (df & Edf & Hsep & Hstr & Hdf).
    cbn [foldM]. rewrite Edf. cbn [mbind result_bind].
    destruct (merge_text df (fst <$> df) cf (string_keys_fst _ Hstr) Hcf)
      as (cf1 & Ecf1 & Hstr1 & Hget1).
    rewrite Ecf1.
    destruct (IH Hall cf1 Hstr1) as (cf' & Ecf' & Hstr' & Hget').
    exists cf'. repeat split; try assumption. intros s.
    rewrite Hget', Hget1, (separated_lookup s df Hsep Hstr), Hdf, total_cons. lia.
Qed.

(** X21: on a catalog whose datasets have a list of distributions with
    formats that are strings (or absent), the format counter returns, and
    each format is mapped to the number of distributions of the catalog that
    have it. *)
Theorem format_histogram (catalog : json) (datasets : list json) (s : string) :
  catalog_datasets catalog = Some datasets ->
  forallb text_formats datasets = true ->
  exists h,
    count_distribution_formats catalog = Ok h /\
    hist_get (JStr s) h =
      total (fun dataset =>
               length (List.filter (format_is s) (iterated_distributions dataset))) datasets.
Proof.
  intros Hds Hall.
  destruct (catalog_datasets_inv _ _ Hds) as (cd & -> & Hcd).
  unfold count_distribution_formats. cbn [py_get_default mbind result_bind].
  rewrite Hcd. cbn [py_iter mbind result_bind].
  destruct (formats_loop datasets Hall [] eq_refl) as (h & Eh & _ & Hget).
  exists h. split; [exact Eh |]. by rewrite Hget.
Qed.

(** X22: ['distribution'] is not optional for the format counter: a dataset
    without it, after datasets that can be counted, ends the count in a
    [KeyError]. *)
Theorem missing_distribution_KeyError (cd d : list (string * json))
    (pre post : list json) :
  catalog_datasets (JDict cd) = Some (pre ++ JDict d :: post)%list ->
  forallb text_formats pre = true ->
  dict_lookup "distribution" d = None ->
  count_distribution_formats (JDict cd) = Raise KeyError.
Proof.
  intros Hds Hpre Hd.
  destruct (catalog_datasets_inv _ _ Hds) as (cd' & [= <-] & Hcd).
  unfold count_distribution_formats. cbn [py_get_default mbind result_bind].
  rewrite Hcd. cbn [py_iter mbind result_bind]. rewrite foldM_app.
  destruct (formats_loop pre Hpre [] eq_refl) as (h & Eh & _ & _).
  rewrite Eh. cbn [mbind result_bind foldM].
  unfold count_distribution_formats_dataset at 1. cbn [py_getitem]. rewrite Hd.
  reflexivity.
Qed.

Lemma formats_counted_once_witness :
  exists h,
    count_distribution_formats sample_catalog_formats = Ok h /\ hist_total h = 3%nat.
Proof.
  eexists. split; [reflexivity |].
  destruct (formats_counted_once sample_catalog_formats _ eq_refl) as (datasets & E & ->).
  injection E as <-. reflexivity.
Defined.

Lemma format_histogram_witness :
  exists h,
    count_distribution_formats sample_catalog_formats = Ok h /\
    hist_get (JStr "CSV") h = 2%nat.
Proof.
  destruct (format_histogram sample_catalog_formats _ "CSV" eq_refl eq_refl)
    as (h & Eh & Hget).
  exists h. split; [exact Eh | exact Hget].
Defined.

Lemma missing_distribution_KeyError_witness :
  count_distribution_formats (JDict sample_catalog_no_distribution) = Raise KeyError.
Proof.
  apply (missing_distribution_KeyError sample_catalog_no_distribution
           [("title", JStr "sin distribuciones")]
           [JDict [("distribution", JList [JDict [("format", JStr "CSV")]])]] []);
    reflexivity.
Defined.

(** * More on the matcher *)

Lemma extends_refl (st : bool * list diff_entry) : extends st st.
Proof. exists []. by rewrite app_nil_r, andb_true_r. Qed.

Lemma extends_trans (st st' st'' : bool * list diff_entry) :
  extends st st' -> extends st' st'' -> extends st st''.
Proof.
  intros (e1 & H1 & F1) (e2 & H2 & F2). exists (e1 ++ e2)%list.
  rewrite H2, H1, F2, F1, <- app_assoc. split; [reflexivity |].
  destruct e1, e2; cbn; by rewrite ?andb_true_r, ?andb_false_r.
Qed.

Lemma extends_entry (st : bool * list diff_entry) (e : diff_entry) :
  extends st (false, (snd st ++ [e])%list).
Proof. exists [e]. cbn. by rewrite andb_false_r. Qed.

Lemma compare_dataset_fields_loop (dataset other : json) (fields_dataset : list field)
    (st0 st : bool * list diff_entry) :
  foldM (fun st field_dataset =>
           value ← field_value dataset field_dataset;
           other_value ← field_value other field_dataset;
           if negb (py_eq value other_value)
           then Ok (false, (snd st ++ [DiffEntry (AtDataset field_dataset) value other_value])%list)
           else Ok st)
        fields_dataset st0 = Ok st ->
  extends st0 st /\
  (forallb differs (snd st0) = true -> forallb differs (snd st) = true).
Proof.
  intros E.
  refine (foldM_invariant _
            (fun st => extends st0 st /\
                       (forallb differs (snd st0) = true -> forallb differs (snd st) = true))
            fields_dataset _ st0 st _ E).
  - intros acc f acc' _ [Hext Hdiff] Estep.
    apply bind_Ok_inv in Estep as (v & _ & Estep).
    apply bind_Ok_inv in Estep as (v' & _ & Estep).
    destruct (negb (py_eq v v')) eqn:Hv; injection Estep as <-; [| by split].
    split; [eapply extends_trans; [exact Hext | apply extends_entry] |].
    intros H0. cbn [snd]. rewrite forallb_app, (Hdiff H0). cbn. unfold differs. cbn.
    by rewrite Hv.
  - split; [apply extends_refl | done].
Qed.

Lemma compare_distributions_loop (pairs : list (json * json))
    (fields_distribution : list field) (dataset_diff : list diff_entry)
    (st : bool * list diff_entry) :
  compare_distributions pairs fields_distribution dataset_diff = Ok st ->
  extends (true, dataset_diff) st /\
  (forallb differs dataset_diff = true -> forallb differs (snd st) = true).
Proof.
  unfold compare_distributions. intros E.
  refine (foldM_invariant _
            (fun st => extends (true, dataset_diff) st /\
                       (forallb differs dataset_diff = true ->
                        forallb differs (snd st) = true))
            pairs _ (true, dataset_diff) st _ E).
  - intros acc pair acc' _ Hacc Epair. revert Hacc.
    refine (foldM_invariant _
              (fun st' => (extends (true, dataset_diff) acc /\
                           (forallb differs dataset_diff = true ->
                            forallb differs (snd acc) = true)) ->
                          extends (true, dataset_diff) st' /\
                          (forallb differs dataset_diff = true ->
                           forallb differs (snd st') = true))
              fields_distribution _ acc acc' _ Epair); [| done].
    intros a f a' _ Ha Estep Hacc. specialize (Ha Hacc) as [Hext Hdiff].
    apply bind_Ok_inv in Estep as (v & _ & Estep).
    apply bind_Ok_inv in Estep as (v' & _ & Estep).
    destruct (negb (py_eq v v')) eqn:Hv; [| injection Estep as <-; by split].
    apply bind_Ok_inv in Estep as (title & _ & Estep). injection Estep as <-.
    split; [eapply extends_trans; [exact Hext | apply extends_entry] |].
    intros H0. cbn [snd]. rewrite forallb_app, (Hdiff H0). cbn. unfold differs. cbn.
    by rewrite Hv.
  - split; [apply extends_refl | done].
Qed.

(** The state the two kinds of call of [datasets_equal] share. *)
Lemma datasets_equal_state (dataset other : json)
    (fields_dataset fields_distribution : option (list field))
    (return_diff : bool) (r : equal_result) :
  datasets_equal dataset other fields_dataset fields_distribution return_diff = Ok r ->
  exists st : bool * list diff_entry,
    (forall return_diff',
       datasets_equal dataset other fields_dataset fields_distribution return_diff' =
         Ok (if return_diff' then Diff (snd st) else IsEqual (fst st))) /\
    fst st = is_nil (snd st)
             && same_distribution_count dataset other fields_distribution /\
    forallb differs (snd st) = true.
Proof.
  unfold datasets_equal. intros E.
  apply bind_Ok_inv in E as (st1 & E1 & E).
  apply bind_Ok_inv in E as (st2 & E2 & _).
  exists st2. rewrite E1. cbn [mbind result_bind]. rewrite E2.
  split; [reflexivity |].
  apply compare_dataset_fields_loop in E1 as [(x1 & Hx1 & Hf1) Hd1].
  cbn [fst snd app andb] in Hx1, Hf1. specialize (Hd1 eq_refl).
  assert (Hplain : Ok st1 = Ok st2 ->
            fst st2 = is_nil (snd st2) && true /\ forallb differs (snd st2) = true).
  { intros [= <-]. split; [by rewrite Hf1, Hx1, andb_true_r | exact Hd1]. }
  destruct fields_distribution as [[| fd fds] |];
    [ destruct (Hplain E2); by split
    | | destruct (Hplain E2); by split ].
  clear Hplain. cbn [same_distribution_count].
  apply bind_Ok_inv in E2 as (dd & Edd & E2).
  apply bind_Ok_inv in E2 as (od & Eod & E2).
  apply bind_Ok_inv in E2 as (n & En & E2).
  apply bind_Ok_inv in E2 as (m & Em & E2).
  apply bind_Ok_inv in E2 as (l & El & E2).
  apply bind_Ok_inv in E2 as (l' & El' & E2).
  apply bind_Ok_inv in E2 as (ds & Eds & E2).
  injection E2 as <-.
  rewrite Edd, Eod. cbn [mbind result_bind]. rewrite En, Em.
  apply compare_distributions_loop in Eds as [(x2 & Hx2 & Hf2) Hd2].
  cbn [fst snd andb] in Hx2, Hf2 |- *. split; [| by apply Hd2].
  rewrite Hf2, Hf1, Hx2, Hx1.
  destruct x1, x2, (Nat.eqb n m); reflexivity.
Qed.

(** X23: whatever the fields compared, the answer of [datasets_equal] is
    [True] exactly when its diff is empty and, where distribution fields
    are compared, both datasets have the same number of distributions. *)
Theorem answer_agrees_with_diff (dataset other : json)
    (fields_dataset fields_distribution : option (list field)) (answer : bool) :
  datasets_equal dataset other fields_dataset fields_distribution false =
    Ok (IsEqual answer) ->
  exists diff,
    datasets_equal dataset other fields_dataset fields_distribution true = Ok (Diff diff) /\
    answer = is_nil diff && same_distribution_count dataset other fields_distribution.
Proof.
  intros E. destruct (datasets_equal_state _ _ _ _ _ _ E) as (st & Hcalls & Hst & _).
  rewrite (Hcalls false) in E. injection E as <-.
  exists (snd st). split; [apply (Hcalls true) | exact Hst].
Qed.

(** X24: every entry of the diff is a real difference: its two values are
    not equal. *)
Theorem diff_entries_differ (dataset other : json)
    (fields_dataset fields_distribution : option (list field)) (diff : list diff_entry) :
  datasets_equal dataset other fields_dataset fields_distribution true = Ok (Diff diff) ->
  forallb differs diff = true.
Proof.
  intros E. destruct (datasets_equal_state _ _ _ _ _ _ E) as (st & Hcalls & _ & Hst).
  rewrite (Hcalls true) in E. by injection E as <-.
Qed.

Lemma field_value_dict (d : list (string * json)) (f : field) :
  exists v, field_value (JDict d) f = Ok v.
Proof. destruct f; cbn; eauto. Qed.

Lemma compare_fields_same (d : list (string * json)) (fields_dataset : list field)
    (st : bool * list diff_entry) :
  foldM (fun st field_dataset =>
           value ← field_value (JDict d) field_dataset;
           other_value ← field_value (JDict d) field_dataset;
           if negb (py_eq value other_value)
           then Ok (false, (snd st ++ [DiffEntry (AtDataset field_dataset) value other_value])%list)
           else Ok st)
        fields_dataset st = Ok st.
Proof.
  induction fields_dataset as [| f fs IH]; cbn [foldM]; [reflexivity |].
  destruct (field_value_dict d f) as [v ->]. cbn [mbind result_bind].
  by rewrite py_eq_refl.
Qed.

Lemma compare_distribution_same (x : json) (fields_distribution : list field)
    (st : bool * list diff_entry) :
  is_dict x = true ->
  foldM (fun st field_distribution =>
           value ← field_value x field_distribution;
           other_value ← field_value x field_distribution;
           if negb (py_eq value other_value)
           then title ← py_get x "title";
                Ok (false, (snd st ++
                      [DiffEntry (AtDistribution field_distribution title)
                                 value other_value])%list)
           else Ok st)
        fields_distribution st = Ok st.
Proof.
  destruct x as [| | | | | | d]; try discriminate. intros _.
  induction fields_distribution as [| f fs IH]; cbn [foldM]; [reflexivity |].
  destruct (field_value_dict d f) as [v ->]. cbn [mbind result_bind].
  by rewrite py_eq_refl.
Qed.

Lemma compare_distributions_same (l : list json) (fields_distribution : list field)
    (st : bool * list diff_entry) :
  forallb is_dict l = true ->
  foldM (fun st pair =>
           foldM (fun st field_distribution =>
                    value ← field_value (fst pair) field_distribution;
                    other_value ← field_value (snd pair) field_distribution;
                    if negb (py_eq value other_value)
                    then title ← py_get (fst pair) "title";
                         Ok (false, (snd st ++
                               [DiffEntry (AtDistribution field_distribution title)
                                          value other_value])%list)
                    else Ok st)
                 fields_distribution st)
        (zip l l) st = Ok st.
Proof.
  induction l as [| x l IH]; [reflexivity |].
  cbn [forallb]. intros [Hx Hl]%andb_prop.
  change (zip (x :: l) (x :: l)) with ((x, x) :: zip l l). cbn [foldM fst snd].
  rewrite (compare_distribution_same x fields_distribution st Hx).
  cbn [mbind result_bind]. by apply IH.
Qed.

(** X25: a dataset matches itself, with an empty diff, whatever the fields
    compared; where distribution fields are compared its distributions have
    to be a list of mappings. *)
Theorem dataset_equals_itself (d : list (string * json))
    (fields_dataset fields_distribution : option (list field)) (return_diff : bool) :
  distributions_comparable d fields_distribution = true ->
  datasets_equal (JDict d) (JDict d) fields_dataset fields_distribution return_diff =
    Ok (if return_diff then Diff [] else IsEqual true).
Proof.
  intros Hc. unfold datasets_equal, compare_dataset_fields.
  rewrite compare_fields_same. cbn [mbind result_bind].
  destruct fields_distribution as [[| fd fds] |]; [reflexivity | | reflexivity].
  cbn [distributions_comparable] in Hc. cbn [py_get py_get_default].
  unfold dict_get.
  destruct (dict_lookup "distribution" d) as [[| | | | | l |] |]; try discriminate.
  cbn [mbind result_bind py_len py_iter]. rewrite Nat.eqb_refl.
  unfold compare_distributions. rewrite (compare_distributions_same l _ _ Hc).
  reflexivity.
Qed.

Lemma answer_agrees_with_diff_witness :
  exists diff,
    datasets_equal (JDict sample_compared_dataset) sample_other_dataset
      (Some [FieldName "title"; FieldName "issued"]) (Some [FieldName "format"]) true
      = Ok (Diff diff) /\
    false = is_nil diff
            && same_distribution_count (JDict sample_compared_dataset) sample_other_dataset
                 (Some [FieldName "format"]).
Proof.
  apply (answer_agrees_with_diff (JDict sample_compared_dataset) sample_other_dataset
           (Some [FieldName "title"; FieldName "issued"]) (Some [FieldName "format"]) false).
  reflexivity.
Defined.

Lemma diff_entries_differ_witness :
  exists diff,
    datasets_equal (JDict sample_compared_dataset) sample_other_dataset
      (Some [FieldName "title"; FieldName "issued"]) (Some [FieldName "format"]) true
      = Ok (Diff diff) /\
    length diff = 2%nat /\ forallb differs diff = true.
Proof.
  eexists. split; [reflexivity |]. split; [reflexivity |].
  apply (diff_entries_differ (JDict sample_compared_dataset) sample_other_dataset
           (Some [FieldName "title"; FieldName "issued"]) (Some [FieldName "format"])).
  reflexivity.
Defined.

Lemma dataset_equals_itself_witness :
  datasets_equal (JDict sample_compared_dataset) (JDict sample_compared_dataset)
    (Some [FieldName "issued"]) (Some [FieldName "format"]) false = Ok (IsEqual true).
Proof.
  apply (dataset_equals_itself sample_compared_dataset
           (Some [FieldName "issued"]) (Some [FieldName "format"]) false).
  reflexivity.
Defined.

(** * More on the bulk removal *)

Section RemovalShape.
Context `{Registry}.

Lemma purged_page_searches (query : string) (k n : nat) :
  purged (page_searches query k n) = [].
Proof.
  unfold page_searches. revert k. induction n as [| n IH]; intros k; [reflexivity |].
  cbn [seq fmap list_fmap]. apply (IH (S k)).
Qed.

Lemma page_searches_snoc (query : string) (k n : nat) :
  (PackageSearch query 500 (500 * Z.of_nat k) :: page_searches query (S k) n) =
  page_searches query k (S n).
Proof. reflexivity. Qed.

(** Paging asks for consecutive pages. *)
Lemma search_pages_log (fuel : nat) :
  forall st query sr ids k ids' st',
    search_pages fuel st query sr ids (500 * Z.of_nat k) = Some (ids', st') ->
    exists n, snd st' = (snd st ++ page_searches query k n)%list.
Proof.
  induction fuel as [| fuel IH]; intros st query sr ids k ids' st'; cbn [search_pages].
  - destruct (count sr >? _); [discriminate |]. intros [= _ <-].
    exists O. by rewrite app_nil_r.
  - destruct (count sr >? _).
    + unfold call_package_search. destruct (package_search _ _ _ _) as [sr' p].
      replace (500 * Z.of_nat k + 500) with (500 * Z.of_nat (S k)) by lia.
      intros E. apply IH in E as [n ->]. exists (S n). cbn [snd].
      by rewrite <- app_assoc.
    + intros [= _ <-]. exists O. by rewrite app_nil_r.
Qed.

(** X26: the calls of a removal are, in this order, the searches of
    consecutive pages of 500 of its organization, from 0 on and at least one
    (none when no organization is given), and then the purges: nothing is
    purged before the last search. *)
Theorem removal_call_log (fuel : nat) (ckan_portal : portal) (portal_url : string)
    (filter_in filter_out : option json) (only_time_series : bool)
    (organization : option string) (st : run_state) :
  remove_datasets_from_ckan fuel ckan_portal portal_url filter_in filter_out
    only_time_series organization = Some st ->
  exists n,
    snd st = (organization_searches organization n
              ++ (DatasetPurge <$> purged (snd st)))%list.
Proof.
  unfold remove_datasets_from_ckan, organization_searches, active_organization.
  fold (filters_active filter_in filter_out only_time_series).
  destruct organization as [o |]; [destruct (String.eqb o "") eqn:Eo |].
  - cbn [negb mbind option_bind]. intros [= <-]. exists O.
    rewrite purge_loop. cbn [snd app]. by rewrite purged_purges.
  - fold (organization_query o). cbn [negb].
    unfold call_package_search. cbn [fst snd app].
    destruct (package_search _ _ _ _) as [sr p].
    destruct (search_pages _ _ _ _ _ _) as [[ids st'] |] eqn:E;
      cbn [mbind option_bind]; [| discriminate].
    intros [= <-].
    change 500 with (500 * Z.of_nat 1) in E at 2.
    apply search_pages_log in E as [n E]. cbn [snd] in E.
    change [PackageSearch (organization_query o) 500 0]
      with (page_searches (organization_query o) 0 1) in E.
    exists n. rewrite purge_loop, E, !purged_app, !purged_page_searches, purged_purges.
    reflexivity.
  - cbn [mbind option_bind]. intros [= <-]. exists O.
    rewrite purge_loop. cbn [snd app]. by rewrite purged_purges.
Qed.

Lemma search_pages_collects (content : portal -> list string) (c : list string)
    (fuel : nat) :
  serves_slices content ->
  forall (k : nat) st query sr,
    content (fst st) = c ->
    count sr = Z.of_nat (length c) ->
    (length c <= 500 * (k + fuel))%nat ->
    exists st',
      search_pages fuel st query sr (take (500 * k) c) (500 * Z.of_nat k) = Some (c, st').
Proof.
  intros Hserve. induction fuel as [| fuel IH]; intros k st query sr Hst Hsr Hlen;
    cbn [search_pages]; rewrite Hsr.
  - destruct (Z.gtb_spec (Z.of_nat (length c)) (500 * Z.of_nat k)); [lia |].
    rewrite take_ge by lia. eauto.
  - destruct (Z.gtb_spec (Z.of_nat (length c)) (500 * Z.of_nat k)).
    + unfold call_package_search.
      destruct (Hserve (fst st) query (500 * Z.of_nat k)) as (Hc & Hr & Hp); [lia |].
      destruct (package_search _ _ _ _) as [sr' p]. cbn [fst snd] in Hc, Hr, Hp.
      rewrite Hr, Hst.
      replace (Z.to_nat (500 * Z.of_nat k)) with (500 * k)%nat by lia.
      rewrite take_take_drop.
      replace (500 * k + 500)%nat with (500 * S k)%nat by lia.
      replace (500 * Z.of_nat k + 500) with (500 * Z.of_nat (S k)) by lia.
      apply IH; [cbn [fst]; by rewrite Hp | by rewrite Hc, Hst | lia].
    + rewrite take_ge by lia. eauto.
Qed.

(** X27: against a registry that serves slices of a list of identifiers, the
    paging of the organization source collects the whole list, each
    identifier once and in order, whatever its length. *)
Theorem pagination_collects_all (content : portal -> list string) (fuel : nat)
    (ckan_portal : portal) (organization : string) :
  serves_slices content ->
  (length (content ckan_portal) <= 500 * S fuel)%nat ->
  organization_source fuel ckan_portal organization = Some (content ckan_portal).
Proof.
  intros Hserve Hlen. unfold organization_source, call_package_search. cbn [fst snd app].
  destruct (Hserve ckan_portal (organization_query organization) 0) as (Hc & Hr & Hp);
    [lia |].
  destruct (package_search _ _ _ _) as [sr p]. cbn [fst snd] in Hc, Hr, Hp.
  rewrite Hr. change (Z.to_nat 0) with O. rewrite drop_0.
  destruct (search_pages_collects content (content ckan_portal) fuel Hserve 1
              (p, [PackageSearch (organization_query organization) 500 0])
              (organization_query organization) sr Hp Hc) as [st' E]; [lia |].
  change (500 * Z.of_nat 1) with 500 in E.
  replace (500 * 1)%nat with 500%nat in E by lia.
  by rewrite E.
Qed.

End RemovalShape.

Lemma removal_call_log_witness :
  exists st,
    @remove_datasets_from_ckan sample_registry 1 ["b"; "c"] "http://portal"
      None None false (Some "org") = Some st /\
    snd st = [PackageSearch (organization_query "org") 500 0;
              DatasetPurge "b"; DatasetPurge "c"].
Proof.
  eexists. split; [reflexivity |].
  destruct (@removal_call_log sample_registry 1 ["b"; "c"] "http://portal"
              None None false (Some "org") _ eq_refl) as [n Hn].
  reflexivity.
Defined.

Lemma sample_registry_serves_slices : @serves_slices sample_registry (fun p => p).
Proof. intros p q start _. repeat split. Qed.

Lemma pagination_collects_all_witness :
  @organization_source sample_registry 2 (replicate 1200 "x") "org"
    = Some (replicate 1200 "x").
Proof.
  apply (@pagination_collects_all sample_registry (fun p => p) 2 (replicate 1200 "x") "org").
  - exact sample_registry_serves_slices.
  - vm_compute. lia.
Defined.

(** * Pushing a dataset *)

Lemma dict_has_set (k : string) (v : json) (d : list (string * json)) :
  dict_has k (dict_set k v d) = true.
Proof.
  unfold dict_has. induction d as [| [k' v'] d IH]; cbn [dict_set dict_lookup].
  - by rewrite String.eqb_refl.
  - destruct (String.eqb k k') eqn:E; cbn [dict_lookup]; rewrite E; [reflexivity | exact IH].
Qed.

Lemma setitem_license_id (package p : json) (v : json) :
  py_setitem package "license_id" v = Ok p -> has_license_id p = true.
Proof.
  destruct package; try discriminate. intros [= <-]. apply dict_has_set.
Qed.

Section PushFacts.
Context `{Ckan} `{DataJson}.

Lemma lift_inv {A : Type} (r : result A) (st st' : remote * list event) (o : outcome A) :
  lift r st = (o, st') -> o = of_result r /\ st' = st.
Proof. by intros [= <- <-]. Qed.

Lemma call_action_inv (a : action) (st st' : remote * list event) (o : outcome json) :
  call_action a st = (o, st') -> snd st' = (snd st ++ [Called a o])%list.
Proof.
  unfold call_action. destruct (serve (fst st) a) as [answer r]. by intros [= <- <-].
Qed.

(** The license lookup makes at most one call, and the package it returns
    has a ['license_id']. *)
Lemma license_block (dataset package license : json) (st st' : remote * list event)
    (o : outcome json) :
  (if py_truthy license then
     license_list ← call_action LicenseList;
     license_list ← lift (py_iter license_list);
     ckan_license ← lift (next_license dataset license_list);
     match ckan_license with
     | Some ckan_license =>
         license_id ← lift (py_getitem ckan_license "id");
         lift (py_setitem package "license_id" license_id)
     | None => lift (py_setitem package "license_id" (JStr "notspecified"))
     end
   else lift (py_setitem package "license_id" (JStr "notspecified"))) st = (o, st') ->
  exists lic,
    license_events lic /\ snd st' = (snd st ++ lic)%list /\
    forall p, o = Returned p -> has_license_id p = true.
Proof.
  assert (Hset : forall v (s s' : remote * list event) o',
            lift (py_setitem package "license_id" v) s = (o', s') ->
            s' = s /\ forall p, o' = Returned p -> has_license_id p = true).
  { intros v s s' o' [-> ->]%lift_inv. split; [reflexivity |].
    destruct (py_setitem package "license_id" v) eqn:E; cbn; [| discriminate].
    intros p [= <-]. by eapply setitem_license_id. }
  destruct (py_truthy license).
  - unfold mbind, session_bind.
    destruct (call_action LicenseList st) as [[license_list | f] st1] eqn:Ecall.
    + apply call_action_inv in Ecall.
      assert (Hrest : forall (m : session remote json),
                (forall s s' o', m s = (o', s') ->
                   s' = s /\ forall p, o' = Returned p -> has_license_id p = true) ->
                m st1 = (o, st') ->
                exists lic, license_events lic /\ snd st' = (snd st ++ lic)%list /\
                            forall p, o = Returned p -> has_license_id p = true).
      { intros m Hm Em. destruct (Hm _ _ _ Em) as [-> Hp].
        exists [Called LicenseList (Returned license_list)].
        split; [right; eauto | by split]. }
      assert (Hfail : forall f, (Failed f, st1) = (o, st') ->
                exists lic, license_events lic /\ snd st' = (snd st ++ lic)%list /\
                            forall p, o = Returned p -> has_license_id p = true).
      { intros f [= <- <-]. exists [Called LicenseList (Returned license_list)].
        split; [right; eauto | split; [exact Ecall | discriminate]]. }
      unfold lift at 1. destruct (py_iter license_list) as [l | e]; cbn [of_result];
        [| apply Hfail].
      unfold lift at 1. destruct (next_license dataset l) as [[found |] | e];
        cbn [of_result]; [| | apply Hfail].
      * unfold lift at 1. destruct (py_getitem found "id") as [license_id | e];
          cbn [of_result]; [| apply Hfail].
        apply Hrest. apply Hset.
      * apply Hrest. apply Hset.
    + apply call_action_inv in Ecall. intros [= <- <-].
      exists [Called LicenseList (Failed f)].
      split; [right; eauto | split; [exact Ecall | discriminate]].
  - intros E. destruct (Hset _ _ _ _ E) as [-> Hp].
    exists []. split; [by left | split; [by rewrite app_nil_r | exact Hp]].
Qed.

(** The update, and the creation when the update was not found. *)
Lemma update_block (package : json) (st st' : remote * list event) (o : outcome json) :
  (pushed_package ← except_NotFound (call_action (PackageUpdate package))
                                    (call_action (PackageCreate package));
   _ ← close;
   lift (py_getitem pushed_package "id")) st = (o, st') ->
  exists evs, snd st' = (snd st ++ evs)%list /\ update_events package evs o.
Proof.
  unfold mbind, session_bind, except_NotFound, close, lift.
  destruct (call_action (PackageUpdate package) st) as [[q | [| e]] st1] eqn:Eupd;
    apply call_action_inv in Eupd.
  - intros [= <- <-]. cbn [fst snd]. rewrite Eupd, <- app_assoc.
    eexists. split; [reflexivity |]. left. eauto.
  - destruct (call_action (PackageCreate package) st1) as [[q | f] st2] eqn:Ecre;
      apply call_action_inv in Ecre.
    + intros [= <- <-]. cbn [fst snd]. rewrite Ecre, Eupd, <- !app_assoc.
      eexists. split; [reflexivity |]. right. left. eauto.
    + intros [= <- <-]. rewrite Ecre, Eupd, <- !app_assoc.
      eexists. split; [reflexivity |]. right. right. left. eauto.
  - intros [= <- <-]. rewrite Eupd.
    eexists. split; [reflexivity |]. right. right. right. eauto.
Qed.

(** X28: whatever the registry and the collaborators answer, a push makes
    at most one call of ['license_list'], then the update of a package that
    has a ['license_id'], and the creation of the same package only when
    the update was not found; the session is closed only once the update or
    the creation has returned, and the push returns the ['id'] of that
    answer. *)
Theorem push_session_events (catalog : json)
    (owner_org dataset_origin_identifier : string) (catalog_id : option string)
    (demote_superThemes demote_themes : bool)
    (st st' : remote * list event) (o : outcome json) :
  push_dataset_to_ckan catalog owner_org dataset_origin_identifier catalog_id
    demote_superThemes demote_themes st = (o, st') ->
  exists evs, snd st' = (snd st ++ evs)%list /\ push_events evs o.
Proof.
  assert (Hfail : forall f, (Failed f, st) = (o, st') ->
            exists evs, snd st' = (snd st ++ evs)%list /\ push_events evs o).
  { intros f [= <- <-]. exists []. split; [by rewrite app_nil_r |].
    exists []. split; [by left | left; eauto]. }
  unfold push_dataset_to_ckan.
  unfold mbind at 1, session_bind at 1, external at 1.
  destruct (get_dataset catalog dataset_origin_identifier) as [dataset | f];
    [| apply Hfail].
  unfold mbind at 1, session_bind at 1, external at 1.
  destruct (map_dataset_to_package _ _ _ _ _ _) as [package | f]; [| apply Hfail].
  unfold mbind at 1, session_bind at 1, lift at 1.
  destruct (py_get dataset "license") as [license | e]; cbn [of_result]; [| apply Hfail].
  unfold mbind at 1, session_bind at 1.
  match goal with
  | |- context [match ?block st with _ => _ end] =>
      destruct (block st) as [[p | f] st1] eqn:Eblock
  end.
  - apply license_block in Eblock as (lic & Hlic & Hst1 & Hp).
    intros Eupd. apply update_block in Eupd as (evs & Hst' & Hevs).
    exists (lic ++ evs)%list. rewrite Hst', Hst1, <- app_assoc. split; [reflexivity |].
    exists lic. split; [exact Hlic |]. right. exists p, evs. by split; [apply Hp |].
  - apply license_block in Eblock as (lic & Hlic & Hst1 & _).
    intros [= <- <-]. exists lic. split; [exact Hst1 |].
    exists lic. split; [exact Hlic | left; eauto].
Qed.

Lemma next_license_find (d : list (string * json)) (license : json)
    (license_list : list json) :
  dict_lookup "license" d = Some license ->
  forallb listed_license license_list = true ->
  next_license (JDict d) license_list =
    Ok (List.find (license_matches license) license_list).
Proof.
  intros Hd. induction license_list as [| item l IH]; [reflexivity |].
  cbn [forallb]. intros [Hitem Hl]%andb_prop.
  destruct item as [| | | | | | i]; try discriminate.
  cbn [listed_license] in Hitem.
  apply andb_prop in Hitem as [[Ht Hu]%andb_prop _].
  unfold dict_has in Ht, Hu.
  cbn [next_license List.find license_matches py_getitem]. unfold dict_get.
  rewrite Hd.
  destruct (dict_lookup "title" i) as [title |]; [| discriminate].
  destruct (dict_lookup "url" i) as [url |]; [| discriminate].
  cbn [mbind result_bind].
  destruct (py_eq title license); cbn [orb]; [reflexivity |].
  destruct (py_eq url license); [reflexivity | by apply IH].
Qed.

(** X29: the ['license_id'] of the package that is pushed: ['notspecified']
    for a dataset without license, with no call of ['license_list']; else
    the ['id'] of the first entry of the list whose title or url is the
    license of the dataset, and ['notspecified'] when there is none. *)
Theorem license_resolution (catalog : json)
    (owner_org dataset_origin_identifier : string) (catalog_id : option string)
    (demote_superThemes demote_themes : bool)
    (d package : list (string * json)) (license_list : list json)
    (st : remote * list event) :
  get_dataset catalog dataset_origin_identifier = Returned (JDict d) ->
  map_dataset_to_package catalog (JDict d) owner_org catalog_id
    demote_superThemes demote_themes = Returned (JDict package) ->
  (py_truthy (dict_get "license" d JNull) = true ->
   fst (serve (fst st) LicenseList) = Returned (JList license_list) /\
   forallb listed_license license_list = true) ->
  exists answer rest,
    snd (snd (push_dataset_to_ckan catalog owner_org dataset_origin_identifier catalog_id
                demote_superThemes demote_themes st)) =
      (snd st
       ++ (if py_truthy (dict_get "license" d JNull)
           then [Called LicenseList (Returned (JList license_list))] else [])
       ++ Called (PackageUpdate
                    (JDict (dict_set "license_id"
                              (resolved_license_id (dict_get "license" d JNull) license_list)
                              package))) answer
          :: rest)%list.
Proof.
  intros Hget Hmap Hlist.
  assert (Hupd : forall p (s : remote * list event),
    exists answer rest,
      snd (snd ((pushed_package ← except_NotFound (call_action (PackageUpdate p))
                                                  (call_action (PackageCreate p));
                 _ ← close;
                 lift (py_getitem pushed_package "id")) s)) =
        (snd s ++ Called (PackageUpdate p) answer :: rest)%list).
  { intros p s.
    destruct ((pushed_package ← except_NotFound (call_action (PackageUpdate p))
                                                (call_action (PackageCreate p));
               _ ← close;
               lift (py_getitem pushed_package "id")) s) as [o s'] eqn:E.
    apply update_block in E as (evs & Hs' & Hevs). cbn [snd]. rewrite Hs'.
    destruct Hevs as [(q & -> & _) | [(q & -> & _) | [(f & -> & _) | (e & -> & _)]]];
      eauto. }
  unfold push_dataset_to_ckan.
  unfold mbind at 1, session_bind at 1, external at 1. rewrite Hget.
  unfold mbind at 1, session_bind at 1, external at 1. rewrite Hmap.
  unfold mbind at 1, session_bind at 1, lift at 1.
  cbn [py_get py_get_default of_result].
  unfold resolved_license_id.
  destruct (py_truthy (dict_get "license" d JNull)) eqn:Et.
  - destruct (Hlist eq_refl) as [Hserve Hlisted].
    assert (Hd : dict_lookup "license" d = Some (dict_get "license" d JNull)).
    { unfold dict_get in Et |- *. by destruct (dict_lookup "license" d). }
    unfold mbind at 1, session_bind at 1.
    unfold mbind at 1, session_bind at 1, call_action at 1.
    destruct (serve (fst st) LicenseList) as [answer r]. cbn [fst] in Hserve. subst answer.
    unfold mbind at 1, session_bind at 1, lift at 1. cbn [py_iter of_result].
    unfold mbind at 1, session_bind at 1, lift at 1.
    rewrite (next_license_find d _ license_list Hd Hlisted). cbn [of_result].
    destruct (List.find _ license_list) as [found |] eqn:Efind.
    + apply find_some in Efind as [Hin _].
      rewrite forallb_forall in Hlisted. specialize (Hlisted _ Hin).
      destruct found as [| | | | | | i]; try discriminate.
      cbn [listed_license] in Hlisted. apply andb_prop in Hlisted as [_ Hid].
      unfold dict_has in Hid.
      unfold mbind at 1, session_bind at 1, lift at 1. cbn [py_getitem]. unfold dict_get.
      destruct (dict_lookup "id" i) as [license_id |]; [| discriminate].
      cbn [of_result]. unfold lift at 1. cbn [py_setitem of_result].
      destruct (Hupd (JDict (dict_set "license_id" license_id package))
                  (r, (snd st ++ [Called LicenseList (Returned (JList license_list))])%list))
        as (answer & rest & ->).
      exists answer, rest. cbn [snd]. by rewrite <- app_assoc.
    + unfold lift at 1. cbn [py_setitem of_result].
      destruct (Hupd (JDict (dict_set "license_id" (JStr "notspecified") package))
                  (r, (snd st ++ [Called LicenseList (Returned (JList license_list))])%list))
        as (answer & rest & ->).
      exists answer, rest. cbn [snd]. by rewrite <- app_assoc.
  - unfold mbind at 1, session_bind at 1, lift at 1. cbn [py_setitem of_result].
    destruct (Hupd (JDict (dict_set "license_id" (JStr "notspecified") package)) st)
      as (answer & rest & ->).
    exists answer, rest. reflexivity.
Qed.

End PushFacts.

Lemma push_session_events_witness :
  exists evs,
    snd (snd (@push_dataset_to_ckan sample_ckan sample_datajson sample_push_catalog
                "org" "7" None true true ([], []))) = evs /\
    push_events evs (Returned (JStr "7")).
Proof.
  destruct (@push_session_events sample_ckan sample_datajson sample_push_catalog
              "org" "7" None true true ([], []) _ _ eq_refl) as (evs & Hevs & Hpush).
  exists evs. split; [exact Hevs | exact Hpush].
Defined.

Lemma license_resolution_witness :
  exists answer rest,
    snd (snd (@push_dataset_to_ckan sample_ckan sample_datajson sample_push_catalog
                "org" "7" None true true ([], []))) =
      Called LicenseList (Returned (JList sample_licenses))
      :: Called (PackageUpdate (JDict [("id", JStr "7"); ("owner_org", JStr "org");
                                       ("license_id", JStr "2")])) answer
      :: rest.
Proof.
  apply (@license_resolution sample_ckan sample_datajson sample_push_catalog
           "org" "7" None true true sample_licensed_dataset
           [("id", JStr "7"); ("owner_org", JStr "org")] sample_licenses ([], []));
    [reflexivity | reflexivity | intros _; split; reflexivity].
Defined.

(** * The field percentages of one catalog *)

Section CatalogShape.
Context `{Collaborators}.

Lemma count_fields_recursive_within (dataset : json)
    (fields : list (string * field_spec)) (c : key_count) :
  count_fields_recursive dataset fields = Ok c -> within_totals c.
Proof.
  unfold count_fields_recursive.
  refine (foldM_invariant _ within_totals fields _ key_count_zero c within_totals_zero).
  intros a kv a' _ Ha Ea. by eapply count_field_within.
Qed.

(** X30: in the indicators of a catalog the percentages of recommended and
    of optional fields are the used fields over the fields of the schema, as
    counted by the field counter, and lie between 0 and 100. *)
Theorem field_percentages_in_range (catalog : json) (v : option validator)
    (fc : key_count) (ind : indicators) :
  generate_indicators catalog v = Ok (fc, ind) ->
  campos_recomendados_pct ind = percentage (kc_recomendado fc) (kc_total_recomendado fc) /\
  campos_optativos_pct ind = percentage (kc_optativo fc) (kc_total_optativo fc) /\
  ((0 <= campos_recomendados_pct ind)%Q /\ (campos_recomendados_pct ind <= 100)%Q) /\
  ((0 <= campos_optativos_pct ind)%Q /\ (campos_optativos_pct ind <= 100)%Q).
Proof.
  unfold generate_indicators. intros E.
  apply bind_Ok_inv in E as (status & _ & E).
  apply bind_Ok_inv in E as (dates & _ & E).
  apply bind_Ok_inv in E as (formats & _ & E).
  apply bind_Ok_inv in E as (fields_count & Efc & E).
  apply bind_Ok_inv in E as (rp & Erp & E).
  apply bind_Ok_inv in E as (op & Eop & E).
  injection E as <- <-. cbn [campos_recomendados_pct campos_optativos_pct].
  apply py_div_inv in Erp as [Hr ->]. apply py_div_inv in Eop as [Ho ->].
  destruct (count_fields_recursive_within _ _ _ Efc) as (Wr & Wo & _).
  pose proof (percentage_bounds _ _ Wr) as Br. pose proof (percentage_bounds _ _ Wo) as Bo.
  unfold percentage in Br, Bo |- *.
  apply Nat.eqb_neq in Hr, Ho. rewrite Hr in Br |- *. rewrite Ho in Bo |- *.
  split; [reflexivity |]. split; [reflexivity |]. by split.
Qed.

End CatalogShape.

Lemma sample_catalog_run :
  exists fc ind,
    @generate_indicators sample_collaborators sample_small_catalog None = Ok (fc, ind).
Proof.
  destruct (@generate_indicators sample_collaborators sample_small_catalog None)
    as [[fc ind] |] eqn:E; [eauto | vm_compute in E; discriminate E].
Defined.

Lemma field_percentages_in_range_witness :
  exists fc ind,
    @generate_indicators sample_collaborators sample_small_catalog None = Ok (fc, ind) /\
    (0 <= campos_recomendados_pct ind)%Q /\ (campos_recomendados_pct ind <= 100)%Q.
Proof.
  destruct sample_catalog_run as (fc & ind & E). exists fc, ind. split; [exact E |].
  by destruct (@field_percentages_in_range sample_collaborators _ _ _ _ E)
    as (_ & _ & Hr & _).
Defined.
